(** * Airbnb-Lite: the booking and inventory reservation engine

    A shallow embedding of the service layer of the repository
    ([app/services/booking.py], [app/services/inventory.py],
    [app/services/payment.py]) over the tables declared in [app/models/],
    and the properties of the reservation engine proved on it.

    Conventions of the embedding.
    - A calendar date is its day ordinal, an integer: [d + timedelta(days=i)]
      is [d + i] and [(b - a).days] is [b - a].
    - A [Float] column is an IEEE binary64 value (Rocq's primitive floats);
      an [Integer] column is an integer.
    - A table is a finite map from the primary key to the row; the
      inventory table is keyed by its unique pair (room, date).  A row's
      primary key is the key the table holds it under.
    - [AsyncSession] is the state threaded through every service call; a
      raised exception is a result of the call, returned together with the
      state the session is in at that point.  [flush] and [refresh] hand
      back what was written; [self.db.add] stores the row under a new key.
    - [flush] refuses a write that breaks a uniqueness constraint declared
      in [app/models/]: [payments.booking_id] and [payments.transaction_id]
      ([unique=True]) and the primary key [(booking_id, guest_id)] of
      [booking_guests].  The call then raises [IntegrityError], and since
      [get_db] rolls the session back on any exception, the state returned
      with it is the store of before the call.
    - [date.today()], [datetime.utcnow()], the database clock [func.now()]
      and [uuid.uuid4().hex] are inputs of the calls that read them. *)

From Stdlib Require Import ZArith Floats Lia.
From stdpp Require Import gmap strings list fin_maps sorting.

Open Scope Z_scope.

(** ** Enumerations ([app/models/]) *)

Module BookingStatus.
Inductive t := PENDING | CONFIRMED | CANCELLED | CHECKED_IN | CHECKED_OUT | EXPIRED.
#[global] Instance eq_dec : EqDecision t.
Proof. solve_decision. Defined.
End BookingStatus.

Module PaymentStatus.
Inductive t := PENDING | COMPLETED | FAILED | REFUNDED.
#[global] Instance eq_dec : EqDecision t.
Proof. solve_decision. Defined.
End PaymentStatus.

Module PaymentMethod.
Inductive t := CREDIT_CARD | DEBIT_CARD | UPI | NET_BANKING | WALLET.
End PaymentMethod.

Module UserRole.
Inductive t := GUEST | HOTEL_ADMIN | ADMIN.
#[global] Instance eq_dec : EqDecision t.
Proof. solve_decision. Defined.
End UserRole.

(** ** Rows of the tables

    Only the columns the engine reads or writes are kept. *)

Module User.
Record t := mk { id : Z; role : UserRole.t }.
End User.

Module Hotel.
Record t := mk { owner_id : Z; is_active : bool }.
End Hotel.

Module Room.
Record t := mk { hotel_id : Z; base_price : float; total_count : Z }.
End Room.

Module Guest.
Record t := mk { user_id : Z }.
End Guest.

Module Inventory.
Record t := mk { available_count : Z; booked_count : Z; price : float }.

Definition remaining_count (i : t) : Z := available_count i - booked_count i.
Definition set_available_count (v : Z) (i : t) : t :=
  mk v (booked_count i) (price i).
Definition set_booked_count (v : Z) (i : t) : t :=
  mk (available_count i) v (price i).
Definition set_price (v : float) (i : t) : t :=
  mk (available_count i) (booked_count i) v.
End Inventory.

Module Booking.
Record t := mk {
  user_id : Z;
  hotel_id : Z;
  room_id : Z;
  check_in_date : Z;
  check_out_date : Z;
  rooms_count : Z;
  total_price : float;
  status : BookingStatus.t;
  special_requests : option string;
  cancellation_reason : option string;
  payment_session_id : option string;
  (* the [guests] relationship: the keys of the attached guests, in order *)
  guests : list Z }.

Definition nights (b : t) : Z := check_out_date b - check_in_date b.

Definition set_status (s : BookingStatus.t) (b : t) : t :=
  mk (user_id b) (hotel_id b) (room_id b) (check_in_date b) (check_out_date b)
     (rooms_count b) (total_price b) s (special_requests b)
     (cancellation_reason b) (payment_session_id b) (guests b).
Definition set_cancellation_reason (r : option string) (b : t) : t :=
  mk (user_id b) (hotel_id b) (room_id b) (check_in_date b) (check_out_date b)
     (rooms_count b) (total_price b) (status b) (special_requests b)
     r (payment_session_id b) (guests b).
Definition set_payment_session_id (s : option string) (b : t) : t :=
  mk (user_id b) (hotel_id b) (room_id b) (check_in_date b) (check_out_date b)
     (rooms_count b) (total_price b) (status b) (special_requests b)
     (cancellation_reason b) s (guests b).
Definition set_guests (g : list Z) (b : t) : t :=
  mk (user_id b) (hotel_id b) (room_id b) (check_in_date b) (check_out_date b)
     (rooms_count b) (total_price b) (status b) (special_requests b)
     (cancellation_reason b) (payment_session_id b) g.
End Booking.

Module Payment.
Record t := mk {
  booking_id : Z;
  amount : float;
  currency : string;
  status : PaymentStatus.t;
  payment_method : option PaymentMethod.t;
  transaction_id : option string;
  payment_session_id : option string;
  paid_at : option Z;
  created_at : Z }.

Definition set_status (s : PaymentStatus.t) (p : t) : t :=
  mk (booking_id p) (amount p) (currency p) s (payment_method p)
     (transaction_id p) (payment_session_id p) (paid_at p) (created_at p).
Definition set_transaction_id (x : option string) (p : t) : t :=
  mk (booking_id p) (amount p) (currency p) (status p) (payment_method p)
     x (payment_session_id p) (paid_at p) (created_at p).
Definition set_paid_at (x : option Z) (p : t) : t :=
  mk (booking_id p) (amount p) (currency p) (status p) (payment_method p)
     (transaction_id p) (payment_session_id p) x (created_at p).
End Payment.

(** ** Request bodies ([app/schemas/]) *)

Module BookingCreate.
Record t := mk {
  hotel_id : Z;
  room_id : Z;
  check_in_date : Z;
  check_out_date : Z;
  rooms_count : Z;
  special_requests : option string }.

(** [rooms_count: int = Field(1, ge=1)] *)
Definition valid (d : t) : Prop := 1 ≤ rooms_count d.
End BookingCreate.

(** A field of a request body that [model_dump(exclude_unset=True)] tells
    apart: left out, or given (possibly as [null]). *)
Inductive Field (A : Type) := Unset | Given (v : option A).
Arguments Unset {A}.
Arguments Given {A} v.

Definition field_value {A} (f : Field A) : option A :=
  match f with Unset => None | Given v => v end.

Module InventoryUpdate.
Record t := mk { available_count : Field Z; price : Field float }.

(** [available_count: Optional[int] = Field(None, ge=0)] *)
Definition valid (u : t) : Prop :=
  ∀ v, field_value (available_count u) = Some v → 0 ≤ v.
End InventoryUpdate.

Module InventoryBulkUpdate.
Record t := mk {
  start_date : Z;
  end_date : Z;
  available_count : option Z;
  price : option float }.

Definition valid (u : t) : Prop := ∀ v, available_count u = Some v → 0 ≤ v.
End InventoryBulkUpdate.

Module PaymentWebhookPayload.
Record t := mk {
  payment_session_id : string;
  transaction_id : string;
  status : string;
  amount : float;
  currency : string }.
End PaymentWebhookPayload.

(** ** Exceptions

    One [Detail] per [raise HTTPException(...)] of the services; the comment
    gives the message of the source. *)

Inductive Detail :=
  | CheckOutNotAfterCheckIn    (* "Check-out date must be after check-in date" *)
  | CheckInInPast              (* "Check-in date cannot be in the past" *)
  | HotelNotFoundOrInactive    (* "Hotel not found or not active" *)
  | RoomNotInHotel             (* "Room not found in this hotel" *)
  | NoInventoryForDate (d : Z) (* f"No inventory available for date {inv_date}" *)
  | NotEnoughRooms (d : Z)     (* f"Not enough rooms available for date {inv_date}" *)
  | BookingNotFound            (* "Booking not found" *)
  | NotAuthorizedBooking       (* "Not authorized to access this booking" *)
  | CannotAddGuests            (* "Cannot add guests to this booking" *)
  | SomeGuestsNotFound         (* "Some guests not found" *)
  | BookingCannotBeCancelled   (* "Booking cannot be cancelled" *)
  | NotAuthorizedToPay         (* "Not authorized to pay for this booking" *)
  | BookingNotPending          (* "Booking is not in pending status" *)
  | PaymentAlreadyCompleted    (* "Payment already completed" *)
  | PaymentSessionNotFound     (* "Payment session not found" *)
  | PaymentAlreadyProcessed    (* "Payment already processed" *)
  | RoomNotFound               (* "Room not found" *)
  | NotAuthorizedInventory     (* "Not authorized to access this room's inventory" *)
  | StartAfterEnd.             (* "Start date must be before end date" *)

Inductive Exn :=
  | HTTPException (status_code : Z) (detail : Detail)
  | MultipleResultsFound   (* [scalar_one_or_none] on more than one row *)
  | AttributeError         (* an attribute read on [None] *)
  | IntegrityError.        (* a flush the tables' constraints refuse *)

(** The names the specification gives to the expected failures. *)
Definition NoInventory (d : Z) : Exn := HTTPException 400 (NoInventoryForDate d).
Definition InsufficientCapacity (d : Z) : Exn := HTTPException 400 (NotEnoughRooms d).
Definition InvalidState_cancel : Exn := HTTPException 400 BookingCannotBeCancelled.
Definition InvalidState_add_guests : Exn := HTTPException 400 CannotAddGuests.
Definition InvalidState_initiate : Exn := HTTPException 400 BookingNotPending.
Definition NotFound_guests : Exn := HTTPException 404 SomeGuestsNotFound.
Definition NotFound_session : Exn := HTTPException 404 PaymentSessionNotFound.
Definition AlreadyProcessed : Exn := HTTPException 400 PaymentAlreadyProcessed.

Inductive Result (A : Type) := Ok (a : A) | Raised (e : Exn).
Arguments Ok {A} a.
Arguments Raised {A} e.

(** ** The store and the session monad *)

Record DB := mkDB {
  hotels : gmap Z Hotel.t;
  rooms : gmap Z Room.t;
  inventories : gmap (Z * Z) Inventory.t;
  guests : gmap Z Guest.t;
  bookings : gmap Z Booking.t;
  payments : gmap Z Payment.t }.

Definition set_inventories (f : gmap (Z * Z) Inventory.t → gmap (Z * Z) Inventory.t)
    (db : DB) : DB :=
  mkDB (hotels db) (rooms db) (f (inventories db)) (guests db) (bookings db) (payments db).
Definition set_bookings (f : gmap Z Booking.t → gmap Z Booking.t) (db : DB) : DB :=
  mkDB (hotels db) (rooms db) (inventories db) (guests db) (f (bookings db)) (payments db).
Definition set_payments (f : gmap Z Payment.t → gmap Z Payment.t) (db : DB) : DB :=
  mkDB (hotels db) (rooms db) (inventories db) (guests db) (bookings db) (f (payments db)).

Definition M (A : Type) : Type := DB → Result A * DB.

Definition ret {A} (a : A) : M A := λ db, (Ok a, db).
Definition raise {A} (e : Exn) : M A := λ db, (Raised e, db).
Definition bind {A B} (m : M A) (k : A → M B) : M B :=
  λ db, match m db with
        | (Ok a, db') => k a db'
        | (Raised e, db') => (Raised e, db')
        end.
Definition gets {A} (f : DB → A) : M A := λ db, (Ok (f db), db).
Definition modify (f : DB → DB) : M unit := λ db, (Ok tt, f db).

Declare Scope session_scope.
Delimit Scope session_scope with session.
Notation "'let!' x ':=' m 'in' k" := (bind m (λ x, k))
  (at level 10, x pattern, m at level 200, k at level 200) : session_scope.
Notation "'do!' m 'in' k" := (bind m (λ _, k))
  (at level 10, m at level 200, k at level 200) : session_scope.
Open Scope session_scope.

(** [for x in xs: body(x)] *)
Fixpoint for_each {A} (xs : list A) (body : A → M unit) : M unit :=
  match xs with
  | [] => ret tt
  | x :: xs' => do! body x in for_each xs' body
  end.

(** [for x in xs: acc = body(acc, x)] *)
Fixpoint for_fold {A B} (xs : list A) (acc : B) (body : B → A → M B) : M B :=
  match xs with
  | [] => ret acc
  | x :: xs' => let! acc' := body acc x in for_fold xs' acc' body
  end.

(** ** Queries *)

(** The rows of a table a [where] clause keeps, with their keys. *)
Definition select_where {A} (P : Z * A → Prop) `{!∀ x, Decision (P x)}
    (table : gmap Z A) : list (Z * A) :=
  map_to_list (filter P table).

(** [result.scalar_one_or_none()] *)
Definition scalar_one_or_none {A} (rows : list A) : M (option A) :=
  match rows with
  | [] => ret None
  | [r] => ret (Some r)
  | _ => raise MultipleResultsFound
  end.

(** [flush()] of a write into a column that is [unique=True]: refused when
    a row that [clash] selects holds the value already. *)
Definition flush_unique {A} (clash : Z * A → Prop) `{!∀ x, Decision (clash x)}
    (table : DB → gmap Z A) : M unit :=
  let! rows := gets (λ db, select_where clash (table db)) in
  match rows with
  | [] => ret tt
  | _ :: _ => raise IntegrityError
  end.

(** The key the store gives a new row: one past the largest key in use. *)
Definition next_id {A} (table : gmap Z A) : Z :=
  1 + map_fold (λ k _ acc, Z.max k acc) 0 table.

(** [x or y] on an optional integer and on an optional float: [None] and
    zero are falsy. *)
Definition or_int (x : option Z) (y : Z) : Z :=
  match x with
  | Some v => if bool_decide (v = 0) then y else v
  | None => y
  end.
Definition or_float (x : option float) (y : float) : float :=
  match x with
  | Some v => if PrimFloat.eqb v 0%float then y else v
  | None => y
  end.

(** [float * int]: the integer is converted to the nearest float. *)
Definition float_of_int (z : Z) : float :=
  SF2Prim (SpecFloat.binary_normalize prec emax z 0 false).

(** The dates of [for i in range(nights): check_in + timedelta(days=i)]. *)
Definition night_dates (check_in check_out : Z) : list Z :=
  (λ i, check_in + i) <$> seqZ 0 (check_out - check_in).

(** ** [app/services/booking.py]: [BookingService] *)

(** The per-date body of the availability loop of [init_booking]. *)
Definition check_date (room_id rooms_count : Z) (total_price : float) (inv_date : Z)
    : M float :=
  let! inventory := gets (λ db, inventories db !! (room_id, inv_date)) in
  match inventory with
  | None => raise (HTTPException 400 (NoInventoryForDate inv_date))
  | Some inventory =>
      let available := Inventory.available_count inventory - Inventory.booked_count inventory in
      if bool_decide (available < rooms_count)
      then raise (HTTPException 400 (NotEnoughRooms inv_date))
      else ret (PrimFloat.add total_price
                  (PrimFloat.mul (Inventory.price inventory) (float_of_int rooms_count)))
  end.

Definition _reserve_inventory (booking : Booking.t) : M unit :=
  for_each (night_dates (Booking.check_in_date booking) (Booking.check_out_date booking))
    (λ inv_date,
      let! inventory := gets (λ db, inventories db !! (Booking.room_id booking, inv_date)) in
      match inventory with
      | Some inventory =>
          modify (set_inventories
            <[(Booking.room_id booking, inv_date) :=
                Inventory.set_booked_count
                  (Inventory.booked_count inventory + Booking.rooms_count booking)
                  inventory]>)
      | None => ret tt
      end).

Definition _release_inventory (booking : Booking.t) : M unit :=
  for_each (night_dates (Booking.check_in_date booking) (Booking.check_out_date booking))
    (λ inv_date,
      let! inventory := gets (λ db, inventories db !! (Booking.room_id booking, inv_date)) in
      match inventory with
      | Some inventory =>
          modify (set_inventories
            <[(Booking.room_id booking, inv_date) :=
                Inventory.set_booked_count
                  (Z.max 0 (Inventory.booked_count inventory - Booking.rooms_count booking))
                  inventory]>)
      | None => ret tt
      end).

(** [self.db.add(booking); flush(); refresh(booking)]: the row is stored
    under a new key, which the call returns. *)
Definition add_booking (booking : Booking.t) : M Z :=
  let! booking_id := gets (λ db, next_id (bookings db)) in
  do! modify (set_bookings <[booking_id := booking]>) in
  ret booking_id.

Definition init_booking (today : Z) (user : User.t) (booking_data : BookingCreate.t)
    : M (Z * Booking.t) :=
  if bool_decide (BookingCreate.check_in_date booking_data
                  >= BookingCreate.check_out_date booking_data)
  then raise (HTTPException 400 CheckOutNotAfterCheckIn)
  else if bool_decide (BookingCreate.check_in_date booking_data < today)
  then raise (HTTPException 400 CheckInInPast)
  else
    let! hotel := gets (λ db,
      match hotels db !! BookingCreate.hotel_id booking_data with
      | Some h => if Hotel.is_active h then Some h else None
      | None => None
      end) in
    match hotel with
    | None => raise (HTTPException 404 HotelNotFoundOrInactive)
    | Some _ =>
      let! room := gets (λ db,
        match rooms db !! BookingCreate.room_id booking_data with
        | Some r => if bool_decide (Room.hotel_id r = BookingCreate.hotel_id booking_data)
                    then Some r else None
        | None => None
        end) in
      match room with
      | None => raise (HTTPException 404 RoomNotInHotel)
      | Some _ =>
        let! total_price :=
          for_fold
            (night_dates (BookingCreate.check_in_date booking_data)
                         (BookingCreate.check_out_date booking_data))
            0%float
            (check_date (BookingCreate.room_id booking_data)
                        (BookingCreate.rooms_count booking_data)) in
        let booking :=
          Booking.mk (User.id user)
            (BookingCreate.hotel_id booking_data)
            (BookingCreate.room_id booking_data)
            (BookingCreate.check_in_date booking_data)
            (BookingCreate.check_out_date booking_data)
            (BookingCreate.rooms_count booking_data)
            total_price
            BookingStatus.PENDING
            (BookingCreate.special_requests booking_data)
            None None [] in
        let! booking_id := add_booking booking in
        do! _reserve_inventory booking in
        ret (booking_id, booking)
      end
    end.

Definition get_booking_by_id (booking_id : Z) (user : User.t) : M Booking.t :=
  let! booking := gets (λ db, bookings db !! booking_id) in
  match booking with
  | None => raise (HTTPException 404 BookingNotFound)
  | Some booking =>
      if bool_decide (Booking.user_id booking ≠ User.id user) then
        let! hotel := gets (λ db, hotels db !! Booking.hotel_id booking) in
        if bool_decide (User.role user ≠ UserRole.ADMIN)
           && match hotel with
              | None => true
              | Some hotel => bool_decide (Hotel.owner_id hotel ≠ User.id user)
              end
        then raise (HTTPException 403 NotAuthorizedBooking)
        else ret booking
      else ret booking
  end.

Definition add_guests_to_booking (booking_id : Z) (user : User.t) (guest_ids : list Z)
    : M Booking.t :=
  let! booking := get_booking_by_id booking_id user in
  if bool_decide (Booking.status booking
                  ∉ [BookingStatus.PENDING; BookingStatus.CONFIRMED])
  then raise (HTTPException 400 CannotAddGuests)
  else
    let! guests := gets (λ db,
      select_where
        (λ g, g.1 ∈ guest_ids ∧ Guest.user_id g.2 = User.id user) (guests db)) in
    if bool_decide (length guests ≠ length guest_ids)
    then raise (HTTPException 404 SomeGuestsNotFound)
    (* flush(): [booking_guests] has the primary key [(booking_id, guest_id)] *)
    else if bool_decide (Exists (λ g, g ∈ Booking.guests booking) guests.*1)
    then raise IntegrityError
    else
      (* booking.guests.extend(guests) *)
      let booking := Booking.set_guests (Booking.guests booking ++ guests.*1) booking in
      do! modify (set_bookings <[booking_id := booking]>) in
      ret booking.

(** [booking.payment]: the row of the one-to-one relationship
    ([uselist=False]); of several rows the first is kept. *)
Definition booking_payment (booking_id : Z) (db : DB) : option (Z * Payment.t) :=
  head (select_where (λ p, Payment.booking_id p.2 = booking_id) (payments db)).

Definition cancel_booking (booking_id : Z) (user : User.t) (reason : option string)
    : M Booking.t :=
  let! booking := get_booking_by_id booking_id user in
  if bool_decide (Booking.status booking
                  ∈ [BookingStatus.CANCELLED; BookingStatus.CHECKED_OUT])
  then raise (HTTPException 400 BookingCannotBeCancelled)
  else
    do! _release_inventory booking in
    let booking :=
      Booking.set_cancellation_reason reason
        (Booking.set_status BookingStatus.CANCELLED booking) in
    do! modify (set_bookings <[booking_id := booking]>) in
    let! payment := gets (booking_payment booking_id) in
    do! match payment with
        | Some (payment_id, payment) =>
            if bool_decide (Payment.status payment = PaymentStatus.COMPLETED)
            then modify (set_payments
                   <[payment_id := Payment.set_status PaymentStatus.REFUNDED payment]>)
            else ret tt
        | None => ret tt
        end in
    ret booking.

(** ** [app/services/inventory.py]: [InventoryService] *)

Definition _verify_room_access (room_id : Z) (user : User.t) : M Room.t :=
  let! room := gets (λ db, rooms db !! room_id) in
  match room with
  | None => raise (HTTPException 404 RoomNotFound)
  | Some room =>
      let! hotel := gets (λ db, hotels db !! Room.hotel_id room) in
      if bool_decide (User.role user ≠ UserRole.ADMIN) then
        match hotel with
        | None => raise AttributeError
        | Some hotel =>
            if bool_decide (Hotel.owner_id hotel ≠ User.id user)
            then raise (HTTPException 403 NotAuthorizedInventory)
            else ret room
        end
      else ret room
  end.

(** [for field, value in update_dict.items(): setattr(inventory, field, value)];
    [None] when a given [null] lands in a column that is not nullable. *)
Definition apply_update (update_data : InventoryUpdate.t) (inventory : Inventory.t)
    : option Inventory.t :=
  let after_count :=
    match InventoryUpdate.available_count update_data with
    | Unset => Some inventory
    | Given (Some v) => Some (Inventory.set_available_count v inventory)
    | Given None => None
    end in
  match after_count, InventoryUpdate.price update_data with
  | Some inventory, Unset => Some inventory
  | Some inventory, Given (Some v) => Some (Inventory.set_price v inventory)
  | _, _ => None
  end.

Definition update_inventory (room_id inv_date : Z) (user : User.t)
    (update_data : InventoryUpdate.t) : M Inventory.t :=
  do! _verify_room_access room_id user in
  let! inventory := gets (λ db, inventories db !! (room_id, inv_date)) in
  match inventory with
  | None =>
      let! room := _verify_room_access room_id user in
      let inventory :=
        Inventory.mk
          (or_int (field_value (InventoryUpdate.available_count update_data))
                  (Room.total_count room))
          0
          (or_float (field_value (InventoryUpdate.price update_data))
                    (Room.base_price room)) in
      do! modify (set_inventories <[(room_id, inv_date) := inventory]>) in
      ret inventory
  | Some inventory =>
      match apply_update update_data inventory with
      | None => raise IntegrityError
      | Some inventory =>
          do! modify (set_inventories <[(room_id, inv_date) := inventory]>) in
          ret inventory
      end
  end.

(** The body of the [while current_date <= bulk_data.end_date] loop. *)
Definition bulk_update_date (room_id : Z) (room : Room.t)
    (bulk_data : InventoryBulkUpdate.t)
    (updated_inventories : list Inventory.t) (current_date : Z)
    : M (list Inventory.t) :=
  let! inventory := gets (λ db, inventories db !! (room_id, current_date)) in
  let inventory :=
    match inventory with
    | None =>
        Inventory.mk
          (or_int (InventoryBulkUpdate.available_count bulk_data) (Room.total_count room))
          0
          (or_float (InventoryBulkUpdate.price bulk_data) (Room.base_price room))
    | Some inventory =>
        let inventory :=
          match InventoryBulkUpdate.available_count bulk_data with
          | Some v => Inventory.set_available_count v inventory
          | None => inventory
          end in
        match InventoryBulkUpdate.price bulk_data with
        | Some v => Inventory.set_price v inventory
        | None => inventory
        end
    end in
  do! modify (set_inventories <[(room_id, current_date) := inventory]>) in
  ret (updated_inventories ++ [inventory]).

Definition bulk_update_inventory (room_id : Z) (user : User.t)
    (bulk_data : InventoryBulkUpdate.t) : M (list Inventory.t) :=
  let! room := _verify_room_access room_id user in
  if bool_decide (InventoryBulkUpdate.start_date bulk_data
                  > InventoryBulkUpdate.end_date bulk_data)
  then raise (HTTPException 400 StartAfterEnd)
  else
    for_fold
      (seqZ (InventoryBulkUpdate.start_date bulk_data)
            (InventoryBulkUpdate.end_date bulk_data
             - InventoryBulkUpdate.start_date bulk_data + 1))
      []
      (bulk_update_date room_id room bulk_data).

(** ** [app/services/payment.py]: [PaymentService] *)

Module PaymentSessionResponse.
Record t := mk {
  payment_session_id : option string;
  payment_url : string;
  amount : float;
  currency : string;
  expires_at : Z }.
End PaymentSessionResponse.

Module WebhookResponse.
Record t := mk {
  message : string;
  payment_id : Z;
  booking_id : Z;
  booking_status : BookingStatus.t;
  payment_status : PaymentStatus.t }.
End WebhookResponse.

Definition payment_gateway_url : string := "https://mock-payment.airbnblite.com/pay".

(** [f"{self.payment_gateway_url}/{session}"]; [None] prints as "None". *)
Definition payment_url (session : option string) : string :=
  (payment_gateway_url +:+ "/" +:+ default "None" session)%string.

(** [timedelta(minutes=30)], in seconds. *)
Definition thirty_minutes : Z := 1800.

(** [f"pay_session_{uuid.uuid4().hex[:16]}"] *)
Definition new_session_id (uuid_hex : string) : string :=
  ("pay_session_" +:+ String.substring 0 16 uuid_hex)%string.

(** [now] is [datetime.utcnow()]; [db_now] is the database clock
    [func.now()], the [server_default] of [payments.created_at]. *)
Definition initiate_payment (uuid_hex : string) (now db_now : Z)
    (booking_id : Z) (user : User.t) (payment_method : PaymentMethod.t)
    : M PaymentSessionResponse.t :=
  let! booking := gets (λ db, bookings db !! booking_id) in
  match booking with
  | None => raise (HTTPException 404 BookingNotFound)
  | Some booking =>
    if bool_decide (Booking.user_id booking ≠ User.id user)
    then raise (HTTPException 403 NotAuthorizedToPay)
    else if bool_decide (Booking.status booking ≠ BookingStatus.PENDING)
    then raise (HTTPException 400 BookingNotPending)
    else
      let! rows := gets (λ db,
        select_where (λ p, Payment.booking_id p.2 = booking_id) (payments db)) in
      let! existing_payment := scalar_one_or_none rows in
      let create :=
        let payment_session_id := new_session_id uuid_hex in
        let payment :=
          Payment.mk booking_id (Booking.total_price booking) "USD"
            PaymentStatus.PENDING (Some payment_method) None
            (Some payment_session_id) None db_now in
        (* flush(): [payments.booking_id] is [unique=True] *)
        do! flush_unique (λ p, Payment.booking_id p.2 = booking_id) payments in
        let! payment_id := gets (λ db, next_id (payments db)) in
        do! modify (set_payments <[payment_id := payment]>) in
        do! modify (set_bookings
              <[booking_id :=
                  Booking.set_payment_session_id (Some payment_session_id) booking]>) in
        ret (PaymentSessionResponse.mk
               (Some payment_session_id)
               (payment_url (Some payment_session_id))
               (Payment.amount payment)
               (Payment.currency payment)
               (now + thirty_minutes)) in
      match existing_payment with
      | Some (_, existing_payment) =>
          if bool_decide (Payment.status existing_payment = PaymentStatus.COMPLETED)
          then raise (HTTPException 400 PaymentAlreadyCompleted)
          else if bool_decide (Payment.status existing_payment = PaymentStatus.PENDING)
          then ret (PaymentSessionResponse.mk
                      (Payment.payment_session_id existing_payment)
                      (payment_url (Payment.payment_session_id existing_payment))
                      (Payment.amount existing_payment)
                      (Payment.currency existing_payment)
                      (Payment.created_at existing_payment + thirty_minutes))
          else create
      | None => create
      end
  end.

Definition process_webhook (now : Z) (webhook_data : PaymentWebhookPayload.t)
    : M WebhookResponse.t :=
  let! rows := gets (λ db,
    select_where
      (λ p, Payment.payment_session_id p.2
            = Some (PaymentWebhookPayload.payment_session_id webhook_data))
      (payments db)) in
  let! payment := scalar_one_or_none rows in
  match payment with
  | None => raise (HTTPException 404 PaymentSessionNotFound)
  | Some (payment_id, payment) =>
    if bool_decide (Payment.status payment ≠ PaymentStatus.PENDING)
    then raise (HTTPException 400 PaymentAlreadyProcessed)
    else
      let! booking := gets (λ db, bookings db !! Payment.booking_id payment) in
      match booking with
      | None => raise (HTTPException 404 BookingNotFound)
      | Some booking =>
        (* flush(): [payments.transaction_id] is [unique=True] *)
        do! flush_unique
              (λ p, p.1 ≠ payment_id
                    ∧ Payment.transaction_id p.2
                      = Some (PaymentWebhookPayload.transaction_id webhook_data))
              payments in
        if bool_decide (PaymentWebhookPayload.status webhook_data = "success"%string)
        then
          let payment :=
            Payment.set_paid_at (Some now)
              (Payment.set_transaction_id
                 (Some (PaymentWebhookPayload.transaction_id webhook_data))
                 (Payment.set_status PaymentStatus.COMPLETED payment)) in
          let booking := Booking.set_status BookingStatus.CONFIRMED booking in
          do! modify (set_payments <[payment_id := payment]>) in
          do! modify (set_bookings <[Payment.booking_id payment := booking]>) in
          ret (WebhookResponse.mk "Payment successful" payment_id
                 (Payment.booking_id payment)
                 (Booking.status booking) (Payment.status payment))
        else
          let payment :=
            Payment.set_transaction_id
              (Some (PaymentWebhookPayload.transaction_id webhook_data))
              (Payment.set_status PaymentStatus.FAILED payment) in
          let booking := Booking.set_status BookingStatus.EXPIRED booking in
          do! modify (set_payments <[payment_id := payment]>) in
          do! modify (set_bookings <[Payment.booking_id payment := booking]>) in
          ret (WebhookResponse.mk "Payment failed" payment_id
                 (Payment.booking_id payment)
                 (Booking.status booking) (Payment.status payment))
      end
  end.

(** * Vocabulary of the properties *)

(** ** Ledger updates over a range of dates

    [_reserve_inventory] and [_release_inventory] rewrite the record of every
    date of the range that has one; [touch_all] is that update on the table. *)

Definition touch_all (f : Inventory.t → Inventory.t) (room_id : Z) (dates : list Z)
    (m : gmap (Z * Z) Inventory.t) : gmap (Z * Z) Inventory.t :=
  foldl (λ m d, alter f (room_id, d) m) m dates.

Definition reserve_record (rooms_count : Z) (i : Inventory.t) : Inventory.t :=
  Inventory.set_booked_count (Inventory.booked_count i + rooms_count) i.

Definition release_record (rooms_count : Z) (i : Inventory.t) : Inventory.t :=
  Inventory.set_booked_count (Z.max 0 (Inventory.booked_count i - rooms_count)) i.


(** The ledger after [_release_inventory]. *)
Definition released (booking : Booking.t) (db : DB) : DB :=
  (_release_inventory booking db).2.

(** ** Sample data

    One hotel (key 10, owned by user 2) with one room type (key 20) and three
    guests; [alice] (user 1) books, [owner] (user 2) administers. *)

Module Sample.
Definition alice : User.t := User.mk 1 UserRole.GUEST.
Definition owner : User.t := User.mk 2 UserRole.HOTEL_ADMIN.

Definition ledger (available booked : Z) : gmap (Z * Z) Inventory.t :=
  {[ (20, 100) := Inventory.mk available booked 100%float;
     (20, 101) := Inventory.mk available booked 120.5%float ]}.

Definition db (available booked : Z) (bookings : gmap Z Booking.t)
    (payments : gmap Z Payment.t) : DB :=
  mkDB {[ 10 := Hotel.mk 2 true ]}
       {[ 20 := Room.mk 10 100%float 2 ]}
       (ledger available booked)
       {[ 30 := Guest.mk 1; 31 := Guest.mk 1; 32 := Guest.mk 2 ]}
       bookings payments.

(** A booking of [alice] for the nights 100 and 101. *)
Definition booking (rooms_count : Z) (status : BookingStatus.t) : Booking.t :=
  Booking.mk 1 10 20 100 102 rooms_count 220.5%float status None None None [].

Definition payment (status : PaymentStatus.t) : Payment.t :=
  Payment.mk 1 220.5%float "USD" status (Some PaymentMethod.UPI) None
    (Some "pay_session_0123456789abcdef"%string) None 1000.

Definition request (rooms_count : Z) : BookingCreate.t :=
  BookingCreate.mk 10 20 100 102 rooms_count None.

Definition webhook (status : string) : PaymentWebhookPayload.t :=
  PaymentWebhookPayload.mk "pay_session_0123456789abcdef" "txn_1" status
    220.5%float "USD".
End Sample.

(** ** Reservation *)

(** What the availability loop of [init_booking] finds wrong with a date. *)
Definition date_error (db : DB) (room_id rooms_count inv_date : Z) : option Exn :=
  match inventories db !! (room_id, inv_date) with
  | None => Some (NoInventory inv_date)
  | Some inventory =>
      if bool_decide (Inventory.available_count inventory
                      - Inventory.booked_count inventory < rooms_count)
      then Some (InsufficientCapacity inv_date)
      else None
  end.

(** [nightly_price × rooms_count] of one night, as the ledger [db] has it. *)
Definition night_price (db : DB) (room_id rooms_count inv_date : Z) : float :=
  match inventories db !! (room_id, inv_date) with
  | Some inventory =>
      PrimFloat.mul (Inventory.price inventory) (float_of_int rooms_count)
  | None => 0%float
  end.

(** The sum of the nights' prices, added up from [0.0] in date order. *)
Definition price_sum (db : DB) (room_id rooms_count : Z) (dates : list Z) : float :=
  foldl (λ total d, PrimFloat.add total (night_price db room_id rooms_count d))
        0%float dates.

(** The request passes the checks that come before the availability loop. *)
Definition request_admitted (today : Z) (booking_data : BookingCreate.t) (db : DB)
    : Prop :=
  BookingCreate.check_in_date booking_data < BookingCreate.check_out_date booking_data
  ∧ today ≤ BookingCreate.check_in_date booking_data
  ∧ (∃ h, hotels db !! BookingCreate.hotel_id booking_data = Some h
          ∧ Hotel.is_active h = true)
  ∧ (∃ r, rooms db !! BookingCreate.room_id booking_data = Some r
          ∧ Room.hotel_id r = BookingCreate.hotel_id booking_data).

(** The booking [init_booking] builds for a request. *)
Definition new_booking (user : User.t) (booking_data : BookingCreate.t)
    (total_price : float) : Booking.t :=
  Booking.mk (User.id user)
    (BookingCreate.hotel_id booking_data)
    (BookingCreate.room_id booking_data)
    (BookingCreate.check_in_date booking_data)
    (BookingCreate.check_out_date booking_data)
    (BookingCreate.rooms_count booking_data)
    total_price BookingStatus.PENDING
    (BookingCreate.special_requests booking_data) None None [].

(** A date of the range passes the availability check. *)
Definition date_passes (db : DB) (room_id rooms_count inv_date : Z) : Prop :=
  ∃ inventory,
    inventories db !! (room_id, inv_date) = Some inventory
    ∧ rooms_count ≤ Inventory.available_count inventory
                    - Inventory.booked_count inventory.

(** ** Rows a query selects *)

(** No row of the table satisfies the [where] clause. *)
Definition no_row {A} (P : Z * A → Prop) (table : gmap Z A) : Prop :=
  ∀ k r, table !! k = Some r → ¬ P (k, r).

(** The row [r] under key [k] is the one row that satisfies the clause. *)
Definition only_row {A} (P : Z * A → Prop) (table : gmap Z A) (k : Z) (r : A) : Prop :=
  table !! k = Some r ∧ P (k, r)
  ∧ ∀ k' r', table !! k' = Some r' → P (k', r') → k' = k.

(** The [where] clauses of the payment queries. *)
Abbreviation of_session session :=
  (λ p : Z * Payment.t, Payment.payment_session_id p.2 = Some session).
Abbreviation of_booking booking_id :=
  (λ p : Z * Payment.t, Payment.booking_id p.2 = booking_id).

(** The clause of the rows that stand in the way of recording a transaction
    identifier on the payment [payment_id]: the other payments that carry
    it ([transaction_id] is [unique=True]). *)
Abbreviation others_with_transaction payment_id transaction_id :=
  (λ p : Z * Payment.t,
     p.1 ≠ payment_id ∧ Payment.transaction_id p.2 = Some transaction_id).

(** ** Payment: the rows [process_webhook] writes *)

Definition settled (now : Z) (transaction_id : string) (p : Payment.t) : Payment.t :=
  Payment.mk (Payment.booking_id p) (Payment.amount p) (Payment.currency p)
    PaymentStatus.COMPLETED (Payment.payment_method p) (Some transaction_id)
    (Payment.payment_session_id p) (Some now) (Payment.created_at p).

Definition failed (transaction_id : string) (p : Payment.t) : Payment.t :=
  Payment.mk (Payment.booking_id p) (Payment.amount p) (Payment.currency p)
    PaymentStatus.FAILED (Payment.payment_method p) (Some transaction_id)
    (Payment.payment_session_id p) (Payment.paid_at p) (Payment.created_at p).

(** ** Payment: what [initiate_payment] creates *)

Definition new_payment (db_now booking_id : Z) (booking : Booking.t)
    (payment_method : PaymentMethod.t) (session : string) : Payment.t :=
  Payment.mk booking_id (Booking.total_price booking) "USD" PaymentStatus.PENDING
    (Some payment_method) None (Some session) None db_now.


(** ** Cancellation *)

(** The store after the refund step of [cancel_booking]. *)
Definition refund_payment (booking_id : Z) (db : DB) : DB :=
  match booking_payment booking_id db with
  | Some (payment_id, payment) =>
      if bool_decide (Payment.status payment = PaymentStatus.COMPLETED)
      then set_payments
             <[payment_id := Payment.set_status PaymentStatus.REFUNDED payment]> db
      else db
  | None => db
  end.

Definition cancelled (reason : option string) (booking : Booking.t) : Booking.t :=
  Booking.set_cancellation_reason reason
    (Booking.set_status BookingStatus.CANCELLED booking).

(** The statuses the specification calls terminal. *)
Definition terminal (s : BookingStatus.t) : Prop :=
  s = BookingStatus.CANCELLED ∨ s = BookingStatus.CHECKED_OUT
  ∨ s = BookingStatus.EXPIRED.

(** ** Guests *)

(** The guest [g] exists and belongs to [user]. *)
Definition owned_guest (db : DB) (user : User.t) (g : Z) : Prop :=
  ∃ row, guests db !! g = Some row ∧ Guest.user_id row = User.id user.

(** The keys of the guests [add_guests_to_booking] fetches:
    [Guest.id.in_(guest_ids), Guest.user_id == user.id]. *)
Definition fetched_guests (db : DB) (user : User.t) (guest_ids : list Z) : list Z :=
  (select_where
     (λ g : Z * Guest.t, g.1 ∈ guest_ids ∧ Guest.user_id g.2 = User.id user)
     (guests db)).*1.

(** ** Administrative edits *)

(** The record [update_inventory] writes for a date, from the record the
    date had; [None] when the edit puts [null] in a column that has to hold a
    value. *)
Definition edited (room : Room.t) (update_data : InventoryUpdate.t)
    (old : option Inventory.t) : option Inventory.t :=
  match old with
  | None =>
      Some (Inventory.mk
              (or_int (field_value (InventoryUpdate.available_count update_data))
                      (Room.total_count room))
              0
              (or_float (field_value (InventoryUpdate.price update_data))
                        (Room.base_price room)))
  | Some inventory => apply_update update_data inventory
  end.

(** The record [bulk_update_inventory] writes for a date. *)
Definition bulk_edited (room : Room.t) (bulk_data : InventoryBulkUpdate.t)
    (old : option Inventory.t) : Inventory.t :=
  match old with
  | None =>
      Inventory.mk
        (or_int (InventoryBulkUpdate.available_count bulk_data) (Room.total_count room))
        0
        (or_float (InventoryBulkUpdate.price bulk_data) (Room.base_price room))
  | Some inventory =>
      let inventory :=
        match InventoryBulkUpdate.available_count bulk_data with
        | Some v => Inventory.set_available_count v inventory
        | None => inventory
        end in
      match InventoryBulkUpdate.price bulk_data with
      | Some v => Inventory.set_price v inventory
      | None => inventory
      end
  end.

(** The table after the loop of [bulk_update_inventory] over [dates]. *)
Definition bulk_all (room_id : Z) (room : Room.t) (bulk_data : InventoryBulkUpdate.t)
    (dates : list Z) (m : gmap (Z * Z) Inventory.t) : gmap (Z * Z) Inventory.t :=
  foldl (λ m d, <[(room_id, d) := bulk_edited room bulk_data (m !! (room_id, d))]> m)
        m dates.

(** ** The ledger invariant *)

(** [0 ≤ committed ≤ total_offered] on every record. *)
Definition ledger_inv (db : DB) : Prop :=
  ∀ k i, inventories db !! k = Some i →
    0 ≤ Inventory.booked_count i ≤ Inventory.available_count i.

(** The stored bookings and rooms satisfy the schemas they were created
    through ([rooms_count >= 1], [total_count >= 1]). *)
Definition rows_valid (db : DB) : Prop :=
  (∀ k b, bookings db !! k = Some b → 1 ≤ Booking.rooms_count b)
  ∧ (∀ k r, rooms db !! k = Some r → 1 ≤ Room.total_count r).

(** The operations of the engine. *)
Inductive Op :=
  | Reserve (today : Z) (user : User.t) (booking_data : BookingCreate.t)
  | Cancel (booking_id : Z) (user : User.t) (reason : option string)
  | AddGuests (booking_id : Z) (user : User.t) (guest_ids : list Z)
  | Initiate (uuid_hex : string) (now db_now booking_id : Z) (user : User.t)
             (payment_method : PaymentMethod.t)
  | Webhook (now : Z) (webhook_data : PaymentWebhookPayload.t)
  | EditInventory (room_id inv_date : Z) (user : User.t)
                  (update_data : InventoryUpdate.t)
  | BulkEditInventory (room_id : Z) (user : User.t)
                      (bulk_data : InventoryBulkUpdate.t).

(** The store an operation leaves, whether it returns or raises. *)
Definition exec (op : Op) (db : DB) : DB :=
  match op with
  | Reserve today user booking_data => (init_booking today user booking_data db).2
  | Cancel booking_id user reason => (cancel_booking booking_id user reason db).2
  | AddGuests booking_id user guest_ids =>
      (add_guests_to_booking booking_id user guest_ids db).2
  | Initiate uuid_hex now db_now booking_id user payment_method =>
      (initiate_payment uuid_hex now db_now booking_id user payment_method db).2
  | Webhook now webhook_data => (process_webhook now webhook_data db).2
  | EditInventory room_id inv_date user update_data =>
      (update_inventory room_id inv_date user update_data db).2
  | BulkEditInventory room_id user bulk_data =>
      (bulk_update_inventory room_id user bulk_data db).2
  end.

(** The request body of the operation satisfies its schema. *)
Definition request_valid (op : Op) : Prop :=
  match op with
  | Reserve _ _ booking_data => BookingCreate.valid booking_data
  | EditInventory _ _ _ update_data => InventoryUpdate.valid update_data
  | BulkEditInventory _ _ bulk_data => InventoryBulkUpdate.valid bulk_data
  | _ => True
  end.

(** An administrative edit does not supply a [total_offered] below the
    committed count of a record it overwrites. *)
Definition edit_keeps_committed (op : Op) (db : DB) : Prop :=
  match op with
  | EditInventory room_id inv_date _ update_data =>
      ∀ v i,
        InventoryUpdate.available_count update_data = Given (Some v) →
        inventories db !! (room_id, inv_date) = Some i →
        Inventory.booked_count i ≤ v
  | BulkEditInventory room_id _ bulk_data =>
      ∀ v d i,
        InventoryBulkUpdate.available_count bulk_data = Some v →
        InventoryBulkUpdate.start_date bulk_data ≤ d
          ≤ InventoryBulkUpdate.end_date bulk_data →
        inventories db !! (room_id, d) = Some i →
        Inventory.booked_count i ≤ v
  | _ => True
  end.

(** The ledger and the rooms are as before, and every booking has the
    [rooms_count] of a booking of before. *)
Definition same_ledger (db db' : DB) : Prop :=
  inventories db' = inventories db
  ∧ rooms db' = rooms db
  ∧ ∀ k b', bookings db' !! k = Some b' →
      ∃ b, bookings db !! k = Some b
         ∧ Booking.rooms_count b' = Booking.rooms_count b.

(** * Further vocabulary *)

(** ** Access rules *)

(** The caller may read and act on a booking: the booking is the caller's,
    or the caller is an administrator, or owns the booking's hotel. *)
Definition may_access_booking (user : User.t) (booking : Booking.t) (db : DB) : Prop :=
  Booking.user_id booking = User.id user
  ∨ User.role user = UserRole.ADMIN
  ∨ ∃ hotel, hotels db !! Booking.hotel_id booking = Some hotel
           ∧ Hotel.owner_id hotel = User.id user.

(** The ledger holds no negative committed count. *)
Definition committed_nonneg (db : DB) : Prop :=
  ∀ k i, inventories db !! k = Some i → 0 ≤ Inventory.booked_count i.

(** ** Payments and their bookings *)

(** Every payment belongs to a stored booking, no booking has two payments,
    and the payment of a booking that is still [PENDING] is [PENDING]. *)
Definition payments_consistent (db : DB) : Prop :=
  (∀ payment_id payment,
     payments db !! payment_id = Some payment →
     is_Some (bookings db !! Payment.booking_id payment))
  ∧ (∀ payment_id payment payment_id' payment',
       payments db !! payment_id = Some payment →
       payments db !! payment_id' = Some payment' →
       Payment.booking_id payment = Payment.booking_id payment' →
       payment_id = payment_id')
  ∧ (∀ payment_id payment booking,
       payments db !! payment_id = Some payment →
       bookings db !! Payment.booking_id payment = Some booking →
       Booking.status booking = BookingStatus.PENDING →
       Payment.status payment = PaymentStatus.PENDING).

(** * The services around the engine

    The read side of [app/services/inventory.py], [app/services/booking.py]
    and [app/services/payment.py], and the parts of
    [app/services/room.py], [app/services/hotel.py] and
    [app/services/guest.py] that create what the engine works on. *)

Definition set_hotels (f : gmap Z Hotel.t → gmap Z Hotel.t) (db : DB) : DB :=
  mkDB (f (hotels db)) (rooms db) (inventories db) (guests db) (bookings db) (payments db).
Definition set_rooms (f : gmap Z Room.t → gmap Z Room.t) (db : DB) : DB :=
  mkDB (hotels db) (f (rooms db)) (inventories db) (guests db) (bookings db) (payments db).
Definition set_guest_rows (f : gmap Z Guest.t → gmap Z Guest.t) (db : DB) : DB :=
  mkDB (hotels db) (rooms db) (inventories db) (f (guests db)) (bookings db) (payments db).

(** ** Queries on the inventory table *)

(** The rows of the inventory table a [where] clause keeps, each with its
    room and date. *)
Definition inventory_rows (P : Z * Z * Inventory.t → Prop) `{!∀ x, Decision (P x)}
    (db : DB) : list (Z * Z * Inventory.t) :=
  map_to_list (filter P (inventories db)).

(** [.order_by(Inventory.date)] *)
Definition by_date : relation (Z * Z * Inventory.t) := λ r r', r.1.2 ≤ r'.1.2.
#[global] Instance by_date_dec r r' : Decision (by_date r r').
Proof. unfold by_date. apply _. Defined.

(** ** [InventoryService.get_room_inventory] *)

Definition get_room_inventory (today room_id : Z) (user : User.t)
    (start_date end_date : option Z) : M (list (Z * Z * Inventory.t)) :=
  do! _verify_room_access room_id user in
  let start_date := default today start_date in
  let end_date := default (start_date + 30) end_date in
  let! rows := gets (inventory_rows
    (λ r, r.1.1 = room_id ∧ r.1.2 >= start_date ∧ r.1.2 ≤ end_date)) in
  ret (merge_sort by_date rows).

(** ** [BookingService.get_booking_status] *)

(** [status.value] *)
Definition PaymentStatus_value (s : PaymentStatus.t) : string :=
  match s with
  | PaymentStatus.PENDING => "PENDING"
  | PaymentStatus.COMPLETED => "COMPLETED"
  | PaymentStatus.FAILED => "FAILED"
  | PaymentStatus.REFUNDED => "REFUNDED"
  end.

Module BookingStatusResponse.
Record t := mk {
  booking_id : Z;
  status : BookingStatus.t;
  payment_status : option string }.
End BookingStatusResponse.

Definition get_booking_status (booking_id : Z) (user : User.t)
    : M BookingStatusResponse.t :=
  let! booking := get_booking_by_id booking_id user in
  let! payment := gets (booking_payment booking_id) in
  let payment_status :=
    match payment with
    | Some (_, payment) => Some (PaymentStatus_value (Payment.status payment))
    | None => None
    end in
  ret (BookingStatusResponse.mk booking_id (Booking.status booking) payment_status).

(** ** Answers of the other services

    Their [HTTPException]s carry messages of their own; an answer keeps the
    status code and the message as the source has them. *)

Inductive Answer (A : Type) :=
  | Returned (a : A)
  | HTTPError (status_code : Z) (detail : string)
  | Uncaught (e : Exn).
Arguments Returned {A} a.
Arguments HTTPError {A} status_code detail.
Arguments Uncaught {A} e.

(** ** [PaymentService.get_payment_by_booking] *)

Definition get_payment_by_booking (booking_id : Z) (user : User.t) (db : DB)
    : Answer (Z * Payment.t) * DB :=
  match bookings db !! booking_id with
  | None => (HTTPError 404 "Booking not found", db)
  | Some booking =>
      if bool_decide (Booking.user_id booking ≠ User.id user)
      then (HTTPError 403 "Not authorized to view this payment", db)
      else
        match select_where (of_booking booking_id) (payments db) with
        | [] => (HTTPError 404 "Payment not found for this booking", db)
        | [payment] => (Returned payment, db)
        | _ => (Uncaught MultipleResultsFound, db)
        end
  end.

(** ** [app/services/room.py]: [RoomService] *)

Module RoomCreate.
Record t := mk { base_price : float; total_count : Z }.

(** [total_count: int = Field(..., ge=1)] *)
Definition valid (d : t) : Prop := 1 ≤ total_count d.
End RoomCreate.

Definition _verify_hotel_access (hotel_id : Z) (user : User.t) (db : DB)
    : Answer Hotel.t * DB :=
  match hotels db !! hotel_id with
  | None => (HTTPError 404 "Hotel not found", db)
  | Some hotel =>
      if bool_decide (User.role user ≠ UserRole.ADMIN)
         && bool_decide (Hotel.owner_id hotel ≠ User.id user)
      then (HTTPError 403 "Not authorized to access this hotel", db)
      else (Returned hotel, db)
  end.

(** [self.db.add_all(inventories)] *)
Definition add_all_inventories (rows : list (Z * Z * Inventory.t)) : DB → DB :=
  set_inventories (λ m, foldl (λ m r, <[r.1 := r.2]> m) m rows).

Definition _initialize_inventory (today room_id : Z) (room : Room.t) (days : Z)
    (db : DB) : DB :=
  let inventories :=
    (λ i, ((room_id, today + i),
           Inventory.mk (Room.total_count room) 0 (Room.base_price room)))
    <$> seqZ 0 days in
  add_all_inventories inventories db.

Definition create_room (today hotel_id : Z) (user : User.t)
    (room_data : RoomCreate.t) (db : DB) : Answer (Z * Room.t) * DB :=
  match _verify_hotel_access hotel_id user db with
  | (Returned _, db) =>
      let room := Room.mk hotel_id (RoomCreate.base_price room_data)
                    (RoomCreate.total_count room_data) in
      let room_id := next_id (rooms db) in
      let db := set_rooms <[room_id := room]> db in
      (Returned (room_id, room), _initialize_inventory today room_id room 90 db)
  | (HTTPError status_code detail, db) => (HTTPError status_code detail, db)
  | (Uncaught e, db) => (Uncaught e, db)
  end.

(** ** [app/services/hotel.py]: [HotelService] *)

Definition Hotel_set_is_active (v : bool) (hotel : Hotel.t) : Hotel.t :=
  Hotel.mk (Hotel.owner_id hotel) v.

Definition create_hotel (user : User.t) (db : DB) : (Z * Hotel.t) * DB :=
  let hotel := Hotel.mk (User.id user) false in
  let hotel_id := next_id (hotels db) in
  ((hotel_id, hotel), set_hotels <[hotel_id := hotel]> db).

Definition get_hotel_by_id (hotel_id : Z) (user : option User.t) (db : DB)
    : Answer Hotel.t * DB :=
  match hotels db !! hotel_id with
  | None => (HTTPError 404 "Hotel not found", db)
  | Some hotel =>
      if match user with
         | Some user =>
             bool_decide (User.role user ≠ UserRole.ADMIN)
             && bool_decide (Hotel.owner_id hotel ≠ User.id user)
         | None => false
         end
      then (HTTPError 403 "Not authorized to access this hotel", db)
      else (Returned hotel, db)
  end.

(** [activate_hotel] and [deactivate_hotel] differ in the flag they write. *)
Definition write_is_active (v : bool) (hotel_id : Z) (user : User.t) (db : DB)
    : Answer Hotel.t * DB :=
  match get_hotel_by_id hotel_id (Some user) db with
  | (Returned hotel, db) =>
      let hotel := Hotel_set_is_active v hotel in
      (Returned hotel, set_hotels <[hotel_id := hotel]> db)
  | failure => failure
  end.
Definition activate_hotel : Z → User.t → DB → Answer Hotel.t * DB :=
  write_is_active true.
Definition deactivate_hotel : Z → User.t → DB → Answer Hotel.t * DB :=
  write_is_active false.

(** A room as [_check_hotel_availability] reads it off [hotel.rooms]. *)
Module HotelRoom.
Record t := mk { id : Z; capacity : Z; base_price : float }.
End HotelRoom.

(** Truth value of an optional number: [None] and zero are falsy. *)
Definition truthy_int (x : option Z) : option Z :=
  match x with
  | Some v => if bool_decide (v = 0) then None else Some v
  | None => None
  end.
Definition truthy_float (x : option float) : option float :=
  match x with
  | Some v => if PrimFloat.eqb v 0%float then None else Some v
  | None => None
  end.

(** The three [continue] tests on a room. *)
Definition room_skipped (room : HotelRoom.t) (guests : option Z)
    (min_price max_price : option float) : bool :=
  match truthy_int guests with
  | Some guests => bool_decide (HotelRoom.capacity room < guests)
  | None => false
  end
  || match truthy_float min_price with
     | Some min_price => PrimFloat.ltb (HotelRoom.base_price room) min_price
     | None => false
     end
  || match truthy_float max_price with
     | Some max_price => PrimFloat.ltb max_price (HotelRoom.base_price room)
     | None => false
     end.

(** The inventory test on a room: enough rows, each with enough left. *)
Definition room_available (room_id check_in_date check_out_date : Z)
    (rooms : option Z) (db : DB) : bool :=
  let inventories :=
    inventory_rows
      (λ r, r.1.1 = room_id ∧ r.1.2 >= check_in_date ∧ r.1.2 < check_out_date) db in
  let required_rooms := or_int rooms 1 in
  let dates_needed := check_out_date - check_in_date in
  bool_decide (Z.of_nat (length inventories) >= dates_needed)
  && forallb
       (λ r, bool_decide (Inventory.available_count r.2 - Inventory.booked_count r.2
                          >= required_rooms))
       inventories.

Fixpoint _check_hotel_availability (hotel_rooms : list HotelRoom.t)
    (check_in_date check_out_date : Z) (guests rooms : option Z)
    (min_price max_price : option float) (db : DB) : bool :=
  match hotel_rooms with
  | [] => false
  | room :: hotel_rooms =>
      if room_skipped room guests min_price max_price
      then _check_hotel_availability hotel_rooms check_in_date check_out_date
             guests rooms min_price max_price db
      else if room_available (HotelRoom.id room) check_in_date check_out_date rooms db
      then true
      else _check_hotel_availability hotel_rooms check_in_date check_out_date
             guests rooms min_price max_price db
  end.

(** ** [app/services/guest.py]: [GuestService] *)

Definition create_guest (user : User.t) (db : DB) : (Z * Guest.t) * DB :=
  let guest := Guest.mk (User.id user) in
  let guest_id := next_id (guests db) in
  ((guest_id, guest), set_guest_rows <[guest_id := guest]> db).

(** ** Referential integrity of the ledger *)

(** Every inventory record is the record of a stored room
    ([ForeignKey("rooms.id")]). *)
Definition inventory_of_rooms (db : DB) : Prop :=
  ∀ room_id d, is_Some (inventories db !! (room_id, d)) → is_Some (rooms db !! room_id).

(** ** The records of a room over a list of dates *)

(** The records the ledger holds for [room_id] on [dates], in the order of
    [dates]; a date with no record contributes nothing. *)
Definition ledger_rows (room_id : Z) (dates : list Z) (db : DB)
    : list (Z * Z * Inventory.t) :=
  omap (λ d, (λ i, ((room_id, d), i)) <$> inventories db !! (room_id, d)) dates.

(** ** Rooms a search offers *)

(** The room passes the guest and price filters of the search and every
    night of the stay passes the availability check of [init_booking] for
    the [rooms or 1] rooms asked for. *)
Definition room_offered (room : HotelRoom.t) (check_in_date check_out_date : Z)
    (guests rooms : option Z) (min_price max_price : option float) (db : DB) : Prop :=
  room_skipped room guests min_price max_price = false
  ∧ ∀ d, check_in_date ≤ d < check_out_date →
         date_passes db (HotelRoom.id room) (or_int rooms 1) d.
(** * Properties *)

(** ** The session monad *)

Ltac session_unfold :=
  unfold bind, ret, raise, gets, modify in *.

Lemma bind_ok {A B} (m : M A) (k : A → M B) db a db' :
  m db = (Ok a, db') → bind m k db = k a db'.
Proof. unfold bind. by intros ->. Qed.

Lemma bind_raised {A B} (m : M A) (k : A → M B) db e db' :
  m db = (Raised e, db') → bind m k db = (Raised e, db').
Proof. unfold bind. by intros ->. Qed.

Lemma set_inventories_id db : set_inventories (λ m, m) db = db.
Proof. by destruct db. Qed.

Lemma set_payments_id db : set_payments (λ m, m) db = db.
Proof. by destruct db. Qed.

Lemma set_inventories_compose f g db :
  set_inventories g (set_inventories f db) = set_inventories (λ m, g (f m)) db.
Proof. by destruct db. Qed.

(** ** Keys and dates *)

Lemma next_id_bound {A} (table : gmap Z A) k :
  is_Some (table !! k) → k < next_id table.
Proof.
  unfold next_id.
  apply (map_fold_weak_ind (λ r m, is_Some (m !! k) → k < 1 + r)).
  - rewrite lookup_empty. by intros [? ?].
  - intros i x m r _ IH. rewrite lookup_insert.
    case_decide; [subst; lia|]. intros Hk%IH. lia.
Qed.

Lemma next_id_fresh {A} (table : gmap Z A) : table !! next_id table = None.
Proof.
  destruct (table !! next_id table) eqn:E; [|done].
  assert (next_id table < next_id table) by (apply next_id_bound; eauto). lia.
Qed.

Lemma elem_of_night_dates check_in check_out d :
  d ∈ night_dates check_in check_out ↔ check_in ≤ d < check_out.
Proof.
  unfold night_dates. rewrite list_elem_of_fmap. split.
  - intros (i & -> & Hi%elem_of_seqZ). lia.
  - intros H. exists (d - check_in). split; [lia|]. apply elem_of_seqZ. lia.
Qed.

Lemma NoDup_night_dates check_in check_out : NoDup (night_dates check_in check_out).
Proof.
  unfold night_dates. apply NoDup_fmap_2; [|apply NoDup_seqZ].
  intros x y. lia.
Qed.

(** ** Ledger updates over a range of dates *)

Lemma for_each_touch (f : Inventory.t → Inventory.t) room_id dates db :
  for_each dates
    (λ inv_date,
      let! inventory := gets (λ db, inventories db !! (room_id, inv_date)) in
      match inventory with
      | Some inventory =>
          modify (set_inventories <[(room_id, inv_date) := f inventory]>)
      | None => ret tt
      end) db
  = (Ok tt, set_inventories (touch_all f room_id dates) db).
Proof.
  revert db. induction dates as [|d dates IH]; intros db; simpl.
  - unfold ret. by rewrite set_inventories_id.
  - unfold bind at 1. unfold bind at 1. unfold gets at 1.
    destruct (inventories db !! (room_id, d)) as [i|] eqn:E.
    + unfold modify at 1. rewrite IH. destruct db; simpl in *.
      unfold set_inventories, touch_all; simpl.
      by rewrite (alter_alt_Some _ _ _ _ E).
    + unfold ret at 1. rewrite IH. destruct db; simpl in *.
      unfold set_inventories, touch_all; simpl.
      by rewrite alter_alt, E.
Qed.

Lemma _reserve_inventory_eq booking db :
  _reserve_inventory booking db
  = (Ok tt,
     set_inventories
       (touch_all (reserve_record (Booking.rooms_count booking))
          (Booking.room_id booking)
          (night_dates (Booking.check_in_date booking) (Booking.check_out_date booking)))
       db).
Proof. apply (for_each_touch (reserve_record _)). Qed.

Lemma _release_inventory_eq booking db :
  _release_inventory booking db
  = (Ok tt,
     set_inventories
       (touch_all (release_record (Booking.rooms_count booking))
          (Booking.room_id booking)
          (night_dates (Booking.check_in_date booking) (Booking.check_out_date booking)))
       db).
Proof. apply (for_each_touch (release_record _)). Qed.

Lemma lookup_touch_all_in f room_id dates m d :
  NoDup dates → d ∈ dates →
  touch_all f room_id dates m !! (room_id, d) = f <$> m !! (room_id, d).
Proof.
  unfold touch_all. revert m. induction dates as [|d' dates IH]; intros m Hnd Hin.
  - by apply elem_of_nil in Hin.
  - apply NoDup_cons in Hnd as [Hd' Hnd]. simpl.
    apply elem_of_cons in Hin as [->|Hin].
    + clear IH. revert m. induction dates as [|d'' dates IH]; intros m; simpl.
      * apply lookup_alter_eq.
      * apply not_elem_of_cons in Hd' as [Hne Hd'].
        apply NoDup_cons in Hnd as [_ Hnd].
        rewrite alter_alter_ne by congruence. rewrite IH by done.
        by rewrite lookup_alter_ne by congruence.
    + rewrite IH by done. rewrite lookup_alter_ne; [done|].
      intros [= ->]. done.
Qed.

Lemma lookup_touch_all_out f room_id dates m k :
  (∀ d, d ∈ dates → k ≠ (room_id, d)) →
  touch_all f room_id dates m !! k = m !! k.
Proof.
  unfold touch_all. revert m. induction dates as [|d' dates IH]; intros m H; simpl.
  - done.
  - rewrite IH by (intros; apply H; set_solver).
    apply lookup_alter_ne. intros <-. eapply H; [|done]. set_solver.
Qed.

(** Every record of the table after the update is the image of the record
    the table held before, or that record itself. *)
Lemma lookup_touch_all_cases f room_id dates m k i :
  NoDup dates →
  touch_all f room_id dates m !! k = Some i →
  (∃ d i0, k = (room_id, d) ∧ d ∈ dates ∧ m !! k = Some i0 ∧ i = f i0)
  ∨ ((∀ d, d ∈ dates → k ≠ (room_id, d)) ∧ m !! k = Some i).
Proof.
  intros Hnd Hk. destruct k as [r d].
  destruct (decide (r = room_id ∧ d ∈ dates)) as [[-> Hd]|Hout].
  - left. rewrite lookup_touch_all_in in Hk by done.
    destruct (m !! (room_id, d)) as [i0|] eqn:E; [|done].
    injection Hk as <-. eauto 10.
  - right.
    assert (∀ d', d' ∈ dates → (r, d) ≠ (room_id, d')) as Hall by naive_solver.
    split; [done|]. by rewrite lookup_touch_all_out in Hk.
Qed.

(** ** Release (C5) *)

Lemma released_eq booking db :
  released booking db
  = set_inventories
      (touch_all (release_record (Booking.rooms_count booking))
         (Booking.room_id booking)
         (night_dates (Booking.check_in_date booking) (Booking.check_out_date booking)))
      db.
Proof. unfold released. by rewrite _release_inventory_eq. Qed.

Lemma release_record_twice rooms_count i :
  1 ≤ rooms_count →
  release_record rooms_count (release_record rooms_count i) = release_record rooms_count i
  ↔ Inventory.booked_count i ≤ rooms_count.
Proof.
  intros Hrc. destruct i as [a b p]. unfold release_record, Inventory.set_booked_count.
  simpl. split.
  - intros [= H]. lia.
  - intros H. f_equal. lia.
Qed.

(** C5, counterexample: a record committed to 5 rooms, 2 of them by the
    booking.  One release leaves 3, a second release leaves 1. *)
Lemma release_twice_differs :
  let booking := Sample.booking 2 BookingStatus.CONFIRMED in
  let db := Sample.db 10 5 {[ 1 := booking ]} ∅ in
  Inventory.booked_count <$> inventories (released booking db) !! (20, 100) = Some 3
  ∧ Inventory.booked_count <$>
      inventories (released booking (released booking db)) !! (20, 100) = Some 1
  ∧ released booking (released booking db) ≠ released booking db.
Proof.
  cbv zeta. split; [by vm_compute|]. split; [by vm_compute|].
  intros H. apply (f_equal (λ db, Inventory.booked_count <$> inventories db !! (20, 100))) in H.
  vm_compute in H. discriminate.
Qed.

(** C5, as amended: [_release_inventory] lowers the committed count of every
    night of the booking's range by [rooms_count], never below 0, and leaves
    every other record alone; releasing twice gives the ledger of releasing
    once exactly when no record of the range was committed beyond the
    booking's own [rooms_count]. *)
Theorem release_twice_once_iff booking db :
  1 ≤ Booking.rooms_count booking →
  let dates := night_dates (Booking.check_in_date booking)
                           (Booking.check_out_date booking) in
  let room_id := Booking.room_id booking in
  (∀ d, d ∈ dates →
     inventories (released booking db) !! (room_id, d)
     = release_record (Booking.rooms_count booking) <$> inventories db !! (room_id, d))
  ∧ (∀ k, (∀ d, d ∈ dates → k ≠ (room_id, d)) →
       inventories (released booking db) !! k = inventories db !! k)
  ∧ (∀ k i, inventories (released booking db) !! k = Some i →
       (∀ i0, inventories db !! k = Some i0 → 0 ≤ Inventory.booked_count i0) →
       0 ≤ Inventory.booked_count i)
  ∧ (released booking (released booking db) = released booking db
     ↔ ∀ d i, d ∈ dates → inventories db !! (room_id, d) = Some i →
         Inventory.booked_count i ≤ Booking.rooms_count booking).
Proof.
  intros Hrc dates room_id. rewrite !released_eq.
  pose proof (NoDup_night_dates (Booking.check_in_date booking)
                (Booking.check_out_date booking)) as Hnd.
  fold dates room_id in Hnd |- *.
  set (rel := release_record (Booking.rooms_count booking)).
  assert (∀ m d, d ∈ dates →
            touch_all rel room_id dates m !! (room_id, d) = rel <$> m !! (room_id, d))
    as Hin by (intros; by apply lookup_touch_all_in).
  split; [|split; [|split]].
  - intros d Hd. destruct db; simpl. by apply Hin.
  - intros k Hk. destruct db; simpl. by apply lookup_touch_all_out.
  - intros k i Hk Hpos. destruct db as [h r inv g b p]; simpl in *.
    apply (lookup_touch_all_cases _ _ _ _ _ _ Hnd) in Hk
      as [(d & i0 & -> & Hd & Hi0 & ->)|[_ Hk]]; [|eauto].
    unfold rel, release_record; simpl. lia.
  - destruct db as [h r inv g b p]; unfold set_inventories; simpl. split.
    + intros Heq d i Hd Hi.
      assert (touch_all rel room_id dates (touch_all rel room_id dates inv) !! (room_id, d)
              = touch_all rel room_id dates inv !! (room_id, d)) as Hl by congruence.
      rewrite !Hin, Hi in Hl by done. simpl in Hl. injection Hl as Hl.
      lia.
    + intros Hle. f_equal. apply map_eq. intros [r' d].
      destruct (decide (r' = room_id ∧ d ∈ dates)) as [[-> Hd]|Hout].
      * rewrite !Hin by done. destruct (inv !! (room_id, d)) as [i|] eqn:Hi; [|done].
        simpl. f_equal. apply release_record_twice; eauto.
      * rewrite !lookup_touch_all_out; naive_solver.
Qed.

Lemma release_twice_once_iff_witness :
  let booking := Sample.booking 2 BookingStatus.CONFIRMED in
  let db := Sample.db 2 2 {[ 1 := booking ]} ∅ in
  1 ≤ Booking.rooms_count booking
  ∧ released booking (released booking db) = released booking db.
Proof.
  cbv zeta. split; [vm_compute; discriminate|].
  apply (release_twice_once_iff (Sample.booking 2 BookingStatus.CONFIRMED)
           (Sample.db 2 2 {[ 1 := Sample.booking 2 BookingStatus.CONFIRMED ]} ∅)).
  - vm_compute; discriminate.
  - intros d i Hd%elem_of_night_dates Hi. simpl in Hd.
    assert (d = 100 ∨ d = 101) as [-> | ->] by lia;
      vm_compute in Hi; injection Hi as <-; vm_compute; discriminate.
Defined.

(** ** Reservation: the availability loop and [init_booking] *)

Lemma check_date_eq room_id rooms_count total inv_date db :
  check_date room_id rooms_count total inv_date db
  = match date_error db room_id rooms_count inv_date with
    | Some e => (Raised e, db)
    | None => (Ok (PrimFloat.add total (night_price db room_id rooms_count inv_date)), db)
    end.
Proof.
  unfold check_date, date_error, night_price. session_unfold.
  destruct (inventories db !! (room_id, inv_date)) as [i|]; [|done].
  by case_bool_decide.
Qed.

Lemma availability_loop_ok room_id rooms_count dates total db :
  Forall (λ d, date_error db room_id rooms_count d = None) dates →
  for_fold dates total (check_date room_id rooms_count) db
  = (Ok (foldl (λ t d, PrimFloat.add t (night_price db room_id rooms_count d))
           total dates), db).
Proof.
  revert total. induction dates as [|d dates IH]; intros total Hall; simpl; [done|].
  apply Forall_cons in Hall as [Hd Hall].
  erewrite bind_ok; [|by rewrite check_date_eq, Hd]. by apply IH.
Qed.

Lemma availability_loop_fail room_id rooms_count passed d rest e total db :
  Forall (λ d, date_error db room_id rooms_count d = None) passed →
  date_error db room_id rooms_count d = Some e →
  for_fold (passed ++ d :: rest) total (check_date room_id rooms_count) db
  = (Raised e, db).
Proof.
  revert total. induction passed as [|d' passed IH]; intros total Hall He; simpl.
  - erewrite bind_raised; [done|]. by rewrite check_date_eq, He.
  - apply Forall_cons in Hall as [Hd Hall].
    erewrite bind_ok; [|by rewrite check_date_eq, Hd]. by apply IH.
Qed.

(** A list of dates passes as a whole, or has a first date that does not. *)
Lemma first_date_error db room_id rooms_count dates :
  Forall (λ d, date_error db room_id rooms_count d = None) dates
  ∨ ∃ passed d rest e,
      dates = passed ++ d :: rest
      ∧ Forall (λ d, date_error db room_id rooms_count d = None) passed
      ∧ date_error db room_id rooms_count d = Some e.
Proof.
  induction dates as [|d dates IH]; [by left|].
  destruct (date_error db room_id rooms_count d) as [e|] eqn:Hd.
  - right. exists [], d, dates, e. by repeat split.
  - destruct IH as [IH|(passed & d' & rest & e & -> & Hp & He)].
    + left. by constructor.
    + right. exists (d :: passed), d', rest, e. repeat split; [|done]. by constructor.
Qed.

Lemma availability_loop_unchanged room_id rooms_count dates total db r db' :
  for_fold dates total (check_date room_id rooms_count) db = (r, db') → db' = db.
Proof.
  destruct (first_date_error db room_id rooms_count dates)
    as [Hall|(passed & d & rest & e & -> & Hp & He)].
  - rewrite availability_loop_ok by done. congruence.
  - erewrite availability_loop_fail by done. congruence.
Qed.

(** [init_booking] on a request that reaches the availability loop. *)
Lemma init_booking_admitted today user booking_data db :
  request_admitted today booking_data db →
  init_booking today user booking_data db
  = (let! total_price :=
       for_fold
         (night_dates (BookingCreate.check_in_date booking_data)
                      (BookingCreate.check_out_date booking_data))
         0%float
         (check_date (BookingCreate.room_id booking_data)
                     (BookingCreate.rooms_count booking_data)) in
     let booking := new_booking user booking_data total_price in
     let! booking_id := add_booking booking in
     do! _reserve_inventory booking in
     ret (booking_id, booking)) db.
Proof.
  intros (Hdates & Htoday & (h & Hh & Hact) & (r & Hr & Hrh)). unfold init_booking.
  rewrite bool_decide_eq_false_2 by lia. rewrite bool_decide_eq_false_2 by lia.
  unfold bind at 1. unfold gets at 1. rewrite Hh, Hact.
  unfold bind at 1. unfold gets at 1. rewrite Hr, bool_decide_eq_true_2 by done.
  done.
Qed.

Lemma init_booking_ok today user booking_data db :
  request_admitted today booking_data db →
  let dates := night_dates (BookingCreate.check_in_date booking_data)
                           (BookingCreate.check_out_date booking_data) in
  let room_id := BookingCreate.room_id booking_data in
  let rooms_count := BookingCreate.rooms_count booking_data in
  Forall (λ d, date_error db room_id rooms_count d = None) dates →
  let booking := new_booking user booking_data (price_sum db room_id rooms_count dates) in
  init_booking today user booking_data db
  = (Ok (next_id (bookings db), booking),
     set_inventories (touch_all (reserve_record rooms_count) room_id dates)
       (set_bookings <[next_id (bookings db) := booking]> db)).
Proof.
  intros Hadm dates room_id rooms_count Hall booking.
  rewrite init_booking_admitted by done.
  erewrite bind_ok; [|by apply availability_loop_ok].
  fold dates room_id rooms_count. fold (price_sum db room_id rooms_count dates).
  fold booking. cbv zeta. unfold add_booking.
  unfold bind at 1. unfold bind at 1. unfold gets at 1.
  unfold bind at 1. unfold modify at 1. unfold ret at 1.
  unfold bind at 1. rewrite _reserve_inventory_eq. done.
Qed.

Lemma init_booking_fail today user booking_data db passed d rest e :
  request_admitted today booking_data db →
  night_dates (BookingCreate.check_in_date booking_data)
              (BookingCreate.check_out_date booking_data) = passed ++ d :: rest →
  Forall (λ d, date_error db (BookingCreate.room_id booking_data)
                 (BookingCreate.rooms_count booking_data) d = None) passed →
  date_error db (BookingCreate.room_id booking_data)
    (BookingCreate.rooms_count booking_data) d = Some e →
  init_booking today user booking_data db = (Raised e, db).
Proof.
  intros Hadm Hsplit Hp He. rewrite init_booking_admitted by done.
  erewrite bind_raised; [done|]. rewrite Hsplit. by apply availability_loop_fail.
Qed.

(** Whatever [init_booking] raises, it raises before it writes. *)
Lemma init_booking_raised today user booking_data db e db' :
  init_booking today user booking_data db = (Raised e, db') → db' = db.
Proof.
  unfold init_booking.
  case_bool_decide; [unfold raise; congruence|].
  case_bool_decide; [unfold raise; congruence|].
  unfold bind at 1. unfold gets at 1.
  destruct (match hotels db !! _ with Some _ => _ | None => _ end);
    [|unfold raise; congruence].
  unfold bind at 1. unfold gets at 1.
  destruct (match rooms db !! _ with Some _ => _ | None => _ end);
    [|unfold raise; congruence].
  unfold bind at 1.
  destruct (for_fold _ _ _ db) as [[total|e'] db1] eqn:Hloop.
  - unfold add_booking.
    unfold bind at 1. unfold bind at 1. unfold gets at 1.
    unfold bind at 1. unfold modify at 1. unfold ret at 1.
    unfold bind at 1. rewrite _reserve_inventory_eq. unfold ret. congruence.
  - apply availability_loop_unchanged in Hloop. congruence.
Qed.

Lemma date_error_None db room_id rooms_count d :
  date_error db room_id rooms_count d = None ↔ date_passes db room_id rooms_count d.
Proof.
  unfold date_error, date_passes.
  destruct (inventories db !! (room_id, d)) as [i|];
    [|split; [done|by intros (? & ? & ?)]].
  case_bool_decide; split; try done.
  - intros (i' & [= <-] & ?). lia.
  - intros _. exists i. split; [done|lia].
Qed.


Lemma night_dates_split check_in check_out d :
  check_in ≤ d < check_out →
  ∃ rest, night_dates check_in check_out = night_dates check_in d ++ d :: rest.
Proof.
  intros Hd. unfold night_dates.
  replace (check_out - check_in) with ((d - check_in) + (check_out - d)) by lia.
  rewrite seqZ_app by lia. rewrite (seqZ_cons _ (check_out - d)) by lia.
  rewrite fmap_app, fmap_cons. eexists. f_equal. f_equal. lia.
Qed.



(** ** Queries *)

Section select_where.
Context {A : Type} (P : Z * A → Prop) `{!∀ x, Decision (P x)}.
Implicit Types (table : gmap Z A).

Lemma select_where_nil table : select_where P table = [] ↔ no_row P table.
Proof.
  unfold select_where, no_row. rewrite map_to_list_empty_iff, map_empty_filter.
  unfold map_Forall. done.
Qed.

Lemma filter_singleton_only_row table k r :
  filter P table = {[k := r]} ↔ only_row P table k r.
Proof.
  unfold only_row. split.
  - intros Hf. split; [|split].
    + eapply (map_lookup_filter_Some_1_1 P). rewrite Hf. apply lookup_singleton_eq.
    + eapply (map_lookup_filter_Some_1_2 P table). rewrite Hf. apply lookup_singleton_eq.
    + intros k' r' Hk' HP.
      assert (filter P table !! k' = Some r') as Hl
        by (by apply map_lookup_filter_Some_2).
      rewrite Hf in Hl. apply lookup_singleton_Some in Hl as [? _]. done.
  - intros (Hk & HP & Huniq). apply map_eq. intros i.
    destruct (decide (i = k)) as [->|Hne].
    + rewrite lookup_singleton_eq. by apply map_lookup_filter_Some_2.
    + rewrite lookup_singleton_ne by done. apply map_lookup_filter_None.
      destruct (table !! i) as [x|] eqn:Hi; [right|by left].
      intros x' [= <-] HPx. apply Hne. eauto.
Qed.

Lemma select_where_one table k r :
  select_where P table = [(k, r)] ↔ only_row P table k r.
Proof.
  rewrite <-filter_singleton_only_row. unfold select_where. split.
  - intros Hl. rewrite <-(list_to_map_to_list (filter P table)), Hl. simpl.
    by rewrite insert_empty.
  - intros ->. apply map_to_list_singleton.
Qed.

(** Rewriting the selected row in place, the clause still holding. *)
Lemma only_row_insert table k r r' :
  only_row P table k r → P (k, r') → only_row P (<[k := r']> table) k r'.
Proof.
  intros (Hk & HP & Huniq) HP'. split; [apply lookup_insert_eq|]. split; [done|].
  intros k' r''. rewrite lookup_insert. case_decide; [done|]. apply Huniq.
Qed.

(** Adding under a new key a row that satisfies the clause no row did. *)
Lemma no_row_insert table k r :
  no_row P table → P (k, r) → only_row P (<[k := r]> table) k r.
Proof.
  intros Hno HP. split; [apply lookup_insert_eq|]. split; [done|].
  intros k' r'. rewrite lookup_insert. case_decide; [done|].
  intros Hk' HP'. by destruct (Hno k' r').
Qed.

Lemma flush_unique_ok (table : DB → gmap Z A) db :
  no_row P (table db) → flush_unique P table db = (Ok tt, db).
Proof.
  intros Hno. apply select_where_nil in Hno. unfold flush_unique.
  unfold bind at 1. unfold gets at 1. by rewrite Hno.
Qed.

Lemma flush_unique_refused (table : DB → gmap Z A) db k r :
  table db !! k = Some r → P (k, r) →
  flush_unique P table db = (Raised IntegrityError, db).
Proof.
  intros Hk HP. unfold flush_unique. unfold bind at 1. unfold gets at 1.
  destruct (select_where P (table db)) as [|row rows] eqn:Hrows; [|done].
  apply select_where_nil in Hrows. by destruct (Hrows k r).
Qed.

Lemma flush_unique_cases (table : DB → gmap Z A) db :
  (no_row P (table db) ∧ flush_unique P table db = (Ok tt, db))
  ∨ ((∃ k r, table db !! k = Some r ∧ P (k, r))
     ∧ flush_unique P table db = (Raised IntegrityError, db)).
Proof.
  destruct (select_where P (table db)) as [|[k r] rows] eqn:Hrows.
  - apply select_where_nil in Hrows. left. split; [done|by apply flush_unique_ok].
  - assert (table db !! k = Some r ∧ P (k, r)) as [Hk HP].
    { apply (map_lookup_filter_Some P), elem_of_map_to_list.
      unfold select_where in Hrows. rewrite Hrows. apply elem_of_cons. tauto. }
    right. split; [eauto|by eapply flush_unique_refused].
Qed.
End select_where.

(** ** Payment webhook (C3) *)

Lemma process_webhook_not_found now webhook_data db :
  no_row (of_session (PaymentWebhookPayload.payment_session_id webhook_data))
         (payments db) →
  process_webhook now webhook_data db = (Raised NotFound_session, db).
Proof.
  intros Hno. apply (select_where_nil _) in Hno. unfold process_webhook.
  unfold bind at 1. unfold gets at 1. by rewrite Hno.
Qed.

Lemma process_webhook_processed now webhook_data db payment_id payment :
  only_row (of_session (PaymentWebhookPayload.payment_session_id webhook_data))
           (payments db) payment_id payment →
  Payment.status payment ≠ PaymentStatus.PENDING →
  process_webhook now webhook_data db = (Raised AlreadyProcessed, db).
Proof.
  intros Hone Hst. apply (select_where_one _) in Hone. unfold process_webhook.
  unfold bind at 1. unfold gets at 1. rewrite Hone.
  unfold bind at 1. simpl. unfold ret at 1. by rewrite bool_decide_eq_true_2.
Qed.

(** The delivered transaction identifier is on another payment already. *)
Lemma process_webhook_refused now webhook_data db payment_id payment booking
    other_id other :
  only_row (of_session (PaymentWebhookPayload.payment_session_id webhook_data))
           (payments db) payment_id payment →
  Payment.status payment = PaymentStatus.PENDING →
  bookings db !! Payment.booking_id payment = Some booking →
  payments db !! other_id = Some other → other_id ≠ payment_id →
  Payment.transaction_id other
  = Some (PaymentWebhookPayload.transaction_id webhook_data) →
  process_webhook now webhook_data db = (Raised IntegrityError, db).
Proof.
  intros Hone Hst Hb Hother Hne Htid. apply (select_where_one _) in Hone.
  unfold process_webhook.
  unfold bind at 1. unfold gets at 1. rewrite Hone.
  unfold bind at 1. simpl. unfold ret at 1.
  rewrite bool_decide_eq_false_2 by (by intros []).
  unfold bind at 1. unfold gets at 1. rewrite Hb.
  by erewrite bind_raised by (by eapply (flush_unique_refused _ _ _ other_id other)).
Qed.

Lemma process_webhook_pending now webhook_data db payment_id payment booking :
  only_row (of_session (PaymentWebhookPayload.payment_session_id webhook_data))
           (payments db) payment_id payment →
  Payment.status payment = PaymentStatus.PENDING →
  bookings db !! Payment.booking_id payment = Some booking →
  no_row (others_with_transaction payment_id
            (PaymentWebhookPayload.transaction_id webhook_data)) (payments db) →
  process_webhook now webhook_data db
  = if bool_decide (PaymentWebhookPayload.status webhook_data = "success"%string)
    then
      (Ok (WebhookResponse.mk "Payment successful" payment_id
             (Payment.booking_id payment)
             BookingStatus.CONFIRMED PaymentStatus.COMPLETED),
       set_bookings
         <[Payment.booking_id payment
           := Booking.set_status BookingStatus.CONFIRMED booking]>
         (set_payments
            <[payment_id
              := settled now (PaymentWebhookPayload.transaction_id webhook_data) payment]>
            db))
    else
      (Ok (WebhookResponse.mk "Payment failed" payment_id
             (Payment.booking_id payment)
             BookingStatus.EXPIRED PaymentStatus.FAILED),
       set_bookings
         <[Payment.booking_id payment
           := Booking.set_status BookingStatus.EXPIRED booking]>
         (set_payments
            <[payment_id
              := failed (PaymentWebhookPayload.transaction_id webhook_data) payment]>
            db)).
Proof.
  intros Hone Hst Hb Hfree. apply (select_where_one _) in Hone.
  unfold process_webhook.
  unfold bind at 1. unfold gets at 1. rewrite Hone.
  unfold bind at 1. simpl. unfold ret at 1.
  rewrite bool_decide_eq_false_2 by (by intros []).
  unfold bind at 1. unfold gets at 1. rewrite Hb.
  erewrite bind_ok by (by apply (flush_unique_ok _)).
  case_bool_decide; reflexivity.
Qed.

(** C3, counterexample: the delivery carries the transaction identifier
    that another payment records already.  The payment of the session is
    [PENDING] and the outcome is "success", yet the call fails with an
    [IntegrityError] and settles nothing. *)
Lemma process_webhook_transaction_taken :
  let db := Sample.db 2 1
              {[ 1 := Sample.booking 1 BookingStatus.PENDING;
                 2 := Sample.booking 1 BookingStatus.CONFIRMED ]}
              {[ 1 := Sample.payment PaymentStatus.PENDING;
                 2 := Payment.mk 2 220.5%float "USD" PaymentStatus.COMPLETED
                        (Some PaymentMethod.UPI) (Some "txn_1"%string)
                        (Some "pay_session_fedcba9876543210"%string)
                        (Some 900) 800 ]} in
  only_row (of_session "pay_session_0123456789abcdef") (payments db) 1
           (Sample.payment PaymentStatus.PENDING)
  ∧ process_webhook 2000 (Sample.webhook "success") db
    = (Raised IntegrityError, db)
  ∧ ¬ ∃ response db',
        process_webhook 2000 (Sample.webhook "success") db = (Ok response, db')
        ∧ Payment.status <$> payments db' !! 1 = Some PaymentStatus.COMPLETED.
Proof.
  cbv zeta. split; [|split].
  - apply (select_where_one _). by vm_compute.
  - by vm_compute.
  - intros (response & db' & Hrun & _). vm_compute in Hrun. discriminate.
Qed.

(** C3, as amended: [process_webhook] looks the payment up by the session
    identifier of the delivery.  With no such payment it fails with
    [NotFound]; with a payment that is not [PENDING] it fails with
    [AlreadyProcessed]; either way the store is as before.  With a
    [PENDING] payment (and its booking), provided no other payment records
    the delivered transaction identifier already: on the outcome "success"
    the payment becomes [COMPLETED] with the transaction identifier and the
    settlement time recorded and the booking becomes [CONFIRMED]; on any
    other outcome the payment becomes [FAILED] with the transaction
    identifier recorded and the booking [EXPIRED].  The ledger is not
    touched, and every later delivery for the same session fails with
    [AlreadyProcessed] and changes nothing. *)
Theorem process_webhook_handshake now webhook_data db :
  let session := PaymentWebhookPayload.payment_session_id webhook_data in
  let transaction_id := PaymentWebhookPayload.transaction_id webhook_data in
  (no_row (of_session session) (payments db) →
     process_webhook now webhook_data db = (Raised NotFound_session, db))
  ∧ ∀ payment_id payment,
      only_row (of_session session) (payments db) payment_id payment →
      (Payment.status payment ≠ PaymentStatus.PENDING →
         process_webhook now webhook_data db = (Raised AlreadyProcessed, db))
      ∧ (Payment.status payment = PaymentStatus.PENDING →
         ∀ booking, bookings db !! Payment.booking_id payment = Some booking →
         no_row (others_with_transaction payment_id transaction_id) (payments db) →
         ∃ response db',
           process_webhook now webhook_data db = (Ok response, db')
           ∧ inventories db' = inventories db
           ∧ (PaymentWebhookPayload.status webhook_data = "success"%string →
                payments db'
                = <[payment_id :=
                      Payment.mk (Payment.booking_id payment) (Payment.amount payment)
                        (Payment.currency payment) PaymentStatus.COMPLETED
                        (Payment.payment_method payment) (Some transaction_id)
                        (Payment.payment_session_id payment) (Some now)
                        (Payment.created_at payment)]>
                    (payments db)
                ∧ bookings db'
                  = <[Payment.booking_id payment
                      := Booking.set_status BookingStatus.CONFIRMED booking]>
                      (bookings db))
           ∧ (PaymentWebhookPayload.status webhook_data ≠ "success"%string →
                payments db'
                = <[payment_id :=
                      Payment.mk (Payment.booking_id payment) (Payment.amount payment)
                        (Payment.currency payment) PaymentStatus.FAILED
                        (Payment.payment_method payment) (Some transaction_id)
                        (Payment.payment_session_id payment) (Payment.paid_at payment)
                        (Payment.created_at payment)]>
                    (payments db)
                ∧ bookings db'
                  = <[Payment.booking_id payment
                      := Booking.set_status BookingStatus.EXPIRED booking]>
                      (bookings db))
           ∧ ∀ now' webhook_data',
               PaymentWebhookPayload.payment_session_id webhook_data' = session →
               process_webhook now' webhook_data' db' = (Raised AlreadyProcessed, db')).
Proof.
  intros session transaction_id. split; [apply process_webhook_not_found|].
  intros payment_id payment Hone.
  split; [intros; by eapply process_webhook_processed|].
  intros Hst booking Hb Hfree.
  rewrite (process_webhook_pending _ _ _ _ _ _ Hone Hst Hb Hfree).
  destruct Hone as (Hp & Hs & Huniq). simpl in Hs.
  case_bool_decide as Hout; eexists _, _; (split; [reflexivity|]);
    (split; [by destruct db|]); (split; [intros ?; try done; by destruct db|]);
    (split; [intros ?; try done; by destruct db|]);
    intros now' webhook_data' Hsame;
    (eapply process_webhook_processed;
     [rewrite Hsame; destruct db as [h r inv g b p]; simpl in *;
      apply (only_row_insert _ _ _ payment); [by repeat split|done]
     |done]).
Qed.

Lemma process_webhook_handshake_witness :
  let db := Sample.db 2 1 {[ 1 := Sample.booking 1 BookingStatus.PENDING ]}
              {[ 1 := Sample.payment PaymentStatus.PENDING ]} in
  ∃ response db',
    process_webhook 2000 (Sample.webhook "success") db = (Ok response, db')
    ∧ Payment.status <$> payments db' !! 1 = Some PaymentStatus.COMPLETED
    ∧ Booking.status <$> bookings db' !! 1 = Some BookingStatus.CONFIRMED
    ∧ process_webhook 2001 (Sample.webhook "success") db'
      = (Raised AlreadyProcessed, db').
Proof.
  cbv zeta.
  destruct (process_webhook_handshake 2000 (Sample.webhook "success")
              (Sample.db 2 1 {[ 1 := Sample.booking 1 BookingStatus.PENDING ]}
                 {[ 1 := Sample.payment PaymentStatus.PENDING ]})) as [_ H].
  destruct (H 1 (Sample.payment PaymentStatus.PENDING)) as [_ Hpending].
  { apply (select_where_one _). by vm_compute. }
  destruct (Hpending eq_refl (Sample.booking 1 BookingStatus.PENDING) eq_refl)
    as (response & db' & Hrun & _ & Hok & _ & Hreplay).
  { apply (select_where_nil _). by vm_compute. }
  destruct (Hok eq_refl) as [Hpay Hbook].
  exists response, db'. split; [done|]. rewrite Hpay, Hbook.
  split; [done|]. split; [done|]. by apply Hreplay.
Defined.

(** ** Payment initiation (C8) *)

Lemma new_session_id_eq uuid_hex :
  new_session_id uuid_hex = ("pay_session_" +:+ String.substring 0 16 uuid_hex)%string.
Proof. reflexivity. Qed.


Section initiate_payment.
Context (uuid_hex : string) (now db_now booking_id : Z) (user : User.t)
        (payment_method : PaymentMethod.t) (db : DB) (booking : Booking.t).
Hypothesis Hbooking : bookings db !! booking_id = Some booking.
Hypothesis Howner : Booking.user_id booking = User.id user.

Let outcome :=
  initiate_payment uuid_hex now db_now booking_id user payment_method db.

Lemma initiate_payment_not_pending :
  Booking.status booking ≠ BookingStatus.PENDING →
  outcome = (Raised InvalidState_initiate, db).
Proof.
  intros Hst. unfold outcome, initiate_payment.
  unfold bind at 1. unfold gets at 1. rewrite Hbooking.
  rewrite bool_decide_eq_false_2 by (by intros []).
  by rewrite bool_decide_eq_true_2.
Qed.


Lemma initiate_payment_resume payment_id payment :
  Booking.status booking = BookingStatus.PENDING →
  only_row (of_booking booking_id) (payments db) payment_id payment →
  Payment.status payment = PaymentStatus.PENDING →
  outcome
  = (Ok (PaymentSessionResponse.mk
           (Payment.payment_session_id payment)
           (payment_url (Payment.payment_session_id payment))
           (Payment.amount payment) (Payment.currency payment)
           (Payment.created_at payment + thirty_minutes)), db).
Proof.
  intros Hst Hone Hp. apply (select_where_one _) in Hone.
  unfold outcome, initiate_payment.
  unfold bind at 1. unfold gets at 1. rewrite Hbooking.
  rewrite bool_decide_eq_false_2 by (by intros []).
  rewrite bool_decide_eq_false_2 by (by intros []).
  unfold bind at 1. unfold gets at 1. rewrite Hone.
  unfold bind at 1. simpl. unfold ret at 1.
  rewrite bool_decide_eq_false_2 by (rewrite Hp; discriminate).
  by rewrite bool_decide_eq_true_2.
Qed.

(** The booking has a payment that is neither [COMPLETED] nor [PENDING]:
    the second payment of the booking is refused at [flush]. *)
Lemma initiate_payment_refused payment_id payment :
  Booking.status booking = BookingStatus.PENDING →
  only_row (of_booking booking_id) (payments db) payment_id payment →
  Payment.status payment ≠ PaymentStatus.COMPLETED →
  Payment.status payment ≠ PaymentStatus.PENDING →
  outcome = (Raised IntegrityError, db).
Proof.
  intros Hst Hone Hc Hp. pose proof Hone as (Hk & Hbid & _).
  apply (select_where_one _) in Hone.
  unfold outcome, initiate_payment.
  unfold bind at 1. unfold gets at 1. rewrite Hbooking.
  rewrite bool_decide_eq_false_2 by (by intros []).
  rewrite bool_decide_eq_false_2 by (by intros []).
  unfold bind at 1. unfold gets at 1. rewrite Hone.
  unfold bind at 1. simpl. unfold ret at 1.
  rewrite !bool_decide_eq_false_2 by done.
  by erewrite bind_raised
    by (by eapply (flush_unique_refused _ _ _ payment_id payment)).
Qed.

Lemma initiate_payment_first :
  Booking.status booking = BookingStatus.PENDING →
  no_row (of_booking booking_id) (payments db) →
  outcome
  = (Ok (PaymentSessionResponse.mk
           (Some (new_session_id uuid_hex))
           (payment_url (Some (new_session_id uuid_hex)))
           (Booking.total_price booking) "USD" (now + thirty_minutes)),
     set_bookings
       <[booking_id :=
           Booking.set_payment_session_id (Some (new_session_id uuid_hex)) booking]>
       (set_payments
          <[next_id (payments db) :=
              new_payment db_now booking_id booking payment_method
                (new_session_id uuid_hex)]>
          db)).
Proof.
  intros Hst Hno. unfold outcome, initiate_payment.
  unfold bind at 1. unfold gets at 1. rewrite Hbooking.
  rewrite bool_decide_eq_false_2 by (by intros []).
  rewrite bool_decide_eq_false_2 by (by intros []).
  unfold bind at 1. unfold gets at 1.
  pose proof Hno as Hnil. apply (select_where_nil _) in Hnil. rewrite Hnil.
  unfold bind at 1. simpl. unfold ret at 1.
  by erewrite bind_ok by (by apply (flush_unique_ok _)).
Qed.

End initiate_payment.




(** ** The price snapshot (C7) *)

Lemma init_booking_ok_inv today user booking_data db r db' :
  init_booking today user booking_data db = (Ok r, db') →
  request_admitted today booking_data db
  ∧ Forall (λ d, date_error db (BookingCreate.room_id booking_data)
                   (BookingCreate.rooms_count booking_data) d = None)
      (night_dates (BookingCreate.check_in_date booking_data)
                   (BookingCreate.check_out_date booking_data)).
Proof.
  intros Hrun.
  assert (request_admitted today booking_data db) as Hadm.
  { revert Hrun. unfold init_booking, request_admitted.
    case_bool_decide; [discriminate|]. case_bool_decide; [discriminate|].
    unfold bind at 1. unfold gets at 1.
    destruct (hotels db !! _) as [h|]; [|discriminate].
    destruct (Hotel.is_active h) eqn:Hact; [|discriminate].
    unfold bind at 1. unfold gets at 1.
    destruct (rooms db !! _) as [rm|]; [|discriminate].
    case_bool_decide; [|discriminate]. intros _.
    split; [lia|]. split; [lia|]. split; eexists; eauto. }
  split; [done|].
  destruct (first_date_error db (BookingCreate.room_id booking_data)
              (BookingCreate.rooms_count booking_data)
              (night_dates (BookingCreate.check_in_date booking_data)
                           (BookingCreate.check_out_date booking_data)))
    as [Hall|(passed & d & rest & e & Hsplit & Hp & He)]; [done|].
  rewrite (init_booking_fail _ _ _ _ _ _ _ _ Hadm Hsplit Hp He) in Hrun.
  discriminate.
Qed.



(** ** Access to a booking *)

Lemma get_booking_by_id_inv booking_id user db r db' :
  get_booking_by_id booking_id user db = (r, db') →
  db' = db ∧ ∀ booking, r = Ok booking → bookings db !! booking_id = Some booking.
Proof.
  unfold get_booking_by_id. unfold bind at 1. unfold gets at 1.
  destruct (bookings db !! booking_id) as [b|]; [|unfold raise; by intros [= <- <-]].
  case_bool_decide.
  - unfold bind at 1. unfold gets at 1.
    destruct (_ && _); unfold raise, ret; intros [= <- <-]; split; congruence.
  - unfold ret. intros [= <- <-]. split; congruence.
Qed.

(** ** Cancellation (C4, C6) *)

Section cancel_booking.
Context (booking_id : Z) (user : User.t) (reason : option string)
        (db : DB) (booking : Booking.t).
Hypothesis Haccess : get_booking_by_id booking_id user db = (Ok booking, db).

Lemma cancel_booking_refused :
  Booking.status booking = BookingStatus.CANCELLED
  ∨ Booking.status booking = BookingStatus.CHECKED_OUT →
  cancel_booking booking_id user reason db = (Raised InvalidState_cancel, db).
Proof.
  intros Hst. unfold cancel_booking. erewrite bind_ok by exact Haccess.
  rewrite bool_decide_eq_true_2; [done|].
  rewrite !elem_of_cons. tauto.
Qed.

Lemma cancel_booking_done :
  Booking.status booking ≠ BookingStatus.CANCELLED →
  Booking.status booking ≠ BookingStatus.CHECKED_OUT →
  cancel_booking booking_id user reason db
  = (Ok (cancelled reason booking),
     refund_payment booking_id
       (set_bookings <[booking_id := cancelled reason booking]>
          (set_inventories
             (touch_all (release_record (Booking.rooms_count booking))
                (Booking.room_id booking)
                (night_dates (Booking.check_in_date booking)
                             (Booking.check_out_date booking)))
             db))).
Proof.
  intros Hc Ho. unfold cancel_booking. erewrite bind_ok by exact Haccess.
  rewrite bool_decide_eq_false_2
    by (rewrite !elem_of_cons, elem_of_nil; tauto).
  unfold bind at 1. rewrite _release_inventory_eq.
  unfold bind at 1. unfold modify at 1.
  unfold bind at 1. unfold gets at 1. unfold refund_payment, cancelled.
  destruct (booking_payment booking_id _) as [[payment_id payment]|]; [|done].
  by case_bool_decide.
Qed.
End cancel_booking.

(** C4, counterexample: a booking in status [EXPIRED], and one in status
    [CHECKED_IN], is cancelled: the call returns the booking in status
    [CANCELLED] rather than failing with [InvalidState]. *)
Lemma cancel_booking_expired_checked_in :
  (∃ booking' db',
     cancel_booking 1 Sample.alice (Some "late"%string)
       (Sample.db 2 1 {[ 1 := Sample.booking 1 BookingStatus.EXPIRED ]}
          {[ 1 := Sample.payment PaymentStatus.FAILED ]})
     = (Ok booking', db')
     ∧ Booking.status booking' = BookingStatus.CANCELLED)
  ∧ (∃ booking' db',
       cancel_booking 1 Sample.alice (Some "late"%string)
         (Sample.db 2 1 {[ 1 := Sample.booking 1 BookingStatus.CHECKED_IN ]}
            {[ 1 := Sample.payment PaymentStatus.COMPLETED ]})
       = (Ok booking', db')
       ∧ Booking.status booking' = BookingStatus.CANCELLED).
Proof. split; eexists _, _; (split; [by vm_compute|done]). Qed.

(** C4, as amended: for a booking the caller may access, [cancel_booking]
    fails with [InvalidState], leaving the store unchanged, exactly when the
    status is [CANCELLED] or [CHECKED_OUT]; from [PENDING], [CONFIRMED],
    [CHECKED_IN] and [EXPIRED] it succeeds and the stored booking is
    [CANCELLED]. *)
Theorem cancel_booking_allowed booking_id user reason db booking :
  get_booking_by_id booking_id user db = (Ok booking, db) →
  (Booking.status booking = BookingStatus.CANCELLED
   ∨ Booking.status booking = BookingStatus.CHECKED_OUT →
     cancel_booking booking_id user reason db = (Raised InvalidState_cancel, db))
  ∧ (Booking.status booking = BookingStatus.PENDING
     ∨ Booking.status booking = BookingStatus.CONFIRMED
     ∨ Booking.status booking = BookingStatus.CHECKED_IN
     ∨ Booking.status booking = BookingStatus.EXPIRED →
     ∃ booking' db',
       cancel_booking booking_id user reason db = (Ok booking', db')
       ∧ Booking.status booking' = BookingStatus.CANCELLED
       ∧ bookings db' !! booking_id = Some booking').
Proof.
  intros Haccess. split; [by apply cancel_booking_refused|].
  intros Hst. eexists _, _. split.
  - apply cancel_booking_done; [done| |]; intros Heq; rewrite Heq in Hst;
      by destruct Hst as [|[|[|]]].
  - split; [done|]. unfold refund_payment.
    destruct (booking_payment _ _) as [[payment_id payment]|];
      [case_bool_decide|]; destruct db; apply lookup_insert_eq.
Qed.

Lemma cancel_booking_allowed_witness :
  let db := Sample.db 2 1 {[ 1 := Sample.booking 1 BookingStatus.CONFIRMED ]}
              {[ 1 := Sample.payment PaymentStatus.COMPLETED ]} in
  get_booking_by_id 1 Sample.alice db
  = (Ok (Sample.booking 1 BookingStatus.CONFIRMED), db)
  ∧ ∃ booking' db',
      cancel_booking 1 Sample.alice None db = (Ok booking', db')
      ∧ Booking.status booking' = BookingStatus.CANCELLED
      ∧ bookings db' !! 1 = Some booking'.
Proof.
  cbv zeta. split; [reflexivity|].
  apply (cancel_booking_allowed 1 Sample.alice None _
           (Sample.booking 1 BookingStatus.CONFIRMED)); [reflexivity|].
  right. left. reflexivity.
Defined.



(** ** Guests (C10) *)

Lemma fetched_guests_NoDup db user guest_ids :
  NoDup (fetched_guests db user guest_ids).
Proof. apply NoDup_fst_map_to_list. Qed.

Lemma elem_of_fetched_guests db user guest_ids g :
  g ∈ fetched_guests db user guest_ids ↔ g ∈ guest_ids ∧ owned_guest db user g.
Proof.
  unfold fetched_guests, select_where, owned_guest. rewrite list_elem_of_fmap. split.
  - intros ([g' row] & -> & Hin%elem_of_map_to_list).
    apply map_lookup_filter_Some in Hin as (Hrow & Hg & Hu). simpl in *. eauto.
  - intros (Hg & row & Hrow & Hu). exists (g, row). split; [done|].
    apply elem_of_map_to_list. by apply map_lookup_filter_Some_2.
Qed.

(** The count test of [add_guests_to_booking] passes exactly when the
    references are pairwise distinct and each is a guest of the caller. *)
Lemma fetched_guests_length db user guest_ids :
  length (fetched_guests db user guest_ids) = length guest_ids
  ↔ NoDup guest_ids ∧ ∀ g, g ∈ guest_ids → owned_guest db user g.
Proof.
  pose proof (fetched_guests_NoDup db user guest_ids) as Hnd.
  pose proof (elem_of_fetched_guests db user guest_ids) as Hin.
  assert (fetched_guests db user guest_ids ⊆+ guest_ids) as Hsub.
  { apply NoDup_submseteq; [done|]. intros g Hg%Hin. tauto. }
  split.
  - intros Hlen.
    assert (fetched_guests db user guest_ids ≡ₚ guest_ids) as Hperm
      by (apply submseteq_length_Permutation; [done|lia]).
    split; [by rewrite <-Hperm|].
    intros g Hg. rewrite <-Hperm in Hg. apply Hin in Hg. tauto.
  - intros [Hnd' Hown]. apply Permutation_length, NoDup_Permutation; [done..|].
    intros g. rewrite Hin. split; [tauto|]. intros Hg. split; [done|]. by apply Hown.
Qed.

Lemma fetched_guests_Permutation db user guest_ids :
  NoDup guest_ids → (∀ g, g ∈ guest_ids → owned_guest db user g) →
  fetched_guests db user guest_ids ≡ₚ guest_ids.
Proof.
  intros Hnd Hown. apply NoDup_Permutation; [apply fetched_guests_NoDup|done|].
  intros g. rewrite elem_of_fetched_guests. split; [tauto|].
  intros Hg. split; [done|]. by apply Hown.
Qed.

Section add_guests_to_booking.
Context (booking_id : Z) (user : User.t) (guest_ids : list Z)
        (db : DB) (booking : Booking.t).
Hypothesis Haccess : get_booking_by_id booking_id user db = (Ok booking, db).

Lemma add_guests_refused :
  Booking.status booking ≠ BookingStatus.PENDING →
  Booking.status booking ≠ BookingStatus.CONFIRMED →
  add_guests_to_booking booking_id user guest_ids db
  = (Raised InvalidState_add_guests, db).
Proof.
  intros Hp Hc. unfold add_guests_to_booking. erewrite bind_ok by exact Haccess.
  rewrite bool_decide_eq_true_2; [done|].
  rewrite !not_elem_of_cons. repeat split; [done..|apply not_elem_of_nil].
Qed.

Lemma add_guests_eq :
  Booking.status booking = BookingStatus.PENDING
  ∨ Booking.status booking = BookingStatus.CONFIRMED →
  add_guests_to_booking booking_id user guest_ids db
  = if bool_decide (length (fetched_guests db user guest_ids) ≠ length guest_ids)
    then (Raised NotFound_guests, db)
    else if bool_decide (Exists (λ g, g ∈ Booking.guests booking)
                           (fetched_guests db user guest_ids))
    then (Raised IntegrityError, db)
    else
      let booking' :=
        Booking.set_guests
          (Booking.guests booking ++ fetched_guests db user guest_ids) booking in
      (Ok booking', set_bookings <[booking_id := booking']> db).
Proof.
  intros Hst. unfold add_guests_to_booking. erewrite bind_ok by exact Haccess.
  rewrite bool_decide_eq_false_2.
  2:{ rewrite !not_elem_of_cons. tauto. }
  unfold bind at 1. unfold gets at 1. unfold fetched_guests.
  rewrite length_fmap. case_bool_decide; [done|]. by case_bool_decide.
Qed.

(** None of the referenced guests is attached yet. *)
Lemma add_guests_attach :
  Booking.status booking = BookingStatus.PENDING
  ∨ Booking.status booking = BookingStatus.CONFIRMED →
  NoDup guest_ids → (∀ g, g ∈ guest_ids → owned_guest db user g) →
  (∀ g, g ∈ guest_ids → g ∉ Booking.guests booking) →
  let booking' :=
    Booking.set_guests
      (Booking.guests booking ++ fetched_guests db user guest_ids) booking in
  add_guests_to_booking booking_id user guest_ids db
  = (Ok booking', set_bookings <[booking_id := booking']> db).
Proof.
  intros Hst Hnd Hown Hnew. rewrite (add_guests_eq Hst).
  rewrite bool_decide_eq_false_2.
  2:{ intros Hne. by apply Hne, fetched_guests_length. }
  rewrite bool_decide_eq_false_2; [done|].
  intros (g & Hg & Hin)%Exists_exists.
  apply elem_of_fetched_guests in Hg as [Hg _]. by apply (Hnew g).
Qed.
End add_guests_to_booking.




(** ** Terminal bookings (C9) *)

Lemma get_booking_by_id_cases booking_id user db booking :
  bookings db !! booking_id = Some booking →
  get_booking_by_id booking_id user db = (Ok booking, db)
  ∨ ∃ e, get_booking_by_id booking_id user db = (Raised e, db).
Proof.
  intros Hb. destruct (get_booking_by_id booking_id user db) as [r db'] eqn:Hget.
  destruct (get_booking_by_id_inv _ _ _ _ _ Hget) as [-> Hr].
  destruct r as [b|e]; [|eauto]. left.
  specialize (Hr b eq_refl). congruence.
Qed.

(** C9, counterexample.  (1) A booking whose payment failed is [EXPIRED];
    cancelling it afterwards succeeds and rewrites its status and its
    cancellation reason.  (2) A [PENDING] booking with a [PENDING] payment is
    cancelled; the webhook delivery that arrives afterwards for its session
    sets the [CANCELLED] booking to [CONFIRMED]. *)
Lemma terminal_booking_rewritten :
  let db := Sample.db 2 1 {[ 1 := Sample.booking 1 BookingStatus.PENDING ]}
              {[ 1 := Sample.payment PaymentStatus.PENDING ]} in
  let expired := (process_webhook 2000 (Sample.webhook "failed") db).2 in
  let cancelled := (cancel_booking 1 Sample.alice None db).2 in
  (Booking.status <$> bookings expired !! 1 = Some BookingStatus.EXPIRED
   ∧ Booking.status <$>
       bookings (cancel_booking 1 Sample.alice (Some "late"%string) expired).2 !! 1
     = Some BookingStatus.CANCELLED
   ∧ Booking.cancellation_reason <$>
       bookings (cancel_booking 1 Sample.alice (Some "late"%string) expired).2 !! 1
     = Some (Some "late"%string))
  ∧ (Booking.status <$> bookings cancelled !! 1 = Some BookingStatus.CANCELLED
     ∧ Booking.status <$>
         bookings (process_webhook 2000 (Sample.webhook "success") cancelled).2 !! 1
       = Some BookingStatus.CONFIRMED).
Proof. cbv zeta. repeat split; by vm_compute. Qed.

(** C9, as amended: once a booking is in a terminal status ([CANCELLED],
    [CHECKED_OUT] or [EXPIRED]), [add_guests_to_booking] and
    [initiate_payment] fail on it ([InvalidState] for a caller who passes
    the access check) and leave the store unchanged; [cancel_booking] does so
    when the status is [CANCELLED] or [CHECKED_OUT], while an [EXPIRED]
    booking can still be cancelled; and a webhook delivery for a session
    whose payment is no longer [PENDING] fails with [AlreadyProcessed] and
    leaves the store unchanged. *)
Theorem terminal_booking_guarded booking_id db booking :
  bookings db !! booking_id = Some booking →
  terminal (Booking.status booking) →
  (∀ user guest_ids,
     ∃ e, add_guests_to_booking booking_id user guest_ids db = (Raised e, db)
        ∧ (get_booking_by_id booking_id user db = (Ok booking, db) →
           e = InvalidState_add_guests))
  ∧ (∀ uuid_hex now db_now user payment_method,
       ∃ e, initiate_payment uuid_hex now db_now booking_id user payment_method db
            = (Raised e, db)
          ∧ (Booking.user_id booking = User.id user → e = InvalidState_initiate))
  ∧ (Booking.status booking ≠ BookingStatus.EXPIRED →
     ∀ user reason,
       ∃ e, cancel_booking booking_id user reason db = (Raised e, db)
          ∧ (get_booking_by_id booking_id user db = (Ok booking, db) →
             e = InvalidState_cancel))
  ∧ (Booking.status booking = BookingStatus.EXPIRED →
     ∀ user reason,
       get_booking_by_id booking_id user db = (Ok booking, db) →
       ∃ booking' db',
         cancel_booking booking_id user reason db = (Ok booking', db')
         ∧ Booking.status booking' = BookingStatus.CANCELLED)
  ∧ (∀ now webhook_data payment_id payment,
       only_row (of_session (PaymentWebhookPayload.payment_session_id webhook_data))
                (payments db) payment_id payment →
       Payment.booking_id payment = booking_id →
       Payment.status payment ≠ PaymentStatus.PENDING →
       process_webhook now webhook_data db = (Raised AlreadyProcessed, db)).
Proof.
  intros Hb Hterm.
  assert (Booking.status booking ≠ BookingStatus.PENDING
          ∧ Booking.status booking ≠ BookingStatus.CONFIRMED) as [Hnp Hnc]
    by (destruct Hterm as [-> | [-> | ->]]; done).
  split; [|split; [|split; [|split]]].
  - intros user guest_ids.
    destruct (get_booking_by_id_cases booking_id user db booking Hb) as [Hget|[e Hget]].
    + exists InvalidState_add_guests. split; [|done]. by eapply add_guests_refused.
    + exists e. split; [|rewrite Hget; discriminate].
      unfold add_guests_to_booking. by erewrite bind_raised.
  - intros uuid_hex now db_now user payment_method.
    destruct (decide (Booking.user_id booking = User.id user)) as [Hu|Hu].
    + exists InvalidState_initiate. split; [|done].
      by eapply initiate_payment_not_pending.
    + exists (HTTPException 403 NotAuthorizedToPay). split; [|done].
      unfold initiate_payment. unfold bind at 1. unfold gets at 1. rewrite Hb.
      by rewrite bool_decide_eq_true_2.
  - intros Hne user reason.
    destruct (get_booking_by_id_cases booking_id user db booking Hb) as [Hget|[e Hget]].
    + exists InvalidState_cancel. split; [|done]. eapply cancel_booking_refused; [done|].
      destruct Hterm as [?|[?|?]]; tauto.
    + exists e. split; [|rewrite Hget; discriminate].
      unfold cancel_booking. by erewrite bind_raised.
  - intros Hexp user reason Hget. eexists _, _.
    split; [eapply cancel_booking_done; [done|rewrite Hexp; done..]|done].
  - intros now webhook_data payment_id payment Hone _ Hst.
    by eapply process_webhook_processed.
Qed.

Lemma terminal_booking_guarded_witness :
  let db := Sample.db 2 1 {[ 1 := Sample.booking 1 BookingStatus.CANCELLED ]}
              {[ 1 := Sample.payment PaymentStatus.REFUNDED ]} in
  add_guests_to_booking 1 Sample.alice [30] db = (Raised InvalidState_add_guests, db)
  ∧ cancel_booking 1 Sample.alice None db = (Raised InvalidState_cancel, db)
  ∧ process_webhook 2000 (Sample.webhook "success") db = (Raised AlreadyProcessed, db).
Proof.
  cbv zeta.
  destruct (terminal_booking_guarded 1
              (Sample.db 2 1 {[ 1 := Sample.booking 1 BookingStatus.CANCELLED ]}
                 {[ 1 := Sample.payment PaymentStatus.REFUNDED ]})
              (Sample.booking 1 BookingStatus.CANCELLED)
              ltac:(by vm_compute) (or_introl eq_refl))
    as (Hguests & _ & Hcancel & _ & Hhook).
  split; [|split].
  - destruct (Hguests Sample.alice [30]) as (e & -> & He). by rewrite He.
  - destruct (Hcancel ltac:(discriminate) Sample.alice None) as (e & -> & He).
    by rewrite He.
  - apply (Hhook 2000 (Sample.webhook "success") 1 (Sample.payment PaymentStatus.REFUNDED));
      [|done|discriminate].
    apply (select_where_one _). reflexivity.
Defined.

(** ** Administrative edits *)

Lemma _verify_room_access_inv room_id user db r db' :
  _verify_room_access room_id user db = (r, db') →
  db' = db ∧ ∀ room, r = Ok room → rooms db !! room_id = Some room.
Proof.
  unfold _verify_room_access. unfold bind at 1. unfold gets at 1.
  destruct (rooms db !! room_id) as [room|]; [|unfold raise; by intros [= <- <-]].
  unfold bind at 1. unfold gets at 1. case_bool_decide.
  - destruct (hotels db !! _) as [hotel|]; [case_bool_decide|];
      unfold raise, ret; intros [= <- <-]; split; congruence.
  - unfold ret. intros [= <- <-]. split; congruence.
Qed.

Lemma update_inventory_denied room_id inv_date user update_data db e :
  _verify_room_access room_id user db = (Raised e, db) →
  update_inventory room_id inv_date user update_data db = (Raised e, db).
Proof. intros H. unfold update_inventory. by erewrite bind_raised. Qed.

Lemma update_inventory_eq room_id inv_date user update_data db room :
  _verify_room_access room_id user db = (Ok room, db) →
  update_inventory room_id inv_date user update_data db
  = match edited room update_data (inventories db !! (room_id, inv_date)) with
    | Some inventory =>
        (Ok inventory, set_inventories <[(room_id, inv_date) := inventory]> db)
    | None => (Raised IntegrityError, db)
    end.
Proof.
  intros Haccess. unfold update_inventory, edited.
  erewrite bind_ok by exact Haccess.
  unfold bind at 1. unfold gets at 1.
  destruct (inventories db !! (room_id, inv_date)) as [i|].
  - by destruct (apply_update update_data i).
  - by erewrite bind_ok by exact Haccess.
Qed.

Lemma bulk_loop_eq room_id room bulk_data dates updated db :
  ∃ results,
    for_fold dates updated (bulk_update_date room_id room bulk_data) db
    = (Ok (updated ++ results),
       set_inventories (bulk_all room_id room bulk_data dates) db).
Proof.
  revert updated db. induction dates as [|d dates IH]; intros updated db; simpl.
  - exists []. unfold ret. by rewrite app_nil_r, set_inventories_id.
  - unfold bind at 1. unfold bulk_update_date at 1.
    unfold bind at 1. unfold gets at 1. unfold bind at 1. unfold modify at 1.
    unfold ret at 1.
    edestruct IH as [results ->]. eexists (_ :: results).
    rewrite <-app_assoc. simpl. destruct db; reflexivity.
Qed.

Lemma bulk_all_cons room_id room bulk_data d dates m :
  bulk_all room_id room bulk_data (d :: dates) m
  = bulk_all room_id room bulk_data dates
      (<[(room_id, d) := bulk_edited room bulk_data (m !! (room_id, d))]> m).
Proof. reflexivity. Qed.

Lemma lookup_bulk_all_out room_id room bulk_data dates m k :
  (∀ d, d ∈ dates → k ≠ (room_id, d)) →
  bulk_all room_id room bulk_data dates m !! k = m !! k.
Proof.
  revert m. induction dates as [|d' dates IH]; intros m H.
  - done.
  - rewrite bulk_all_cons, IH by (intros d Hd; apply H; rewrite elem_of_cons; tauto).
    apply lookup_insert_ne. intros <-. eapply H; [|done]. apply elem_of_cons. tauto.
Qed.

Lemma lookup_bulk_all_in room_id room bulk_data dates m d :
  NoDup dates → d ∈ dates →
  bulk_all room_id room bulk_data dates m !! (room_id, d)
  = Some (bulk_edited room bulk_data (m !! (room_id, d))).
Proof.
  revert m. induction dates as [|d' dates IH]; intros m Hnd Hin.
  - by apply elem_of_nil in Hin.
  - apply NoDup_cons in Hnd as [Hd' Hnd]. rewrite bulk_all_cons.
    apply elem_of_cons in Hin as [->|Hin].
    + rewrite lookup_bulk_all_out.
      * apply lookup_insert_eq.
      * intros d Hd [= ->]. done.
    + rewrite IH by done. rewrite lookup_insert_ne; [done|].
      intros [= ->]. done.
Qed.

Lemma bulk_update_inventory_cases room_id user bulk_data db :
  (∃ e, bulk_update_inventory room_id user bulk_data db = (Raised e, db))
  ∨ ∃ room results,
      rooms db !! room_id = Some room
      ∧ bulk_update_inventory room_id user bulk_data db
        = (Ok results,
           set_inventories
             (bulk_all room_id room bulk_data
                (seqZ (InventoryBulkUpdate.start_date bulk_data)
                      (InventoryBulkUpdate.end_date bulk_data
                       - InventoryBulkUpdate.start_date bulk_data + 1)))
             db).
Proof.
  unfold bulk_update_inventory.
  destruct (_verify_room_access room_id user db) as [r db'] eqn:Haccess.
  destruct (_verify_room_access_inv _ _ _ _ _ Haccess) as [-> Hroom].
  destruct r as [room|e].
  - erewrite bind_ok by exact Haccess. case_bool_decide.
    + left. by eexists.
    + right.
      edestruct (bulk_loop_eq room_id room bulk_data) as [results ->].
      exists room, results. split; [by apply Hroom|done].
  - left. exists e. by erewrite bind_raised.
Qed.

(** ** Operations that leave the ledger alone *)

Lemma same_ledger_refl db : same_ledger db db.
Proof. split; [done|]. split; [done|]. eauto. Qed.

Lemma same_ledger_inv db db' :
  same_ledger db db' → ledger_inv db → rows_valid db →
  ledger_inv db' ∧ rows_valid db'.
Proof.
  intros (Hinv & Hrooms & Hbook) Hl [Hb Hr]. split; [|split].
  - unfold ledger_inv. rewrite Hinv. apply Hl.
  - intros k b' (b & Hk & ->)%Hbook. by eapply Hb.
  - rewrite Hrooms. apply Hr.
Qed.

(** Rewriting one booking without touching its [rooms_count]. *)
Lemma same_ledger_booking db booking_id booking booking' f :
  bookings db !! booking_id = Some booking →
  Booking.rooms_count booking' = Booking.rooms_count booking →
  same_ledger db (set_bookings <[booking_id := booking']> (set_payments f db)).
Proof.
  intros Hb Hrc. destruct db as [h r inv g b p]; simpl in *.
  split; [done|]. split; [done|]. simpl. intros k b'.
  rewrite lookup_insert. case_decide; [intros [= <-]; subst; eauto|eauto].
Qed.

Lemma add_guests_frame booking_id user guest_ids db :
  same_ledger db (add_guests_to_booking booking_id user guest_ids db).2.
Proof.
  destruct (get_booking_by_id booking_id user db) as [r db0] eqn:Hget.
  destruct (get_booking_by_id_inv _ _ _ _ _ Hget) as [-> Hr].
  destruct r as [booking|e].
  - specialize (Hr booking eq_refl).
    destruct (decide (Booking.status booking = BookingStatus.PENDING
                      ∨ Booking.status booking = BookingStatus.CONFIRMED))
      as [Hst|Hst].
    + rewrite (add_guests_eq _ _ _ _ _ Hget Hst).
      case_bool_decide; simpl; [apply same_ledger_refl|].
      case_bool_decide; simpl; [apply same_ledger_refl|].
      rewrite <-(set_payments_id db) at 2 3. by eapply same_ledger_booking.
    + rewrite (add_guests_refused _ _ _ _ _ Hget) by tauto. apply same_ledger_refl.
  - unfold add_guests_to_booking. erewrite bind_raised by exact Hget.
    apply same_ledger_refl.
Qed.

Lemma initiate_payment_frame uuid_hex now db_now booking_id user payment_method db :
  same_ledger db
    (initiate_payment uuid_hex now db_now booking_id user payment_method db).2.
Proof.
  unfold initiate_payment. unfold bind at 1. unfold gets at 1.
  destruct (bookings db !! booking_id) as [booking|] eqn:Hb;
    [|apply same_ledger_refl].
  case_bool_decide; [apply same_ledger_refl|].
  case_bool_decide; [apply same_ledger_refl|].
  unfold bind at 1. unfold gets at 1. unfold bind at 1.
  destruct (flush_unique_cases (of_booking booking_id) payments db)
    as [[_ Hflush]|[_ Hflush]];
    destruct (select_where _ _) as [|[payment_id payment] [|]]; simpl;
    try apply same_ledger_refl;
    try (unfold ret at 1; case_bool_decide; [apply same_ledger_refl|];
         case_bool_decide; [apply same_ledger_refl|]);
    first [ erewrite bind_ok by exact Hflush; by eapply same_ledger_booking
          | erewrite bind_raised by exact Hflush; apply same_ledger_refl ].
Qed.

Lemma process_webhook_frame now webhook_data db :
  same_ledger db (process_webhook now webhook_data db).2.
Proof.
  unfold process_webhook. unfold bind at 1. unfold gets at 1. unfold bind at 1.
  destruct (select_where _ _) as [|[payment_id payment] [|]]; simpl;
    try apply same_ledger_refl.
  unfold ret at 1. case_bool_decide; [apply same_ledger_refl|].
  unfold bind at 1. unfold gets at 1.
  destruct (bookings db !! Payment.booking_id payment) as [booking|] eqn:Hb;
    [|apply same_ledger_refl].
  destruct (flush_unique_cases
              (others_with_transaction payment_id
                 (PaymentWebhookPayload.transaction_id webhook_data)) payments db)
    as [[_ Hflush]|[_ Hflush]].
  - erewrite bind_ok by exact Hflush.
    case_bool_decide; by eapply same_ledger_booking.
  - erewrite bind_raised by exact Hflush. apply same_ledger_refl.
Qed.

(** ** The ledger invariant (C1) *)

Lemma refund_payment_frame booking_id db :
  inventories (refund_payment booking_id db) = inventories db
  ∧ bookings (refund_payment booking_id db) = bookings db
  ∧ rooms (refund_payment booking_id db) = rooms db.
Proof.
  unfold refund_payment.
  destruct (booking_payment booking_id db) as [[payment_id payment]|];
    [case_bool_decide|]; by destruct db.
Qed.

Lemma or_int_nonneg x y : (∀ v, x = Some v → 0 ≤ v) → 1 ≤ y → 0 ≤ or_int x y.
Proof.
  intros Hx Hy. unfold or_int. destruct x as [v|]; [|lia].
  case_bool_decide; [lia|]. by apply Hx.
Qed.

Lemma apply_update_inv update_data i i' :
  apply_update update_data i = Some i' →
  Inventory.booked_count i' = Inventory.booked_count i
  ∧ match InventoryUpdate.available_count update_data with
    | Given (Some v) => Inventory.available_count i' = v
    | _ => Inventory.available_count i' = Inventory.available_count i
    end.
Proof.
  unfold apply_update.
  destruct (InventoryUpdate.available_count update_data) as [|[v|]],
           (InventoryUpdate.price update_data) as [|[p|]];
    intros [= <-]; done.
Qed.

Lemma bulk_edited_inv room bulk_data i :
  Inventory.booked_count (bulk_edited room bulk_data (Some i))
  = Inventory.booked_count i
  ∧ match InventoryBulkUpdate.available_count bulk_data with
    | Some v => Inventory.available_count (bulk_edited room bulk_data (Some i)) = v
    | None => Inventory.available_count (bulk_edited room bulk_data (Some i))
              = Inventory.available_count i
    end.
Proof.
  unfold bulk_edited.
  by destruct (InventoryBulkUpdate.available_count bulk_data),
              (InventoryBulkUpdate.price bulk_data).
Qed.

Lemma reserve_keeps_invariant today user booking_data db :
  rows_valid db → ledger_inv db → BookingCreate.valid booking_data →
  ledger_inv (init_booking today user booking_data db).2
  ∧ rows_valid (init_booking today user booking_data db).2.
Proof.
  intros [Hb Hr] Hl Hvalid.
  destruct (init_booking today user booking_data db) as [r db'] eqn:Hrun.
  destruct r as [[booking_id booking]|e];
    [|apply init_booking_raised in Hrun as ->; simpl; split; [done|by split]].
  destruct (init_booking_ok_inv _ _ _ _ _ _ Hrun) as [Hadm Hall].
  rewrite (init_booking_ok _ _ _ _ Hadm Hall) in Hrun. injection Hrun as <- <- <-.
  rewrite Forall_forall in Hall. destruct db as [h r inv g b p]; simpl in *.
  split; [|split]; simpl.
  - intros k i Hk.
    apply lookup_touch_all_cases in Hk
      as [(d & i0 & -> & Hd & Hi0 & ->)|[_ Hk]]; [| |apply NoDup_night_dates].
    + apply Hall, date_error_None in Hd as (i0' & Hi0' & Hfree).
      simpl in Hi0', Hi0. assert (i0' = i0) as -> by congruence.
      specialize (Hl _ _ Hi0). unfold BookingCreate.valid in Hvalid.
      unfold reserve_record; simpl. lia.
    + by eapply Hl.
  - intros k b'. rewrite lookup_insert. case_decide; [intros [= <-]; done|apply Hb].
  - done.
Qed.

Lemma cancel_keeps_invariant booking_id user reason db :
  rows_valid db → ledger_inv db →
  ledger_inv (cancel_booking booking_id user reason db).2
  ∧ rows_valid (cancel_booking booking_id user reason db).2.
Proof.
  intros [Hb Hr] Hl.
  destruct (get_booking_by_id booking_id user db) as [r db0] eqn:Hget.
  destruct (get_booking_by_id_inv _ _ _ _ _ Hget) as [-> Hbooking].
  destruct r as [booking|e].
  2:{ unfold cancel_booking. erewrite bind_raised by exact Hget. simpl; split; [done|by split]. }
  specialize (Hbooking booking eq_refl).
  destruct (decide (Booking.status booking = BookingStatus.CANCELLED
                    ∨ Booking.status booking = BookingStatus.CHECKED_OUT)) as [Hst|Hst].
  { rewrite (cancel_booking_refused _ _ _ _ _ Hget Hst). simpl; split; [done|by split]. }
  rewrite (cancel_booking_done _ _ _ _ _ Hget) by tauto. simpl.
  destruct (refund_payment_frame booking_id
              (set_bookings <[booking_id := cancelled reason booking]>
                 (set_inventories
                    (touch_all (release_record (Booking.rooms_count booking))
                       (Booking.room_id booking)
                       (night_dates (Booking.check_in_date booking)
                                    (Booking.check_out_date booking))) db)))
    as (Hi & Hbk & Hrm).
  unfold ledger_inv, rows_valid. rewrite Hi, Hbk, Hrm.
  pose proof (Hb _ _ Hbooking) as Hrc.
  destruct db as [h r inv g b p]; simpl in *. split; [|split].
  - intros k i Hk.
    apply lookup_touch_all_cases in Hk
      as [(d & i0 & -> & Hd & Hi0 & ->)|[_ Hk]]; [| |apply NoDup_night_dates].
    + specialize (Hl _ _ Hi0). unfold release_record; simpl. lia.
    + by eapply Hl.
  - intros k b'. rewrite lookup_insert. case_decide; [intros [= <-]; done|apply Hb].
  - done.
Qed.

Lemma edit_keeps_invariant room_id inv_date user update_data db :
  rows_valid db → ledger_inv db → InventoryUpdate.valid update_data →
  edit_keeps_committed (EditInventory room_id inv_date user update_data) db →
  ledger_inv (update_inventory room_id inv_date user update_data db).2
  ∧ rows_valid (update_inventory room_id inv_date user update_data db).2.
Proof.
  intros [Hb Hr] Hl Hvalid Hsafe.
  destruct (_verify_room_access room_id user db) as [r db0] eqn:Haccess.
  destruct (_verify_room_access_inv _ _ _ _ _ Haccess) as [-> Hroom].
  destruct r as [room|e];
    [|rewrite (update_inventory_denied _ _ _ _ _ _ Haccess); simpl; split; [done|by split]].
  specialize (Hroom room eq_refl). rewrite (update_inventory_eq _ _ _ _ _ _ Haccess).
  destruct (edited room update_data (inventories db !! (room_id, inv_date)))
    as [i'|] eqn:Hedit; [|simpl; split; [done|by split]].
  simpl in Hsafe. destruct db as [h r inv g b p]; simpl in *.
  unfold ledger_inv, rows_valid; simpl.
  split; [|by split]. intros k i. rewrite lookup_insert.
  case_decide; [intros [= <-]|by apply Hl].
  unfold edited in Hedit. destruct (inv !! (room_id, inv_date)) as [i0|] eqn:Hi0.
  - apply apply_update_inv in Hedit as [Hbooked Havail]. specialize (Hl _ _ Hi0).
    destruct (InventoryUpdate.available_count update_data) as [|[v|]] eqn:Hv.
    + lia.
    + specialize (Hsafe v i0 eq_refl eq_refl). lia.
    + lia.
  - injection Hedit as <-. simpl. split; [done|].
    apply or_int_nonneg; [apply Hvalid|by eapply Hr].
Qed.

Lemma bulk_edit_keeps_invariant room_id user bulk_data db :
  rows_valid db → ledger_inv db → InventoryBulkUpdate.valid bulk_data →
  edit_keeps_committed (BulkEditInventory room_id user bulk_data) db →
  ledger_inv (bulk_update_inventory room_id user bulk_data db).2
  ∧ rows_valid (bulk_update_inventory room_id user bulk_data db).2.
Proof.
  intros [Hb Hr] Hl Hvalid Hsafe.
  destruct (bulk_update_inventory_cases room_id user bulk_data db)
    as [[e ->]|(room & results & Hroom & ->)]; [simpl; split; [done|by split]|].
  simpl in Hsafe. destruct db as [h r inv g b p]; simpl in *.
  unfold ledger_inv, rows_valid; simpl.
  split; [|by split]. intros [rm d] i Hk.
  set (dates := seqZ _ _) in Hk.
  destruct (decide (rm = room_id ∧ d ∈ dates)) as [[-> Hd]|Hout].
  - rewrite lookup_bulk_all_in in Hk by (done || apply NoDup_seqZ).
    injection Hk as <-. apply elem_of_seqZ in Hd.
    destruct (inv !! (room_id, d)) as [i0|] eqn:Hi0.
    + destruct (bulk_edited_inv room bulk_data i0) as [Hbooked Havail].
      specialize (Hl _ _ Hi0).
      destruct (InventoryBulkUpdate.available_count bulk_data) as [v|] eqn:Hv.
      * assert (Inventory.booked_count i0 ≤ v)
          by (eapply (Hsafe v d); [done|lia|done]). lia.
      * lia.
    + simpl. split; [done|]. apply or_int_nonneg; [apply Hvalid|by eapply Hr].
  - rewrite lookup_bulk_all_out in Hk; [by eapply Hl|].
    intros d' Hd' [= -> ->]. tauto.
Qed.

Lemma sample_ledger_inv available booked bookings payments :
  0 ≤ booked ≤ available → ledger_inv (Sample.db available booked bookings payments).
Proof.
  intros H k i Hk. unfold Sample.db, Sample.ledger in Hk. cbn [inventories] in Hk.
  apply lookup_insert_Some in Hk as [[_ <-]|[_ Hk]]; [done|].
  by apply lookup_singleton_Some in Hk as [_ <-].
Qed.

(** C1, counterexample: a record with 2 rooms offered and 2 committed; the
    administrative edit that sets the offer to 1 is carried out (the call
    returns the rewritten record, no failure is raised) and leaves a record
    with 2 committed of 1 offered.  The bulk edit does the same. *)
Lemma edit_below_committed :
  let db := Sample.db 2 2 {[ 1 := Sample.booking 2 BookingStatus.CONFIRMED ]} ∅ in
  ledger_inv db
  ∧ (∃ db',
       update_inventory 20 100 Sample.owner
         (InventoryUpdate.mk (Given (Some 1)) Unset) db
       = (Ok (Inventory.mk 1 2 100%float), db')
       ∧ inventories db' !! (20, 100) = Some (Inventory.mk 1 2 100%float)
       ∧ ¬ ledger_inv db')
  ∧ (∃ results db',
       bulk_update_inventory 20 Sample.owner
         (InventoryBulkUpdate.mk 100 100 (Some 1) None) db
       = (Ok results, db')
       ∧ inventories db' !! (20, 100) = Some (Inventory.mk 1 2 100%float)).
Proof.
  cbv zeta. split; [|split].
  - apply sample_ledger_inv. lia.
  - eexists. split; [by vm_compute|]. split; [by vm_compute|].
    intros Hinv. specialize (Hinv (20, 100) (Inventory.mk 1 2 100%float)).
    simpl in Hinv. assert (0 ≤ 2 ≤ 1); [|lia]. apply Hinv. by vm_compute.
  - eexists _, _. split; by vm_compute.
Qed.

(** C1, as amended.  Provided [0 ≤ committed ≤ total_offered] holds on every
    record before, it holds on every record after each operation of the
    engine: after a reservation and after a cancellation (and after
    [add_guests], [initiate] and a webhook, which do not write the ledger),
    whether the operation returns or fails; and after an administrative
    single-date or bulk edit whenever the edit does not supply a
    [total_offered] below the committed count of a record it overwrites.
    The edit itself makes no such check: on an existing record, for a caller
    with access, it writes the supplied [total_offered] whatever the
    committed count is, and leaves the committed count as it was. *)
Theorem ledger_invariant_preserved :
  (∀ op db,
     rows_valid db → request_valid op → ledger_inv db →
     edit_keeps_committed op db →
     ledger_inv (exec op db) ∧ rows_valid (exec op db))
  ∧ (∀ room_id inv_date user update_data db room i v,
       _verify_room_access room_id user db = (Ok room, db) →
       inventories db !! (room_id, inv_date) = Some i →
       InventoryUpdate.available_count update_data = Given (Some v) →
       InventoryUpdate.price update_data ≠ Given None →
       ∃ i',
         update_inventory room_id inv_date user update_data db
         = (Ok i', set_inventories <[(room_id, inv_date) := i']> db)
         ∧ Inventory.available_count i' = v
         ∧ Inventory.booked_count i' = Inventory.booked_count i)
  ∧ (∀ room_id user bulk_data db results db' d i v,
       bulk_update_inventory room_id user bulk_data db = (Ok results, db') →
       InventoryBulkUpdate.start_date bulk_data ≤ d
         ≤ InventoryBulkUpdate.end_date bulk_data →
       inventories db !! (room_id, d) = Some i →
       InventoryBulkUpdate.available_count bulk_data = Some v →
       ∃ i', inventories db' !! (room_id, d) = Some i'
           ∧ Inventory.available_count i' = v
           ∧ Inventory.booked_count i' = Inventory.booked_count i).
Proof.
  split; [|split].
  - intros op db Hrows Hreq Hinv Hsafe. destruct op; simpl in *.
    + by apply reserve_keeps_invariant.
    + by apply cancel_keeps_invariant.
    + eapply same_ledger_inv; [apply add_guests_frame|done..].
    + eapply same_ledger_inv; [apply initiate_payment_frame|done..].
    + eapply same_ledger_inv; [apply process_webhook_frame|done..].
    + by apply edit_keeps_invariant.
    + by apply bulk_edit_keeps_invariant.
  - intros room_id inv_date user update_data db room i v Haccess Hi Hv Hp.
    rewrite (update_inventory_eq _ _ _ _ _ _ Haccess), Hi. simpl.
    unfold apply_update. rewrite Hv.
    destruct (InventoryUpdate.price update_data) as [|[p|]]; [..|done];
      eexists; (split; [reflexivity|done]).
  - intros room_id user bulk_data db results db' d i v Hrun Hd Hi Hv.
    destruct (bulk_update_inventory_cases room_id user bulk_data db)
      as [[e He]|(room & results' & Hroom & Heq)]; [congruence|].
    rewrite Heq in Hrun. injection Hrun as <- <-.
    exists (bulk_edited room bulk_data (Some i)).
    destruct (bulk_edited_inv room bulk_data i) as [Hbooked Havail].
    rewrite Hv in Havail. split; [|done].
    destruct db as [h r inv g b p]; simpl in *.
    rewrite lookup_bulk_all_in, Hi; [done|apply NoDup_seqZ|].
    apply elem_of_seqZ. lia.
Qed.

Lemma ledger_invariant_preserved_witness :
  let db := Sample.db 2 1 {[ 1 := Sample.booking 1 BookingStatus.CONFIRMED ]} ∅ in
  ledger_inv (exec (Reserve 50 Sample.alice (Sample.request 1)) db)
  ∧ ledger_inv (exec (Cancel 1 Sample.alice None) db)
  ∧ ledger_inv
      (exec (EditInventory 20 100 Sample.owner
               (InventoryUpdate.mk (Given (Some 1)) Unset)) db).
Proof.
  cbv zeta.
  destruct ledger_invariant_preserved as [Hkeep _].
  assert (rows_valid
            (Sample.db 2 1 {[ 1 := Sample.booking 1 BookingStatus.CONFIRMED ]} ∅))
    as Hrows.
  { split; intros k x Hk; cbn [Sample.db bookings rooms] in Hk;
      apply lookup_singleton_Some in Hk as [_ <-]; simpl; lia. }
  assert (ledger_inv
            (Sample.db 2 1 {[ 1 := Sample.booking 1 BookingStatus.CONFIRMED ]} ∅))
    as Hinv.
  { apply sample_ledger_inv. lia. }
  split; [|split].
  - apply Hkeep; [done| |done|done]. simpl. unfold BookingCreate.valid. simpl. lia.
  - by apply Hkeep.
  - apply Hkeep; [done| |done|].
    + intros v [= <-]. lia.
    + intros v i [= <-] Hi. vm_compute in Hi. injection Hi as <-. simpl. lia.
Defined.

(** * Further properties of the services *)

(** ** Who may act on a booking or a room *)


Lemma get_booking_by_id_granted booking_id user db booking :
  bookings db !! booking_id = Some booking →
  may_access_booking user booking db →
  get_booking_by_id booking_id user db = (Ok booking, db).
Proof.
  intros Hb Hacc. unfold get_booking_by_id.
  unfold bind at 1. unfold gets at 1. rewrite Hb.
  case_bool_decide as Hu; [|done].
  unfold bind at 1. unfold gets at 1.
  destruct Hacc as [?|[Hadmin|(hotel & -> & Ho)]]; [done| |].
  - by rewrite (bool_decide_eq_false_2 (_ ≠ _)) by (by intros []).
  - rewrite (bool_decide_eq_false_2 (Hotel.owner_id hotel ≠ _)) by (by intros []).
    by rewrite andb_false_r.
Qed.

Lemma get_booking_by_id_denied booking_id user db booking :
  bookings db !! booking_id = Some booking →
  ¬ may_access_booking user booking db →
  get_booking_by_id booking_id user db
  = (Raised (HTTPException 403 NotAuthorizedBooking), db).
Proof.
  intros Hb Hacc. unfold get_booking_by_id, may_access_booking in *.
  unfold bind at 1. unfold gets at 1. rewrite Hb.
  rewrite bool_decide_eq_true_2 by tauto.
  unfold bind at 1. unfold gets at 1.
  rewrite (bool_decide_eq_true_2 (_ ≠ UserRole.ADMIN)) by tauto.
  destruct (hotels db !! Booking.hotel_id booking) as [hotel|]; [|done].
  rewrite bool_decide_eq_true_2; [done|]. intros Ho. apply Hacc. eauto.
Qed.

(** X1: [get_booking_by_id] fails with 404 when no booking has the key;
    returns the booking to its user, to an administrator and to the owner
    of its hotel, and fails with 403 for every other caller; it never
    writes. *)
Theorem get_booking_by_id_access booking_id user db :
  (bookings db !! booking_id = None →
     get_booking_by_id booking_id user db
     = (Raised (HTTPException 404 BookingNotFound), db))
  ∧ ∀ booking,
      bookings db !! booking_id = Some booking →
      (may_access_booking user booking db →
         get_booking_by_id booking_id user db = (Ok booking, db))
      ∧ (¬ may_access_booking user booking db →
         get_booking_by_id booking_id user db
         = (Raised (HTTPException 403 NotAuthorizedBooking), db)).
Proof.
  split.
  - intros Hb. unfold get_booking_by_id. unfold bind at 1. unfold gets at 1.
    by rewrite Hb.
  - intros booking Hb. split.
    + by apply get_booking_by_id_granted.
    + by apply get_booking_by_id_denied.
Qed.

Lemma _verify_room_access_eq room_id user db :
  _verify_room_access room_id user db
  = (match rooms db !! room_id with
     | None => Raised (HTTPException 404 RoomNotFound)
     | Some room =>
         if bool_decide (User.role user ≠ UserRole.ADMIN) then
           match hotels db !! Room.hotel_id room with
           | None => Raised AttributeError
           | Some hotel =>
               if bool_decide (Hotel.owner_id hotel ≠ User.id user)
               then Raised (HTTPException 403 NotAuthorizedInventory)
               else Ok room
           end
         else Ok room
     end, db).
Proof.
  unfold _verify_room_access. unfold bind at 1. unfold gets at 1.
  destruct (rooms db !! room_id) as [room|]; [|done].
  unfold bind at 1. unfold gets at 1. case_bool_decide; [|done].
  destruct (hotels db !! Room.hotel_id room) as [hotel|]; [|done].
  by case_bool_decide.
Qed.

(** X2: [_verify_room_access] fails with 404 for an unknown room; lets an
    administrator through whatever the hotel; lets the owner of the room's
    hotel through and fails with 403 for another caller; and, for a caller
    who is not an administrator, breaks with an [AttributeError] when the
    room's hotel row is missing.  It never writes. *)
Theorem _verify_room_access_cases room_id user db :
  (rooms db !! room_id = None →
     _verify_room_access room_id user db
     = (Raised (HTTPException 404 RoomNotFound), db))
  ∧ ∀ room,
      rooms db !! room_id = Some room →
      (User.role user = UserRole.ADMIN →
         _verify_room_access room_id user db = (Ok room, db))
      ∧ (User.role user ≠ UserRole.ADMIN →
         (hotels db !! Room.hotel_id room = None →
            _verify_room_access room_id user db = (Raised AttributeError, db))
         ∧ ∀ hotel,
             hotels db !! Room.hotel_id room = Some hotel →
             (Hotel.owner_id hotel = User.id user →
                _verify_room_access room_id user db = (Ok room, db))
             ∧ (Hotel.owner_id hotel ≠ User.id user →
                _verify_room_access room_id user db
                = (Raised (HTTPException 403 NotAuthorizedInventory), db))).
Proof.
  rewrite _verify_room_access_eq. split.
  - by intros ->.
  - intros room ->. split.
    + intros Hadmin. by rewrite bool_decide_eq_false_2 by (by intros []).
    + intros Hadmin. rewrite bool_decide_eq_true_2 by done. split.
      * by intros ->.
      * intros hotel ->. split; intros Ho.
        -- by rewrite bool_decide_eq_false_2 by (by intros []).
        -- by rewrite bool_decide_eq_true_2.
Qed.

(** ** Reservation requests that are turned away before the ledger is read *)

(** X3: [init_booking] checks, in this order: that check-out is after
    check-in (400), that check-in is not before today (400; today itself is
    accepted), that the hotel exists and is active (404), and that the room
    exists and belongs to that hotel (404).  The first check that fails
    decides the error, and the store is left as it was. *)
Theorem init_booking_rejections today user booking_data db :
  let check_in := BookingCreate.check_in_date booking_data in
  let check_out := BookingCreate.check_out_date booking_data in
  let outcome := init_booking today user booking_data db in
  (check_out ≤ check_in →
     outcome = (Raised (HTTPException 400 CheckOutNotAfterCheckIn), db))
  ∧ (check_in < check_out →
     (check_in < today →
        outcome = (Raised (HTTPException 400 CheckInInPast), db))
     ∧ (today ≤ check_in →
        ((∀ h, hotels db !! BookingCreate.hotel_id booking_data = Some h →
               Hotel.is_active h = false) →
           outcome = (Raised (HTTPException 404 HotelNotFoundOrInactive), db))
        ∧ ∀ h, hotels db !! BookingCreate.hotel_id booking_data = Some h →
               Hotel.is_active h = true →
               (∀ r, rooms db !! BookingCreate.room_id booking_data = Some r →
                     Room.hotel_id r ≠ BookingCreate.hotel_id booking_data) →
               outcome = (Raised (HTTPException 404 RoomNotInHotel), db))).
Proof.
  intros check_in check_out outcome. subst outcome check_in check_out.
  unfold init_booking. split.
  - intros H. by rewrite bool_decide_eq_true_2 by lia.
  - intros Hdates. rewrite bool_decide_eq_false_2 by lia. split.
    + intros H. by rewrite bool_decide_eq_true_2 by lia.
    + intros Htoday. rewrite bool_decide_eq_false_2 by lia. split.
      * intros Hh. unfold bind at 1. unfold gets at 1.
        destruct (hotels db !! _) as [h|]; [|done]. by rewrite (Hh h).
      * intros h Hh Hact Hr. unfold bind at 1. unfold gets at 1.
        rewrite Hh, Hact. unfold bind at 1. unfold gets at 1.
        destruct (rooms db !! _) as [r|]; [|done].
        by rewrite bool_decide_eq_false_2 by (by apply Hr).
Qed.

(** ** Reserve, then cancel *)

Lemma release_reserve_record rooms_count i :
  0 ≤ Inventory.booked_count i →
  release_record rooms_count (reserve_record rooms_count i) = i.
Proof.
  destruct i as [a b p].
  unfold release_record, reserve_record, Inventory.set_booked_count. simpl.
  intros H. f_equal. lia.
Qed.

(** X4: cancelling a booking right after it was made gives back exactly
    what the reservation took: on a ledger without negative committed
    counts, a successful [init_booking] followed by [cancel_booking] of the
    new booking (by the same user) succeeds and leaves every inventory
    record as it was before the reservation. *)
Theorem reserve_then_cancel_restores today user booking_data reason db
    booking_id booking db1 :
  committed_nonneg db →
  init_booking today user booking_data db = (Ok (booking_id, booking), db1) →
  ∃ booking' db2,
    cancel_booking booking_id user reason db1 = (Ok booking', db2)
    ∧ Booking.status booking' = BookingStatus.CANCELLED
    ∧ inventories db2 = inventories db.
Proof.
  intros Hnn Hrun.
  destruct (init_booking_ok_inv _ _ _ _ _ _ Hrun) as [Hadm Hall].
  rewrite (init_booking_ok _ _ _ _ Hadm Hall) in Hrun. injection Hrun as <- <- <-.
  set (booking := new_booking _ _ _).
  set (db1 := set_inventories _ _).
  assert (get_booking_by_id (next_id (bookings db)) user db1 = (Ok booking, db1))
    as Hget.
  { apply get_booking_by_id_granted; [|by left].
    subst db1. destruct db; apply lookup_insert_eq. }
  eexists _, _. split; [by eapply cancel_booking_done|]. split; [done|].
  destruct (refund_payment_frame (next_id (bookings db))
              (set_bookings <[next_id (bookings db) := cancelled reason booking]>
                 (set_inventories
                    (touch_all (release_record (Booking.rooms_count booking))
                       (Booking.room_id booking)
                       (night_dates (Booking.check_in_date booking)
                                    (Booking.check_out_date booking))) db1)))
    as [-> _].
  subst db1 booking. destruct db as [h r inv g b p]; simpl in *.
  apply map_eq. intros [rm d].
  set (dates := night_dates _ _).
  pose proof (NoDup_night_dates (BookingCreate.check_in_date booking_data)
                (BookingCreate.check_out_date booking_data)) as Hnd.
  fold dates in Hnd, Hall.
  destruct (decide (rm = BookingCreate.room_id booking_data ∧ d ∈ dates))
    as [[-> Hd]|Hout].
  - rewrite !lookup_touch_all_in by done.
    destruct (inv !! (BookingCreate.room_id booking_data, d)) as [i|] eqn:Hi;
      [|done].
    simpl. f_equal. apply release_reserve_record. by eapply Hnn.
  - rewrite !lookup_touch_all_out; [done|intros d' Hd' [= -> ->]; tauto..].
Qed.

Lemma reserve_then_cancel_restores_witness :
  let db := Sample.db 2 1 ∅ ∅ in
  ∃ booking db1 booking' db2,
    init_booking 50 Sample.alice (Sample.request 1) db = (Ok (1, booking), db1)
    ∧ Inventory.booked_count <$> inventories db1 !! (20, 100) = Some 2
    ∧ cancel_booking 1 Sample.alice None db1 = (Ok booking', db2)
    ∧ inventories db2 = inventories db.
Proof.
  cbv zeta.
  destruct (init_booking 50 Sample.alice (Sample.request 1) (Sample.db 2 1 ∅ ∅))
    as [r db1] eqn:Hrun.
  pose proof Hrun as Hc. vm_compute in Hc. injection Hc as Hr Hdb1.
  destruct r as [[booking_id booking]|e]; [|discriminate].
  injection Hr as Hid Hbooking. subst booking_id.
  destruct (reserve_then_cancel_restores 50 Sample.alice (Sample.request 1) None
              (Sample.db 2 1 ∅ ∅) 1 booking db1)
    as (booking' & db2 & Hcancel & _ & Hledger); [|done|].
  { intros k i Hk. apply (sample_ledger_inv 2 1 ∅ ∅) in Hk; lia. }
  exists booking, db1, booking', db2. split; [done|].
  split; [rewrite <-Hdb1; by vm_compute|]. by split.
Defined.




(** ** Initiating a payment twice *)

Lemma initiate_payment_ok_inv uuid_hex now db_now booking_id user payment_method
    db r db' :
  initiate_payment uuid_hex now db_now booking_id user payment_method db
  = (Ok r, db') →
  ∃ booking,
    bookings db !! booking_id = Some booking
    ∧ Booking.user_id booking = User.id user
    ∧ Booking.status booking = BookingStatus.PENDING.
Proof.
  unfold initiate_payment. unfold bind at 1. unfold gets at 1.
  destruct (bookings db !! booking_id) as [booking|]; [|done].
  case_bool_decide as Hu; [done|]. case_bool_decide as Hs; [done|].
  intros _. exists booking. split; [done|].
  split; [by destruct (decide (Booking.user_id booking = User.id user))|].
  by destruct (decide (Booking.status booking = BookingStatus.PENDING)).
Qed.

(** X6: initiating payment again resumes the session: when the booking has
    no payment yet and [initiate_payment] succeeds, a second
    [initiate_payment] for the booking (whatever uuid, times and method it
    is given) returns the session identifier and the amount of the first and
    writes nothing: the booking still has exactly the one payment.  The
    expiry the first call reports is 30 minutes after the application's
    clock; the expiry the second reports is 30 minutes after the time the
    database stamped on the payment. *)
Theorem initiate_payment_twice uuid_hex now db_now booking_id user payment_method
    db response db1 :
  no_row (of_booking booking_id) (payments db) →
  initiate_payment uuid_hex now db_now booking_id user payment_method db
  = (Ok response, db1) →
  (∃ payment_id payment,
     only_row (of_booking booking_id) (payments db1) payment_id payment
     ∧ Payment.status payment = PaymentStatus.PENDING
     ∧ Payment.created_at payment = db_now)
  ∧ PaymentSessionResponse.expires_at response = now + thirty_minutes
  ∧ ∀ uuid_hex' now' db_now' payment_method',
      ∃ response',
        initiate_payment uuid_hex' now' db_now' booking_id user payment_method' db1
        = (Ok response', db1)
        ∧ PaymentSessionResponse.payment_session_id response'
          = PaymentSessionResponse.payment_session_id response
        ∧ PaymentSessionResponse.amount response'
          = PaymentSessionResponse.amount response
        ∧ PaymentSessionResponse.expires_at response' = db_now + thirty_minutes.
Proof.
  intros Hno Hrun.
  destruct (initiate_payment_ok_inv _ _ _ _ _ _ _ _ _ Hrun)
    as (booking & Hb & Hu & Hs).
  rewrite (initiate_payment_first _ _ _ _ _ _ _ _ Hb Hu Hs Hno) in Hrun.
  injection Hrun as <- <-.
  set (payment := new_payment db_now booking_id booking payment_method
                    (new_session_id uuid_hex)).
  set (db1 := set_bookings _ _).
  assert (only_row (of_booking booking_id) (payments db1)
            (next_id (payments db)) payment) as Hone.
  { subst db1. destruct db as [h r inv g b p]. simpl in *. by apply no_row_insert. }
  split; [by exists (next_id (payments db)), payment|]. split; [done|].
  intros uuid_hex' now' db_now' payment_method'.
  assert (bookings db1 !! booking_id
          = Some (Booking.set_payment_session_id
                    (Some (new_session_id uuid_hex)) booking)) as Hb1
    by (subst db1; destruct db; apply lookup_insert_eq).
  eexists. split; [by eapply (initiate_payment_resume _ _ _ _ _ _ _ _ Hb1)|done].
Qed.

Lemma initiate_payment_twice_witness :
  let db := Sample.db 2 1 {[ 1 := Sample.booking 1 BookingStatus.PENDING ]} ∅ in
  ∃ response db1 response',
    initiate_payment "0123456789abcdef0123" 1000 1007 1 Sample.alice
      PaymentMethod.UPI db
    = (Ok response, db1)
    ∧ PaymentSessionResponse.expires_at response = 2800
    ∧ initiate_payment "fedcba9876543210ffff" 1500 1507 1 Sample.alice
        PaymentMethod.WALLET db1 = (Ok response', db1)
    ∧ PaymentSessionResponse.payment_session_id response'
      = Some "pay_session_0123456789abcdef"%string
    ∧ PaymentSessionResponse.expires_at response' = 2807.
Proof.
  cbv zeta.
  destruct (initiate_payment "0123456789abcdef0123" 1000 1007 1 Sample.alice
              PaymentMethod.UPI
              (Sample.db 2 1 {[ 1 := Sample.booking 1 BookingStatus.PENDING ]} ∅))
    as [r db1] eqn:Hrun.
  pose proof Hrun as Hc. vm_compute in Hc. injection Hc as Hr Hdb1.
  destruct r as [response|e]; [|discriminate]. injection Hr as Hresponse.
  assert (no_row (of_booking 1)
            (payments
               (Sample.db 2 1 {[ 1 := Sample.booking 1 BookingStatus.PENDING ]} ∅)))
    as Hno by (apply (select_where_nil _); reflexivity).
  destruct (initiate_payment_twice _ _ _ _ _ _ _ _ _ Hno Hrun)
    as (_ & Hfirst & Hagain).
  destruct (Hagain "fedcba9876543210ffff"%string 1500 1507 PaymentMethod.WALLET)
    as (response' & Hrun' & Hsess & _ & Hexp).
  exists response, db1, response'. split; [done|]. split; [done|].
  split; [done|]. rewrite Hsess, Hexp, <-Hresponse. by split.
Defined.

(** ** One payment per booking *)

(** The bookings are rewritten without a booking becoming [PENDING] (and
    without one disappearing), the payments are as before. *)
Lemma payments_consistent_bookings db db' :
  payments db' = payments db →
  (∀ k b, bookings db !! k = Some b →
     ∃ b', bookings db' !! k = Some b'
         ∧ (Booking.status b' = BookingStatus.PENDING →
            Booking.status b = BookingStatus.PENDING)) →
  payments_consistent db → payments_consistent db'.
Proof.
  intros Hp Hb (Hfk & Hone & Hpend). unfold payments_consistent. rewrite Hp.
  split; [|split].
  - intros pid p Hpid. destruct (Hfk _ _ Hpid) as [b Hk].
    destruct (Hb _ _ Hk) as (b' & -> & _). eauto.
  - done.
  - intros pid p b' Hpid Hk' Hst. destruct (Hfk _ _ Hpid) as [b Hk].
    destruct (Hb _ _ Hk) as (b'' & Hk'' & Himp).
    assert (b'' = b') as -> by congruence. eapply Hpend; eauto.
Qed.

(** One payment is rewritten, keeping its booking, and that booking leaves
    [PENDING]. *)
Lemma payments_consistent_settle db payment_id payment payment' booking' :
  payments db !! payment_id = Some payment →
  Payment.booking_id payment' = Payment.booking_id payment →
  Booking.status booking' ≠ BookingStatus.PENDING →
  payments_consistent db →
  payments_consistent
    (set_bookings <[Payment.booking_id payment := booking']>
       (set_payments <[payment_id := payment']> db)).
Proof.
  intros Hpid Hbid Hst (Hfk & Hone & Hpend).
  destruct db as [h r inv g b p]; simpl in *. split; [|split]; simpl.
  - intros pid q. rewrite lookup_insert. case_decide.
    + intros [= <-]. rewrite Hbid, lookup_insert_eq. eauto.
    + intros Hq. rewrite lookup_insert. case_decide; [eauto|]. by eapply Hfk.
  - intros pid q pid' q'. rewrite !lookup_insert.
    repeat case_decide; subst; intros Hq Hq' Heq; simplify_eq; try done.
    + rewrite Hbid in Heq. by eapply Hone.
    + rewrite Hbid in Heq. by eapply Hone.
    + by eapply Hone.
  - intros pid q b'. rewrite !lookup_insert.
    case_decide as Hk; subst.
    + intros [= <-]. rewrite Hbid. rewrite decide_True by done.
      intros [= <-]. done.
    + intros Hq. case_decide as Hk'; [intros [= <-]; done|].
      intros Hb'. by eapply Hpend.
Qed.

(** A first payment, [PENDING], is added for a booking that has none. *)
Lemma payments_consistent_create db booking_id booking booking' payment_id payment :
  bookings db !! booking_id = Some booking →
  Booking.status booking' = Booking.status booking →
  no_row (of_booking booking_id) (payments db) →
  payments db !! payment_id = None →
  Payment.booking_id payment = booking_id →
  Payment.status payment = PaymentStatus.PENDING →
  payments_consistent db →
  payments_consistent
    (set_bookings <[booking_id := booking']>
       (set_payments <[payment_id := payment]> db)).
Proof.
  intros Hb Hst Hno Hfresh Hbid Hpst (Hfk & Hone & Hpend).
  destruct db as [h r inv g b p]; simpl in *. split; [|split]; simpl.
  - intros pid q. rewrite lookup_insert. case_decide.
    + intros [= <-]. rewrite Hbid, lookup_insert_eq. eauto.
    + intros Hq. rewrite lookup_insert. case_decide; [eauto|]. by eapply Hfk.
  - intros pid q pid' q'. rewrite !lookup_insert.
    repeat case_decide; subst; intros Hq Hq' Heq; simplify_eq; try done.
    + by destruct (Hno _ _ Hq').
    + destruct (Hno _ _ Hq). done.
    + by eapply Hone.
  - intros pid q b'. rewrite !lookup_insert.
    case_decide as Hk; subst.
    + intros [= <-]. done.
    + intros Hq. case_decide as Hk'.
      * intros [= <-]. rewrite Hst. intros Hs. eapply Hpend; [done| |done].
        by rewrite <-Hk'.
      * intros Hb'. by eapply Hpend.
Qed.

Lemma booking_payment_Some booking_id db payment_id payment :
  booking_payment booking_id db = Some (payment_id, payment) →
  payments db !! payment_id = Some payment
  ∧ Payment.booking_id payment = booking_id.
Proof.
  unfold booking_payment, select_where. intros Hhead.
  apply head_Some_elem_of, elem_of_map_to_list in Hhead.
  by apply map_lookup_filter_Some in Hhead.
Qed.

Lemma cancel_keeps_payments_consistent booking_id user reason db :
  payments_consistent db →
  payments_consistent (cancel_booking booking_id user reason db).2.
Proof.
  intros Hc.
  destruct (get_booking_by_id booking_id user db) as [r db0] eqn:Hget.
  destruct (get_booking_by_id_inv _ _ _ _ _ Hget) as [-> Hbooking].
  destruct r as [booking|e].
  2:{ unfold cancel_booking. by erewrite bind_raised by exact Hget. }
  specialize (Hbooking booking eq_refl).
  destruct (decide (Booking.status booking = BookingStatus.CANCELLED
                    ∨ Booking.status booking = BookingStatus.CHECKED_OUT)) as [Hst|Hst].
  { by rewrite (cancel_booking_refused _ _ _ _ _ Hget Hst). }
  rewrite (cancel_booking_done _ _ _ _ _ Hget) by tauto. simpl.
  unfold refund_payment.
  destruct (booking_payment booking_id _) as [[payment_id payment]|] eqn:Hbp.
  - apply booking_payment_Some in Hbp as [Hpid Hbid].
    case_bool_decide.
    + destruct db as [h r inv g b p]; simpl in *. subst booking_id.
      by apply (payments_consistent_settle
                  (mkDB h r _ g b p) payment_id payment
                  (Payment.set_status PaymentStatus.REFUNDED payment)
                  (cancelled reason booking)).
    + eapply payments_consistent_bookings; [| |exact Hc]; [by destruct db|].
      intros k b Hk. destruct db as [h r inv g bk p]; simpl in *.
      rewrite lookup_insert. case_decide; [by eexists|eauto].
  - eapply payments_consistent_bookings; [| |exact Hc]; [by destruct db|].
    intros k b Hk. destruct db as [h r inv g bk p]; simpl in *.
    rewrite lookup_insert. case_decide; [by eexists|eauto].
Qed.

Lemma initiate_keeps_payments_consistent uuid_hex now db_now booking_id user
    payment_method db :
  payments_consistent db →
  payments_consistent
    (initiate_payment uuid_hex now db_now booking_id user payment_method db).2.
Proof.
  intros Hc. unfold initiate_payment. unfold bind at 1. unfold gets at 1.
  destruct (bookings db !! booking_id) as [booking|] eqn:Hb; [|done].
  case_bool_decide; [done|]. case_bool_decide as Hst; [done|].
  assert (Booking.status booking = BookingStatus.PENDING) as Hpending
    by (by destruct (decide (Booking.status booking = BookingStatus.PENDING))).
  unfold bind at 1. unfold gets at 1. unfold bind at 1.
  destruct (select_where _ _) as [|[payment_id payment] [|]] eqn:Hrows; simpl.
  - apply (select_where_nil _) in Hrows.
    erewrite bind_ok by (by apply (flush_unique_ok _)).
    eapply payments_consistent_create; eauto using next_id_fresh.
  - apply (select_where_one _) in Hrows as (Hpid & Hbid & _). simpl in Hbid.
    unfold ret at 1. case_bool_decide; [done|]. case_bool_decide as Hp; [done|].
    destruct Hc as (_ & _ & Hpend). destruct Hp.
    eapply Hpend; [done| |done]. by rewrite Hbid.
  - done.
Qed.

Lemma webhook_keeps_payments_consistent now webhook_data db :
  payments_consistent db →
  payments_consistent (process_webhook now webhook_data db).2.
Proof.
  intros Hc. unfold process_webhook. unfold bind at 1. unfold gets at 1.
  unfold bind at 1.
  destruct (select_where _ _) as [|[payment_id payment] [|]] eqn:Hrows; simpl;
    try done.
  apply (select_where_one _) in Hrows as (Hpid & _ & _).
  unfold ret at 1. case_bool_decide; [done|].
  unfold bind at 1. unfold gets at 1.
  destruct (bookings db !! Payment.booking_id payment) as [booking|]; [|done].
  destruct (flush_unique_cases
              (others_with_transaction payment_id
                 (PaymentWebhookPayload.transaction_id webhook_data)) payments db)
    as [[_ Hflush]|[_ Hflush]].
  - erewrite bind_ok by exact Hflush.
    case_bool_decide; simpl;
      by apply (payments_consistent_settle db payment_id payment).
  - by erewrite bind_raised by exact Hflush.
Qed.

(** X7: the engine keeps one payment per booking without help from the
    store: if every payment belongs to a stored booking, no booking has two
    payments, and every booking that is still [PENDING] has a payment that
    is [PENDING] or none, then the same holds after each operation of the
    engine, whether it returns or fails.  In particular [initiate_payment]
    never adds a second payment for a booking. *)
Theorem payments_stay_consistent op db :
  payments_consistent db → payments_consistent (exec op db).
Proof.
  intros Hc. destruct op; simpl.
  - destruct (init_booking today user booking_data db) as [r db'] eqn:Hrun.
    destruct r as [[booking_id booking]|e];
      [|apply init_booking_raised in Hrun as ->; done].
    destruct (init_booking_ok_inv _ _ _ _ _ _ Hrun) as [Hadm Hall].
    rewrite (init_booking_ok _ _ _ _ Hadm Hall) in Hrun. injection Hrun as <- <- <-.
    eapply payments_consistent_bookings; [| |exact Hc]; [by destruct db|].
    intros k b Hk. destruct db as [h r inv g bk p]; simpl in *.
    rewrite lookup_insert. case_decide as Hkey; [|eauto].
    subst k. by rewrite next_id_fresh in Hk.
  - by apply cancel_keeps_payments_consistent.
  - destruct (add_guests_frame booking_id user guest_ids db) as (_ & _ & Hb).
    destruct (get_booking_by_id booking_id user db) as [r db0] eqn:Hget.
    destruct (get_booking_by_id_inv _ _ _ _ _ Hget) as [-> Hbooking].
    destruct r as [booking|e].
    2:{ unfold add_guests_to_booking. by erewrite bind_raised by exact Hget. }
    specialize (Hbooking booking eq_refl).
    destruct (decide (Booking.status booking = BookingStatus.PENDING
                      ∨ Booking.status booking = BookingStatus.CONFIRMED))
      as [Hst|Hst].
    + rewrite (add_guests_eq _ _ _ _ _ Hget Hst). case_bool_decide; [done|].
      case_bool_decide; [done|]. simpl.
      eapply payments_consistent_bookings; [| |exact Hc]; [by destruct db|].
      intros k b Hk. destruct db as [h r inv g bk p]; simpl in *.
      rewrite lookup_insert. case_decide as Hkey; [|eauto].
      subst k. eexists. split; [done|]. simpl. congruence.
    + by rewrite (add_guests_refused _ _ _ _ _ Hget) by tauto.
  - by apply initiate_keeps_payments_consistent.
  - by apply webhook_keeps_payments_consistent.
  - destruct (_verify_room_access room_id user db) as [r db0] eqn:Haccess.
    destruct (_verify_room_access_inv _ _ _ _ _ Haccess) as [-> _].
    destruct r as [room|e];
      [|by rewrite (update_inventory_denied _ _ _ _ _ _ Haccess)].
    rewrite (update_inventory_eq _ _ _ _ _ _ Haccess).
    destruct (edited _ _ _); [|done]. by destruct db.
  - destruct (bulk_update_inventory_cases room_id user bulk_data db)
      as [[e ->]|(room & results & _ & ->)]; [done|]. by destruct db.
Qed.

Lemma payments_stay_consistent_witness :
  let db := Sample.db 2 1 {[ 1 := Sample.booking 1 BookingStatus.PENDING ]} ∅ in
  payments_consistent db
  ∧ payments_consistent
      (exec (Webhook 2000 (Sample.webhook "success"))
         (exec (Initiate "0123456789abcdef0123" 1000 1001 1 Sample.alice
                  PaymentMethod.UPI) db)).
Proof.
  cbv zeta.
  assert (payments_consistent
            (Sample.db 2 1 {[ 1 := Sample.booking 1 BookingStatus.PENDING ]} ∅))
    as Hc.
  { split; [|split]; intros ? ?; cbn [Sample.db payments];
      rewrite lookup_empty; done. }
  split; [done|]. by do 2 apply payments_stay_consistent.
Defined.

(** * Administrative edits: dates with and without a record *)

(** X8: for a caller who passes the access check, [update_inventory] on a
    date that has no record always creates one, with nothing committed, and
    offers the edit's [available_count] only when it is given and not zero:
    left out, [null] or [0], the room's [total_count] is offered instead.
    On a date that has a record, a field given as [null] makes the call fail
    with an [IntegrityError] and the store is as before; otherwise the
    record is rewritten with the committed count as it was, a given
    [available_count] is written as given (zero included) and one left out
    is kept. *)
Theorem update_inventory_outcomes room_id inv_date user update_data db room :
  _verify_room_access room_id user db = (Ok room, db) →
  let key := (room_id, inv_date) in
  let outcome := update_inventory room_id inv_date user update_data db in
  let given := InventoryUpdate.available_count update_data in
  (inventories db !! key = None →
     ∃ inventory,
       outcome = (Ok inventory, set_inventories <[key := inventory]> db)
       ∧ Inventory.booked_count inventory = 0
       ∧ (∀ v, field_value given = Some v → v ≠ 0 →
            Inventory.available_count inventory = v)
       ∧ (field_value given = None ∨ field_value given = Some 0 →
            Inventory.available_count inventory = Room.total_count room))
  ∧ (∀ old, inventories db !! key = Some old →
       (given = Given None ∨ InventoryUpdate.price update_data = Given None →
          outcome = (Raised IntegrityError, db))
       ∧ (given ≠ Given None → InventoryUpdate.price update_data ≠ Given None →
          ∃ inventory,
            outcome = (Ok inventory, set_inventories <[key := inventory]> db)
            ∧ Inventory.booked_count inventory = Inventory.booked_count old
            ∧ (∀ v, given = Given (Some v) →
                 Inventory.available_count inventory = v)
            ∧ (given = Unset →
                 Inventory.available_count inventory
                 = Inventory.available_count old))).
Proof.
  intros Haccess key outcome given. subst key outcome given.
  rewrite (update_inventory_eq _ _ _ _ _ _ Haccess). split.
  - intros ->. simpl. eexists. split; [done|]. split; [done|]. simpl. split.
    + intros v -> Hv. simpl. by rewrite bool_decide_eq_false_2.
    + intros [->| ->]; done.
  - intros old ->. simpl. unfold apply_update.
    destruct update_data as [[|[v|]] [|[p|]]]; simpl; split;
      try (intros [?|?]; done); try (intros ? ?; done);
      intros _ _; (eexists; split; [done|]); simpl;
      (split; [done|]); split; congruence.
Qed.

Lemma update_inventory_outcomes_witness :
  let db := Sample.db 2 1 ∅ ∅ in
  let close := InventoryUpdate.mk (Given (Some 0)) Unset in
  _verify_room_access 20 Sample.owner db = (Ok (Room.mk 10 100%float 2), db)
  ∧ (∃ inventory,
       (update_inventory 20 102 Sample.owner close db).1 = Ok inventory
       ∧ Inventory.available_count inventory = 2)
  ∧ (∃ inventory,
       (update_inventory 20 101 Sample.owner close db).1 = Ok inventory
       ∧ Inventory.available_count inventory = 0
       ∧ Inventory.booked_count inventory = 1).
Proof.
  cbv zeta.
  assert (_verify_room_access 20 Sample.owner (Sample.db 2 1 ∅ ∅)
          = (Ok (Room.mk 10 100%float 2), Sample.db 2 1 ∅ ∅)) as Haccess
    by reflexivity.
  split; [done|]. split.
  - destruct (update_inventory_outcomes 20 102 Sample.owner
                (InventoryUpdate.mk (Given (Some 0)) Unset) _ _ Haccess)
      as [Hnew _].
    destruct Hnew as (inventory & -> & _ & _ & Htotal); [reflexivity|].
    exists inventory. split; [done|]. apply Htotal. by right.
  - destruct (update_inventory_outcomes 20 101 Sample.owner
                (InventoryUpdate.mk (Given (Some 0)) Unset) _ _ Haccess)
      as [_ Hold].
    destruct (Hold (Inventory.mk 2 1 120.5%float)) as [_ Hwrite]; [reflexivity|].
    destruct Hwrite as (inventory & -> & Hbooked & Hgiven & _); [done..|].
    exists inventory. split; [done|]. split; [by apply Hgiven|done].
Defined.

Lemma bulk_loop_results room_id room bulk_data dates updated db :
  NoDup dates →
  for_fold dates updated (bulk_update_date room_id room bulk_data) db
  = (Ok (updated
         ++ ((λ d, bulk_edited room bulk_data (inventories db !! (room_id, d)))
             <$> dates)),
     set_inventories (bulk_all room_id room bulk_data dates) db).
Proof.
  revert updated db. induction dates as [|d dates IH]; intros updated db Hnd; simpl.
  - unfold ret. by rewrite app_nil_r, set_inventories_id.
  - apply NoDup_cons in Hnd as [Hd Hnd].
    unfold bind at 1. unfold bulk_update_date at 1.
    unfold bind at 1. unfold gets at 1. unfold bind at 1. unfold modify at 1.
    unfold ret at 1. rewrite IH by done. rewrite <-app_assoc. simpl.
    match goal with
    | |- (?a, _) = (?c, _) => assert (a = c) as ->; [|by destruct db]
    end.
    apply (f_equal Ok), (f_equal (app updated)).
    apply (f_equal (cons (bulk_edited room bulk_data (inventories db !! (room_id, d))))).
    apply list_fmap_ext. intros i d' Hd'. f_equal.
    destruct db; simpl. apply lookup_insert_ne. intros [= ->].
    apply Hd. by eapply list_elem_of_lookup_2.
Qed.

(** X9: [bulk_update_inventory] refuses a range whose start is after its end
    with 400 and writes nothing (a one-day range, start = end, is served).
    When it returns, for a caller who passes the access check, it returns
    one record per date of the range, the end date included, in date order;
    the store then holds for every date of the range the record returned for
    it, and every other record is as before. *)
Theorem bulk_update_inventory_range room_id user bulk_data db room :
  _verify_room_access room_id user db = (Ok room, db) →
  let start_date := InventoryBulkUpdate.start_date bulk_data in
  let end_date := InventoryBulkUpdate.end_date bulk_data in
  (start_date > end_date →
     bulk_update_inventory room_id user bulk_data db
     = (Raised (HTTPException 400 StartAfterEnd), db))
  ∧ (start_date ≤ end_date →
     ∃ results db',
       bulk_update_inventory room_id user bulk_data db = (Ok results, db')
       ∧ Z.of_nat (length results) = end_date - start_date + 1
       ∧ (∀ d, start_date ≤ d ≤ end_date →
            inventories db' !! (room_id, d)
            = results !! Z.to_nat (d - start_date)
            ∧ inventories db' !! (room_id, d)
              = Some (bulk_edited room bulk_data (inventories db !! (room_id, d))))
       ∧ (∀ r d, ¬ (r = room_id ∧ start_date ≤ d ≤ end_date) →
            inventories db' !! (r, d) = inventories db !! (r, d))).
Proof.
  intros Haccess start_date end_date. subst start_date end_date.
  unfold bulk_update_inventory. erewrite !bind_ok by exact Haccess. split.
  - intros Hgt. by rewrite bool_decide_eq_true_2.
  - intros Hle. rewrite bool_decide_eq_false_2 by lia.
    set (start_date := InventoryBulkUpdate.start_date bulk_data) in *.
    set (end_date := InventoryBulkUpdate.end_date bulk_data) in *.
    rewrite bulk_loop_results by apply NoDup_seqZ.
    set (db' := set_inventories _ db).
    assert (∀ d, start_date ≤ d ≤ end_date →
              inventories db' !! (room_id, d)
              = Some (bulk_edited room bulk_data (inventories db !! (room_id, d))))
      as Hin.
    { intros d Hd. subst db'. destruct db; simpl.
      apply lookup_bulk_all_in; [apply NoDup_seqZ|]. apply elem_of_seqZ. lia. }
    eexists _, db'. split; [done|]. split; [|split].
    + simpl. rewrite length_fmap, length_seqZ. lia.
    + intros d Hd. split; [|by apply Hin]. rewrite (Hin d Hd). simpl.
      rewrite list_lookup_fmap.
      rewrite (lookup_seqZ_lt _ _ (Z.to_nat (d - start_date))) by lia.
      replace (start_date + Z.of_nat (Z.to_nat (d - start_date))) with d by lia.
      done.
    + intros r d Hout. subst db'. destruct db; simpl. apply lookup_bulk_all_out.
      intros d' Hd' [= -> ->]. apply elem_of_seqZ in Hd'. apply Hout.
      simpl in *. lia.
Qed.

Lemma bulk_update_inventory_range_witness :
  let db := Sample.db 2 1 ∅ ∅ in
  let bulk_data := InventoryBulkUpdate.mk 101 103 (Some 5) None in
  _verify_room_access 20 Sample.owner db = (Ok (Room.mk 10 100%float 2), db)
  ∧ ∃ results db',
      bulk_update_inventory 20 Sample.owner bulk_data db = (Ok results, db')
      ∧ length results = 3%nat
      ∧ inventories db' !! (20, 101) = Some (Inventory.mk 5 1 120.5%float)
      ∧ inventories db' !! (20, 103) = Some (Inventory.mk 5 0 100%float)
      ∧ inventories db' !! (20, 100) = Some (Inventory.mk 2 1 100%float).
Proof.
  cbv zeta.
  assert (_verify_room_access 20 Sample.owner (Sample.db 2 1 ∅ ∅)
          = (Ok (Room.mk 10 100%float 2), Sample.db 2 1 ∅ ∅)) as Haccess
    by reflexivity.
  split; [done|].
  destruct (bulk_update_inventory_range 20 Sample.owner
              (InventoryBulkUpdate.mk 101 103 (Some 5) None) _ _ Haccess)
    as [_ Hrun].
  destruct Hrun as (results & db' & Hrun & Hlen & Hin & Hout); [simpl; lia|].
  exists results, db'. split; [done|]. simpl in Hlen. split; [lia|].
  split; [|split].
  - destruct (Hin 101) as [_ ->]; [simpl; lia|]. reflexivity.
  - destruct (Hin 103) as [_ ->]; [simpl; lia|]. reflexivity.
  - rewrite Hout by (simpl; lia). reflexivity.
Defined.

(** * Reading the ledger *)

#[local] Instance by_date_transitive : Transitive by_date.
Proof. intros x y z. unfold by_date. lia. Qed.
#[local] Instance by_date_total : Total by_date.
Proof. intros x y. unfold by_date. lia. Qed.

Lemma elem_of_inventory_rows (P : Z * Z * Inventory.t → Prop)
    `{!∀ x, Decision (P x)} db x :
  x ∈ inventory_rows P db ↔ inventories db !! x.1 = Some x.2 ∧ P x.
Proof.
  unfold inventory_rows. destruct x as [k i].
  rewrite elem_of_map_to_list. apply map_lookup_filter_Some.
Qed.

Lemma NoDup_inventory_rows (P : Z * Z * Inventory.t → Prop)
    `{!∀ x, Decision (P x)} db :
  NoDup (inventory_rows P db).
Proof. apply NoDup_map_to_list. Qed.

Lemma elem_of_ledger_rows room_id dates db x :
  x ∈ ledger_rows room_id dates db
  ↔ x.1.1 = room_id ∧ x.1.2 ∈ dates ∧ inventories db !! x.1 = Some x.2.
Proof.
  unfold ledger_rows. rewrite list_elem_of_omap. destruct x as [[r d] i]. simpl.
  split.
  - intros (d' & Hd' & Hx). destruct (inventories db !! (room_id, d')) eqn:Hi;
      simplify_eq/=. done.
  - intros (-> & Hd & Hi). exists d. by rewrite Hi.
Qed.

Lemma ledger_rows_cons room_id d dates db :
  ledger_rows room_id (d :: dates) db
  = match inventories db !! (room_id, d) with
    | Some i => ((room_id, d), i) :: ledger_rows room_id dates db
    | None => ledger_rows room_id dates db
    end.
Proof. unfold ledger_rows. simpl. by destruct (inventories db !! _). Qed.

Lemma ledger_rows_sorted room_id dates db :
  StronglySorted Z.lt dates →
  StronglySorted by_date (ledger_rows room_id dates db).
Proof.
  induction 1 as [|d dates Hs IH Hd]; [constructor|].
  rewrite ledger_rows_cons. destruct (inventories db !! _); [|done].
  constructor; [done|]. apply Forall_forall. intros x Hx.
  apply elem_of_ledger_rows in Hx as (_ & Hx & _).
  rewrite Forall_forall in Hd. apply Hd in Hx. unfold by_date. simpl. lia.
Qed.

Lemma NoDup_ledger_rows room_id dates db :
  NoDup dates → NoDup (ledger_rows room_id dates db).
Proof.
  induction 1 as [|d dates Hd Hnd IH]; [constructor|].
  rewrite ledger_rows_cons. destruct (inventories db !! _); [|done].
  constructor; [|done]. intros Hx. by apply elem_of_ledger_rows in Hx as (_ & Hx & _).
Qed.

(** A query by room and by a set of dates selects the records of the room
    on these dates. *)
Lemma inventory_rows_Permutation (P : Z * Z * Inventory.t → Prop)
    `{!∀ x, Decision (P x)} room_id dates db :
  NoDup dates →
  (∀ x, P x ↔ x.1.1 = room_id ∧ x.1.2 ∈ dates) →
  inventory_rows P db ≡ₚ ledger_rows room_id dates db.
Proof.
  intros Hnd HP.
  apply NoDup_Permutation;
    [apply NoDup_inventory_rows|by apply NoDup_ledger_rows|].
  intros x. rewrite elem_of_inventory_rows, elem_of_ledger_rows, HP. tauto.
Qed.

Lemma seqZ_sorted m n : StronglySorted Z.lt (seqZ m n).
Proof.
  remember (Z.to_nat n) as k eqn:Hk. revert m n Hk.
  induction k as [|k IH]; intros m n Hk.
  - rewrite seqZ_nil by lia. constructor.
  - rewrite seqZ_cons by lia. constructor; [apply IH; lia|].
    apply Forall_seqZ. lia.
Qed.

(** X10: for a caller who passes the access check, [get_room_inventory]
    returns the records of the room for the dates from the start date to the
    end date, the end date included, one per date that has a record, in
    increasing order of date, and leaves the store as it was.  A start date
    that is not given is today; an end date that is not given is 30 days
    after the start date, so that the default window has 31 dates. *)
Theorem get_room_inventory_range today room_id user start_date end_date db room :
  _verify_room_access room_id user db = (Ok room, db) →
  let first := default today start_date in
  let last := default (first + 30) end_date in
  get_room_inventory today room_id user start_date end_date db
  = (Ok (ledger_rows room_id (seqZ first (last - first + 1)) db), db).
Proof.
  intros Haccess first last. unfold get_room_inventory.
  erewrite bind_ok by exact Haccess. fold first. fold last.
  unfold bind at 1. unfold gets at 1. unfold ret. do 2 f_equal.
  set (P := λ r : Z * Z * Inventory.t,
              r.1.1 = room_id ∧ r.1.2 >= first ∧ r.1.2 ≤ last).
  assert (inventory_rows P db
          ≡ₚ ledger_rows room_id (seqZ first (last - first + 1)) db) as Hperm.
  { apply inventory_rows_Permutation; [apply NoDup_seqZ|].
    intros x. unfold P. rewrite elem_of_seqZ. lia. }
  apply (StronglySorted_unique_strong by_date).
  - intros x1 x2 Hx1 Hx2 H12 H21.
    rewrite merge_sort_Permutation, Hperm in Hx1.
    apply elem_of_ledger_rows in Hx1 as (Hr1 & _ & Hi1).
    apply elem_of_ledger_rows in Hx2 as (Hr2 & _ & Hi2).
    destruct x1 as [[r1 d1] i1], x2 as [[r2 d2] i2]. unfold by_date in *.
    simpl in *. assert (d1 = d2) as -> by lia. congruence.
  - apply StronglySorted_merge_sort; apply _.
  - apply ledger_rows_sorted, seqZ_sorted.
  - by rewrite merge_sort_Permutation.
Qed.

Lemma get_room_inventory_range_witness :
  let db := Sample.db 2 1 ∅ ∅ in
  _verify_room_access 20 Sample.owner db = (Ok (Room.mk 10 100%float 2), db)
  ∧ get_room_inventory 101 20 Sample.owner None None db
    = (Ok [((20, 101), Inventory.mk 2 1 120.5%float)], db)
  ∧ get_room_inventory 101 20 Sample.owner (Some 90) (Some 100) db
    = (Ok [((20, 100), Inventory.mk 2 1 100%float)], db).
Proof.
  cbv zeta.
  assert (_verify_room_access 20 Sample.owner (Sample.db 2 1 ∅ ∅)
          = (Ok (Room.mk 10 100%float 2), Sample.db 2 1 ∅ ∅)) as Haccess
    by reflexivity.
  split; [done|]. split.
  - rewrite (get_room_inventory_range 101 20 Sample.owner None None _ _ Haccess).
    reflexivity.
  - rewrite (get_room_inventory_range 101 20 Sample.owner (Some 90) (Some 100)
               _ _ Haccess).
    reflexivity.
Defined.

(** * Search and reservation agree on availability *)

Lemma length_ledger_rows room_id dates db :
  (length (ledger_rows room_id dates db) ≤ length dates)%nat
  ∧ (length (ledger_rows room_id dates db) = length dates
     ↔ ∀ d, d ∈ dates → is_Some (inventories db !! (room_id, d))).
Proof.
  induction dates as [|d dates [IHle IHeq]].
  - split; [done|]. split; [|done]. intros _ d Hd. by apply elem_of_nil in Hd.
  - rewrite ledger_rows_cons.
    destruct (inventories db !! (room_id, d)) as [i|] eqn:Hi; simpl.
    + split; [lia|]. split.
      * intros Hlen d' Hd'. apply elem_of_cons in Hd' as [->|Hd']; [by rewrite Hi|].
        apply IHeq; [lia|done].
      * intros Hall. f_equal. apply IHeq. intros d' Hd'. apply Hall.
        apply elem_of_cons. tauto.
    + split; [lia|]. split; [lia|]. intros Hall.
      destruct (Hall d) as [i Hsome]; [apply elem_of_cons; tauto|]. congruence.
Qed.

Lemma length_night_dates check_in check_out :
  Z.of_nat (length (night_dates check_in check_out)) = Z.max 0 (check_out - check_in).
Proof. unfold night_dates. rewrite length_fmap, length_seqZ. lia. Qed.

(** The inventory test of the search on a room is the availability check of
    the reservation on every night of the stay. *)
Lemma room_available_true room_id check_in_date check_out_date rooms db :
  room_available room_id check_in_date check_out_date rooms db = true
  ↔ ∀ d, check_in_date ≤ d < check_out_date →
         date_passes db room_id (or_int rooms 1) d.
Proof.
  unfold room_available.
  set (P := λ r : Z * Z * Inventory.t,
              r.1.1 = room_id ∧ r.1.2 >= check_in_date ∧ r.1.2 < check_out_date).
  set (dates := night_dates check_in_date check_out_date).
  assert (inventory_rows P db ≡ₚ ledger_rows room_id dates db) as Hperm.
  { apply inventory_rows_Permutation; [apply NoDup_night_dates|].
    intros x. unfold P, dates. rewrite elem_of_night_dates. lia. }
  pose proof (length_ledger_rows room_id dates db) as [Hle Heq].
  pose proof (length_night_dates check_in_date check_out_date) as Hnights.
  fold dates in Hnights.
  rewrite andb_true_iff, bool_decide_eq_true, forallb_forall, Hperm.
  setoid_rewrite <-list_elem_of_In. setoid_rewrite Hperm.
  setoid_rewrite bool_decide_eq_true. split.
  - intros [Hlen Hall] d Hd.
    destruct (proj1 Heq ltac:(lia) d) as [i Hi];
      [by apply elem_of_night_dates|].
    exists i. split; [done|].
    specialize (Hall ((room_id, d), i)). simpl in Hall.
    cut (Inventory.available_count i - Inventory.booked_count i >= or_int rooms 1);
      [lia|].
    apply Hall, elem_of_ledger_rows. simpl.
    split; [done|]. split; [by apply elem_of_night_dates|done].
  - intros Hpass. split.
    + assert (length (ledger_rows room_id dates db) = length dates) as ->; [|lia].
      apply Heq. intros d Hd%elem_of_night_dates.
      destruct (Hpass d Hd) as (i & -> & _). eauto.
    + intros [[r d] i] (Hr & Hd & Hi)%elem_of_ledger_rows. simpl in *. subst r.
      apply elem_of_night_dates in Hd.
      destruct (Hpass d Hd) as (i' & Hi' & Hcap).
      assert (i' = i) as -> by congruence. lia.
Qed.

(** X11: the availability answer of the hotel search is the availability
    check of the reservation: [_check_hotel_availability] answers [True]
    exactly when one of the hotel's rooms passes the guest and price filters
    and has, on every night from check-in to the night before check-out, a
    record with at least [rooms or 1] rooms left (a count of rooms that is
    not given, or zero, asks for one).  It follows that a stay with no night
    (check-out not after check-in) is answered [True] as soon as a room
    passes the filters, whatever the ledger holds. *)
Theorem _check_hotel_availability_true hotel_rooms check_in_date check_out_date
    guests rooms min_price max_price db :
  (_check_hotel_availability hotel_rooms check_in_date check_out_date
     guests rooms min_price max_price db = true
   ↔ ∃ room, room ∈ hotel_rooms
           ∧ room_offered room check_in_date check_out_date
               guests rooms min_price max_price db)
  ∧ (check_out_date ≤ check_in_date →
     _check_hotel_availability hotel_rooms check_in_date check_out_date
       guests rooms min_price max_price db
     = existsb (λ room, negb (room_skipped room guests min_price max_price))
         hotel_rooms).
Proof.
  split.
  - induction hotel_rooms as [|room hotel_rooms IH]; simpl.
    + split; [done|]. intros (room & Hin & _). by apply elem_of_nil in Hin.
    + destruct (room_skipped room guests min_price max_price) eqn:Hskip.
      * rewrite IH. split.
        -- intros (room' & Hin & Hoff). exists room'. split; [|done].
           apply elem_of_cons. tauto.
        -- intros (room' & Hin & Hoff). exists room'. split; [|done].
           apply elem_of_cons in Hin as [->|Hin]; [|done].
           destruct Hoff as [Hoff _]. congruence.
      * destruct (room_available _ _ _ _ _) eqn:Havail.
        -- split; [|done]. intros _. exists room. split; [apply elem_of_cons; tauto|].
           split; [done|]. by apply room_available_true.
        -- rewrite IH. split.
           ++ intros (room' & Hin & Hoff). exists room'. split; [|done].
              apply elem_of_cons. tauto.
           ++ intros (room' & Hin & Hoff). exists room'. split; [|done].
              apply elem_of_cons in Hin as [->|Hin]; [|done].
              destruct Hoff as [_ Hoff]. apply room_available_true in Hoff.
              congruence.
  - intros Hdates. induction hotel_rooms as [|room hotel_rooms IH]; simpl; [done|].
    destruct (room_skipped room guests min_price max_price); simpl; [done|].
    assert (room_available (HotelRoom.id room) check_in_date check_out_date rooms db
            = true) as ->; [|done].
    apply room_available_true. intros d Hd. lia.
Qed.

(** * A new room and its first 90 days *)

Lemma lookup_add_all_out rows m k :
  (∀ r, r ∈ rows → r.1 ≠ k) →
  foldl (λ (m : gmap (Z * Z) Inventory.t) r, <[r.1 := r.2]> m) m rows !! k = m !! k.
Proof.
  revert m. induction rows as [|r rows IH]; intros m Hout; simpl; [done|].
  rewrite IH by (intros r' Hr'; apply Hout, elem_of_cons; tauto).
  apply lookup_insert_ne, Hout, elem_of_cons. tauto.
Qed.

Lemma lookup_add_all_in rows m k v :
  NoDup rows.*1 → (k, v) ∈ rows →
  foldl (λ (m : gmap (Z * Z) Inventory.t) r, <[r.1 := r.2]> m) m rows !! k = Some v.
Proof.
  revert m. induction rows as [|r rows IH]; intros m Hnd Hin; simpl.
  - by apply elem_of_nil in Hin.
  - rewrite fmap_cons in Hnd. apply NoDup_cons in Hnd as [Hr Hnd].
    apply elem_of_cons in Hin as [<-|Hin]; [|by apply IH].
    rewrite lookup_add_all_out; [apply lookup_insert_eq|].
    intros r' Hr' Heq. apply Hr. simpl in *. rewrite <-Heq.
    apply list_elem_of_fmap. by exists r'.
Qed.

Lemma _initialize_inventory_lookup today room_id room days db r d :
  inventories (_initialize_inventory today room_id room days db) !! (r, d)
  = if bool_decide (r = room_id ∧ today ≤ d < today + days)
    then Some (Inventory.mk (Room.total_count room) 0 (Room.base_price room))
    else inventories db !! (r, d).
Proof.
  unfold _initialize_inventory, add_all_inventories. destruct db as [h rm inv g b p].
  simpl. case_bool_decide as Hin.
  - destruct Hin as [-> Hd]. apply lookup_add_all_in.
    + rewrite <-list_fmap_compose. apply NoDup_fmap_2, NoDup_seqZ.
      intros i j [= ?]. lia.
    + apply list_elem_of_fmap. exists (d - today). split; [f_equal; f_equal; lia|].
      apply elem_of_seqZ. lia.
  - apply lookup_add_all_out. intros x (i & -> & Hi%elem_of_seqZ)%list_elem_of_fmap.
    simpl. intros [= <- <-]. apply Hin. split; [done|lia].
Qed.

Lemma _verify_hotel_access_inv hotel_id user db a db' :
  _verify_hotel_access hotel_id user db = (a, db') →
  db' = db
  ∧ ∀ hotel, a = Returned hotel →
      hotels db !! hotel_id = Some hotel
      ∧ (User.role user = UserRole.ADMIN ∨ Hotel.owner_id hotel = User.id user).
Proof.
  unfold _verify_hotel_access. destruct (hotels db !! hotel_id) as [hotel|].
  - destruct (bool_decide (User.role user ≠ _)) eqn:Hrole;
      destruct (bool_decide (Hotel.owner_id hotel ≠ _)) eqn:Howner; simpl;
      intros [= <- <-]; (split; [done|]); intros hotel' [= <-]; try done;
      (split; [done|]).
    + right. apply bool_decide_eq_false in Howner.
      by destruct (decide (Hotel.owner_id hotel = User.id user)).
    + left. apply bool_decide_eq_false in Hrole.
      by destruct (decide (User.role user = UserRole.ADMIN)).
    + left. apply bool_decide_eq_false in Hrole.
      by destruct (decide (User.role user = UserRole.ADMIN)).
  - intros [= <- <-]. done.
Qed.

Lemma create_room_returned today hotel_id user room_data db room_id room db' :
  create_room today hotel_id user room_data db = (Returned (room_id, room), db') →
  room_id = next_id (rooms db)
  ∧ room = Room.mk hotel_id (RoomCreate.base_price room_data)
             (RoomCreate.total_count room_data)
  ∧ db' = _initialize_inventory today room_id room 90
            (set_rooms <[room_id := room]> db)
  ∧ ∃ hotel, hotels db !! hotel_id = Some hotel
           ∧ (User.role user = UserRole.ADMIN
              ∨ Hotel.owner_id hotel = User.id user).
Proof.
  unfold create_room.
  destruct (_verify_hotel_access hotel_id user db) as [a db0] eqn:Haccess.
  destruct (_verify_hotel_access_inv _ _ _ _ _ Haccess) as [-> Hhotel].
  destruct a as [hotel| |]; [|done..]. intros [= <- <- <-].
  split; [done|]. split; [done|]. split; [done|]. exists hotel. by apply Hhotel.
Qed.

(** X12: when [create_room] returns, the caller is an administrator or the
    owner of the hotel, the room is stored under a new key, and the ledger
    holds for the room a record for each of the 90 dates from today to
    today + 89, offering the room's [total_count] at its [base_price] with
    nothing committed; every other record, and every other table, is as
    before.  The ledger invariant [0 ≤ committed ≤ total_offered] is kept. *)
Theorem create_room_window today hotel_id user room_data db room_id room db' :
  create_room today hotel_id user room_data db = (Returned (room_id, room), db') →
  (∃ hotel, hotels db !! hotel_id = Some hotel
          ∧ (User.role user = UserRole.ADMIN
             ∨ Hotel.owner_id hotel = User.id user))
  ∧ rooms db !! room_id = None
  ∧ rooms db' = <[room_id := room]> (rooms db)
  ∧ Room.hotel_id room = hotel_id
  ∧ (∀ d, today ≤ d < today + 90 →
       inventories db' !! (room_id, d)
       = Some (Inventory.mk (RoomCreate.total_count room_data) 0
                 (RoomCreate.base_price room_data)))
  ∧ (∀ r d, ¬ (r = room_id ∧ today ≤ d < today + 90) →
       inventories db' !! (r, d) = inventories db !! (r, d))
  ∧ hotels db' = hotels db ∧ bookings db' = bookings db
  ∧ payments db' = payments db ∧ guests db' = guests db
  ∧ (RoomCreate.valid room_data → ledger_inv db → ledger_inv db').
Proof.
  intros (-> & -> & -> & Hhotel)%create_room_returned.
  split; [done|]. split; [apply next_id_fresh|].
  split; [by destruct db|]. split; [done|].
  assert (∀ r d,
    inventories
      (_initialize_inventory today (next_id (rooms db))
         (Room.mk hotel_id (RoomCreate.base_price room_data)
            (RoomCreate.total_count room_data)) 90
         (set_rooms
            <[next_id (rooms db) :=
                Room.mk hotel_id (RoomCreate.base_price room_data)
                  (RoomCreate.total_count room_data)]> db)) !! (r, d)
    = if bool_decide (r = next_id (rooms db) ∧ today ≤ d < today + 90)
      then Some (Inventory.mk (RoomCreate.total_count room_data) 0
                   (RoomCreate.base_price room_data))
      else inventories db !! (r, d)) as Hlookup.
  { intros r d. rewrite _initialize_inventory_lookup. by destruct db. }
  split; [|split].
  - intros d Hd. by rewrite Hlookup, bool_decide_eq_true_2.
  - intros r d Hout. by rewrite Hlookup, bool_decide_eq_false_2.
  - do 4 (split; [by destruct db|]).
    intros Hvalid Hinv [r d] i. rewrite Hlookup. case_bool_decide.
    + intros [= <-]. unfold RoomCreate.valid in Hvalid. simpl. lia.
    + apply Hinv.
Qed.

Lemma create_room_window_witness :
  let db := Sample.db 2 1 ∅ ∅ in
  ∃ room db',
    create_room 100 10 Sample.owner (RoomCreate.mk 80%float 3) db
    = (Returned (21, room), db')
    ∧ inventories db' !! (21, 189) = Some (Inventory.mk 3 0 80%float)
    ∧ inventories db' !! (21, 190) = None
    ∧ inventories db' !! (20, 100) = Some (Inventory.mk 2 1 100%float).
Proof.
  cbv zeta.
  destruct (create_room 100 10 Sample.owner (RoomCreate.mk 80%float 3)
              (Sample.db 2 1 ∅ ∅)) as [a db'] eqn:Hrun.
  pose proof Hrun as Hc. vm_compute in Hc. injection Hc as <- _.
  destruct (create_room_window _ _ _ _ _ _ _ _ Hrun)
    as (_ & _ & _ & _ & Hin & Hout & _).
  eexists _, db'. split; [done|]. split; [|split].
  - by rewrite Hin by lia.
  - by rewrite Hout by lia.
  - by rewrite Hout by lia.
Defined.

Lemma create_room_frame today hotel_id user room_data db room_id room db' :
  create_room today hotel_id user room_data db = (Returned (room_id, room), db') →
  rooms db !! room_id = None
  ∧ rooms db' = <[room_id := room]> (rooms db)
  ∧ Room.hotel_id room = hotel_id
  ∧ hotels db' = hotels db ∧ bookings db' = bookings db.
Proof.
  intros (-> & -> & -> & _)%create_room_returned.
  split; [apply next_id_fresh|]. by destruct db.
Qed.

Lemma create_room_lookup today hotel_id user room_data db room_id room db' :
  create_room today hotel_id user room_data db = (Returned (room_id, room), db') →
  ∀ r d,
    inventories db' !! (r, d)
    = if bool_decide (r = room_id ∧ today ≤ d < today + 90)
      then Some (Inventory.mk (RoomCreate.total_count room_data) 0
                   (RoomCreate.base_price room_data))
      else inventories db !! (r, d).
Proof.
  intros (-> & -> & -> & _)%create_room_returned r d.
  rewrite _initialize_inventory_lookup. by destruct db.
Qed.

Lemma night_dates_nil check_in : night_dates check_in check_in = [].
Proof. unfold night_dates. by rewrite seqZ_nil by lia. Qed.

(** X13: a room that [create_room] has just added to an active hotel can be
    booked for exactly its first 90 days.  For a stay that starts on or
    after the day of creation: if it ends within the 90 days and asks for no
    more rooms than the room's [total_count], [init_booking] returns a
    [PENDING] booking and the nights of the stay carry the rooms asked for
    as committed; if it asks for more rooms, it fails with
    [InsufficientCapacity] on the check-in date; and if it reaches past the
    90 days, it fails with [NoInventory] on the first date that has no
    record, which is day 90 or the check-in date if that is later.  (The
    ledger held no record for a room that was not stored.) *)
Theorem create_room_then_book today hotel_id user room_data db room_id room db'
    hotel booking_day guest booking_data :
  create_room today hotel_id user room_data db = (Returned (room_id, room), db') →
  inventory_of_rooms db →
  hotels db !! hotel_id = Some hotel → Hotel.is_active hotel = true →
  BookingCreate.hotel_id booking_data = hotel_id →
  BookingCreate.room_id booking_data = room_id →
  let check_in := BookingCreate.check_in_date booking_data in
  let check_out := BookingCreate.check_out_date booking_data in
  let rooms_count := BookingCreate.rooms_count booking_data in
  let total_count := RoomCreate.total_count room_data in
  check_in < check_out → booking_day ≤ check_in → today ≤ check_in →
  (check_out ≤ today + 90 → rooms_count ≤ total_count →
     ∃ booking db'',
       init_booking booking_day guest booking_data db'
       = (Ok (next_id (bookings db), booking), db'')
       ∧ Booking.status booking = BookingStatus.PENDING
       ∧ ∀ d, check_in ≤ d < check_out →
           inventories db'' !! (room_id, d)
           = Some (Inventory.mk total_count rooms_count
                     (RoomCreate.base_price room_data)))
  ∧ (check_in < today + 90 → total_count < rooms_count →
     init_booking booking_day guest booking_data db'
     = (Raised (InsufficientCapacity check_in), db'))
  ∧ (today + 90 < check_out → rooms_count ≤ total_count →
     init_booking booking_day guest booking_data db'
     = (Raised (NoInventory (Z.max check_in (today + 90))), db')).
Proof.
  intros Hrun Hfk Hhotel Hactive Hh Hr check_in check_out rooms_count total_count
    Hdates Hday Htoday.
  pose proof (create_room_lookup _ _ _ _ _ _ _ _ Hrun) as Hlookup.
  destruct (create_room_frame _ _ _ _ _ _ _ _ Hrun)
    as (Hfresh & Hrooms & Hroom & Hhotels & Hbookings).
  assert (request_admitted booking_day booking_data db') as Hadm.
  { split; [done|]. split; [done|]. split.
    - exists hotel. by rewrite Hh, Hhotels.
    - exists room. rewrite Hr, Hrooms, lookup_insert_eq. by rewrite Hh. }
  assert (∀ d, today + 90 ≤ d →
            date_error db' (BookingCreate.room_id booking_data) rooms_count d
            = Some (NoInventory d)) as Hpast.
  { intros d Hd. unfold date_error. rewrite Hr, Hlookup.
    rewrite bool_decide_eq_false_2 by lia.
    destruct (inventories db !! (room_id, d)) eqn:Hi; [|done].
    destruct (Hfk room_id d) as [x Hx]; [by rewrite Hi|]. congruence. }
  assert (∀ d, today ≤ d < today + 90 →
            date_error db' (BookingCreate.room_id booking_data) rooms_count d
            = if bool_decide (total_count - 0 < rooms_count)
              then Some (InsufficientCapacity d) else None) as Hwindow.
  { intros d Hd. unfold date_error. rewrite Hr, Hlookup.
    by rewrite bool_decide_eq_true_2 by done. }
  split; [|split].
  - intros Hend Hcount.
    assert (Forall (λ d, date_error db' (BookingCreate.room_id booking_data)
                           rooms_count d = None)
              (night_dates check_in check_out)) as Hall.
    { apply Forall_forall. intros d Hd%elem_of_night_dates.
      rewrite Hwindow by lia. by rewrite bool_decide_eq_false_2 by lia. }
    rewrite (init_booking_ok _ _ _ _ Hadm Hall). rewrite Hbookings.
    eexists _, _. split; [done|]. split; [done|].
    intros d Hd. destruct db' as [h rm inv g b p]; simpl in *.
    fold check_in check_out rooms_count. rewrite Hr.
    rewrite lookup_touch_all_in
      by (by apply NoDup_night_dates || by apply elem_of_night_dates).
    rewrite Hlookup, bool_decide_eq_true_2 by (split; [done|lia]).
    simpl. unfold reserve_record, Inventory.set_booked_count. simpl. done.
  - intros Hin Hcount.
    destruct (night_dates_split check_in check_out check_in) as [rest Hsplit];
      [lia|]. rewrite night_dates_nil in Hsplit.
    eapply (init_booking_fail _ _ _ _ [] check_in rest); [done|done|done|].
    rewrite Hwindow by lia. by rewrite bool_decide_eq_true_2 by lia.
  - intros Hend Hcount.
    destruct (night_dates_split check_in check_out (Z.max check_in (today + 90)))
      as [rest Hsplit]; [lia|].
    eapply init_booking_fail; [done|exact Hsplit| |by apply Hpast; lia].
    apply Forall_forall. intros d Hd%elem_of_night_dates.
    rewrite Hwindow by lia. by rewrite bool_decide_eq_false_2 by lia.
Qed.

Lemma create_room_then_book_witness :
  let db := Sample.db 2 1 ∅ ∅ in
  ∃ room db' booking db'',
    create_room 100 10 Sample.owner (RoomCreate.mk 80%float 3) db
    = (Returned (21, room), db')
    ∧ init_booking 100 Sample.alice (BookingCreate.mk 10 21 100 103 2 None) db'
      = (Ok (1, booking), db'')
    ∧ inventories db'' !! (21, 102) = Some (Inventory.mk 3 2 80%float)
    ∧ init_booking 100 Sample.alice (BookingCreate.mk 10 21 188 191 2 None) db'
      = (Raised (NoInventory 190), db').
Proof.
  cbv zeta.
  destruct (create_room 100 10 Sample.owner (RoomCreate.mk 80%float 3)
              (Sample.db 2 1 ∅ ∅)) as [a db'] eqn:Hrun.
  pose proof Hrun as Hc. vm_compute in Hc. injection Hc as <- _.
  assert (inventory_of_rooms (Sample.db 2 1 ∅ ∅)) as Hfk.
  { intros r d [i Hi]. simpl in Hi. unfold Sample.ledger in Hi.
    apply lookup_insert_Some in Hi as [[[= <- <-] _]|[_ Hi]]; [by eexists|].
    apply lookup_singleton_Some in Hi as [[= <- <-] _]. by eexists. }
  assert (hotels (Sample.db 2 1 ∅ ∅) !! 10 = Some (Hotel.mk 2 true)) as Hhotel
    by reflexivity.
  destruct (create_room_then_book 100 10 Sample.owner (RoomCreate.mk 80%float 3)
              _ 21 _ db' _ 100 Sample.alice
              (BookingCreate.mk 10 21 100 103 2 None)
              Hrun Hfk Hhotel eq_refl eq_refl eq_refl)
    as (Hok & _ & _); [simpl; lia..|].
  destruct Hok as (booking & db'' & Hbook & _ & Hin); [simpl; lia..|].
  destruct (create_room_then_book 100 10 Sample.owner (RoomCreate.mk 80%float 3)
              _ 21 _ db' _ 100 Sample.alice
              (BookingCreate.mk 10 21 188 191 2 None)
              Hrun Hfk Hhotel eq_refl eq_refl eq_refl)
    as (_ & _ & Hpast); [simpl; lia..|].
  eexists _, db', booking, db''. split; [done|]. split; [exact Hbook|].
  split; [apply Hin; simpl; lia|]. apply Hpast; simpl; lia.
Defined.

(** * Hotels: creation and activation *)

Lemma init_booking_inactive today user booking_data db hotel :
  BookingCreate.check_in_date booking_data < BookingCreate.check_out_date booking_data →
  today ≤ BookingCreate.check_in_date booking_data →
  hotels db !! BookingCreate.hotel_id booking_data = Some hotel →
  Hotel.is_active hotel = false →
  init_booking today user booking_data db
  = (Raised (HTTPException 404 HotelNotFoundOrInactive), db).
Proof.
  intros Hdates Htoday Hhotel Hactive. unfold init_booking.
  rewrite !bool_decide_eq_false_2 by lia.
  unfold bind at 1. unfold gets at 1. by rewrite Hhotel, Hactive.
Qed.

Lemma init_booking_active today user booking_data db hotel :
  BookingCreate.check_in_date booking_data < BookingCreate.check_out_date booking_data →
  today ≤ BookingCreate.check_in_date booking_data →
  hotels db !! BookingCreate.hotel_id booking_data = Some hotel →
  Hotel.is_active hotel = true →
  (init_booking today user booking_data db).1
  ≠ Raised (HTTPException 404 HotelNotFoundOrInactive).
Proof.
  intros Hdates Htoday Hhotel Hactive.
  destruct (rooms db !! BookingCreate.room_id booking_data) as [room|] eqn:Hroom.
  - destruct (decide (Room.hotel_id room = BookingCreate.hotel_id booking_data))
      as [Hin|Hout].
    + assert (request_admitted today booking_data db) as Hadm.
      { split; [done|]. split; [done|]. split; eauto. }
      destruct (first_date_error db (BookingCreate.room_id booking_data)
                  (BookingCreate.rooms_count booking_data)
                  (night_dates (BookingCreate.check_in_date booking_data)
                     (BookingCreate.check_out_date booking_data)))
        as [Hall|(passed & d & rest & e & Hsplit & Hpassed & He)].
      * by rewrite (init_booking_ok _ _ _ _ Hadm Hall).
      * rewrite (init_booking_fail _ _ _ _ _ _ _ _ Hadm Hsplit Hpassed He). simpl.
        intros [= ->]. unfold date_error in He.
        destruct (inventories db !! _); [case_bool_decide|]; discriminate.
    + unfold init_booking. rewrite !bool_decide_eq_false_2 by lia.
      unfold bind at 1. unfold gets at 1. rewrite Hhotel, Hactive.
      unfold bind at 1. unfold gets at 1. rewrite Hroom.
      by rewrite bool_decide_eq_false_2.
  - unfold init_booking. rewrite !bool_decide_eq_false_2 by lia.
    unfold bind at 1. unfold gets at 1. rewrite Hhotel, Hactive.
    unfold bind at 1. unfold gets at 1. by rewrite Hroom.
Qed.

Lemma write_is_active_granted v hotel_id user db hotel :
  hotels db !! hotel_id = Some hotel →
  User.role user = UserRole.ADMIN ∨ Hotel.owner_id hotel = User.id user →
  write_is_active v hotel_id user db
  = (Returned (Hotel.mk (Hotel.owner_id hotel) v),
     set_hotels <[hotel_id := Hotel.mk (Hotel.owner_id hotel) v]> db).
Proof.
  intros Hhotel Hauth. unfold write_is_active, get_hotel_by_id. rewrite Hhotel.
  destruct Hauth as [Hadmin|Howner].
  - by rewrite bool_decide_eq_false_2 by (by intros []).
  - rewrite (bool_decide_eq_false_2 (Hotel.owner_id hotel ≠ _)) by (by intros []).
    by rewrite andb_false_r.
Qed.

Lemma write_is_active_denied v hotel_id user db hotel :
  hotels db !! hotel_id = Some hotel →
  User.role user ≠ UserRole.ADMIN → Hotel.owner_id hotel ≠ User.id user →
  write_is_active v hotel_id user db
  = (HTTPError 403 "Not authorized to access this hotel", db).
Proof.
  intros Hhotel Hrole Howner. unfold write_is_active, get_hotel_by_id.
  rewrite Hhotel. by rewrite !bool_decide_eq_true_2.
Qed.

(** X14: the [is_active] flag that [activate_hotel] and [deactivate_hotel]
    write is what opens and closes a hotel for reservation.  Called by an
    administrator or the hotel's owner on a stored hotel, each returns and
    writes the flag, and nothing else; on the store that results, a
    reservation request for the hotel whose dates are in order is turned
    away with 404 "Hotel not found or not active" exactly when the hotel was
    deactivated.  Any other caller gets 403 and nothing is written. *)
Theorem activation_gates_booking hotel_id caller db hotel :
  hotels db !! hotel_id = Some hotel →
  (User.role caller = UserRole.ADMIN ∨ Hotel.owner_id hotel = User.id caller →
   ∃ db_on db_off,
     activate_hotel hotel_id caller db
     = (Returned (Hotel.mk (Hotel.owner_id hotel) true), db_on)
     ∧ deactivate_hotel hotel_id caller db
       = (Returned (Hotel.mk (Hotel.owner_id hotel) false), db_off)
     ∧ hotels db_on = <[hotel_id := Hotel.mk (Hotel.owner_id hotel) true]> (hotels db)
     ∧ hotels db_off = <[hotel_id := Hotel.mk (Hotel.owner_id hotel) false]> (hotels db)
     ∧ (rooms db_on, inventories db_on, bookings db_on, payments db_on)
       = (rooms db, inventories db, bookings db, payments db)
     ∧ (rooms db_off, inventories db_off, bookings db_off, payments db_off)
       = (rooms db, inventories db, bookings db, payments db)
     ∧ ∀ today guest booking_data,
         BookingCreate.hotel_id booking_data = hotel_id →
         BookingCreate.check_in_date booking_data
         < BookingCreate.check_out_date booking_data →
         today ≤ BookingCreate.check_in_date booking_data →
         init_booking today guest booking_data db_off
         = (Raised (HTTPException 404 HotelNotFoundOrInactive), db_off)
         ∧ (init_booking today guest booking_data db_on).1
           ≠ Raised (HTTPException 404 HotelNotFoundOrInactive))
  ∧ (User.role caller ≠ UserRole.ADMIN → Hotel.owner_id hotel ≠ User.id caller →
     activate_hotel hotel_id caller db
     = (HTTPError 403 "Not authorized to access this hotel", db)
     ∧ deactivate_hotel hotel_id caller db
       = (HTTPError 403 "Not authorized to access this hotel", db)).
Proof.
  intros Hhotel. split.
  - intros Hauth. unfold activate_hotel, deactivate_hotel.
    rewrite !(write_is_active_granted _ _ _ _ _ Hhotel Hauth).
    eexists _, _. split; [done|]. split; [done|].
    split; [by destruct db|]. split; [by destruct db|].
    split; [by destruct db|]. split; [by destruct db|].
    intros today guest booking_data Hh Hdates Htoday. split.
    + eapply init_booking_inactive; [done|done| |];
        [rewrite Hh; destruct db; simpl; apply lookup_insert_eq|done].
    + eapply init_booking_active; [done|done| |];
        [rewrite Hh; destruct db; simpl; apply lookup_insert_eq|done].
  - intros Hrole Howner. unfold activate_hotel, deactivate_hotel.
    by rewrite !(write_is_active_denied _ _ _ _ _ Hhotel Hrole Howner).
Qed.

Lemma activation_gates_booking_witness :
  let db := Sample.db 2 1 ∅ ∅ in
  hotels db !! 10 = Some (Hotel.mk 2 true)
  ∧ (∃ db_off,
       deactivate_hotel 10 Sample.owner db = (Returned (Hotel.mk 2 false), db_off)
       ∧ init_booking 50 Sample.alice (Sample.request 1) db_off
         = (Raised (HTTPException 404 HotelNotFoundOrInactive), db_off))
  ∧ activate_hotel 10 Sample.alice db
    = (HTTPError 403 "Not authorized to access this hotel", db).
Proof.
  cbv zeta.
  assert (hotels (Sample.db 2 1 ∅ ∅) !! 10 = Some (Hotel.mk 2 true)) as Hhotel
    by reflexivity.
  split; [done|].
  destruct (activation_gates_booking 10 Sample.owner _ _ Hhotel) as [Hgranted _].
  destruct (activation_gates_booking 10 Sample.alice _ _ Hhotel) as [_ Hdenied].
  destruct Hgranted as (db_on & db_off & _ & Hoff & _ & _ & _ & _ & Hgate);
    [by right|].
  destruct Hdenied as [Hdenied _]; [done..|].
  split; [|done]. exists db_off. split; [done|].
  apply Hgate; [done|simpl; lia..].
Defined.

(** X15: a hotel that [create_hotel] has just stored belongs to the caller,
    is stored under a new key and is not active: every reservation request
    for it whose dates are in order fails with 404 "Hotel not found or not
    active", and keeps failing until [activate_hotel] is called by the
    owner or an administrator; [deactivate_hotel] after that gives back the
    store as [create_hotel] left it. *)
Theorem create_hotel_inactive user db hotel_id hotel db1 :
  create_hotel user db = ((hotel_id, hotel), db1) →
  hotels db !! hotel_id = None
  ∧ hotel = Hotel.mk (User.id user) false
  ∧ hotels db1 = <[hotel_id := hotel]> (hotels db)
  ∧ (∀ today guest booking_data,
       BookingCreate.hotel_id booking_data = hotel_id →
       BookingCreate.check_in_date booking_data
       < BookingCreate.check_out_date booking_data →
       today ≤ BookingCreate.check_in_date booking_data →
       init_booking today guest booking_data db1
       = (Raised (HTTPException 404 HotelNotFoundOrInactive), db1))
  ∧ (∀ caller,
       User.role caller = UserRole.ADMIN ∨ User.id caller = User.id user →
       ∃ db2,
         activate_hotel hotel_id caller db1
         = (Returned (Hotel.mk (User.id user) true), db2)
         ∧ deactivate_hotel hotel_id caller db2 = (Returned hotel, db1)).
Proof.
  unfold create_hotel. intros [= <- <- <-].
  split; [apply next_id_fresh|]. split; [done|]. split; [by destruct db|].
  assert (hotels (set_hotels
                    <[next_id (hotels db) := Hotel.mk (User.id user) false]> db)
          !! next_id (hotels db) = Some (Hotel.mk (User.id user) false)) as Hhotel
    by (destruct db; apply lookup_insert_eq).
  split.
  - intros today guest booking_data Hh Hdates Htoday.
    eapply init_booking_inactive; [done|done| |]; [by rewrite Hh|done].
  - intros caller Hauth. unfold activate_hotel, deactivate_hotel.
    rewrite (write_is_active_granted _ _ _ _ _ Hhotel)
      by (simpl; destruct Hauth; auto).
    eexists. split; [done|]. simpl.
    erewrite write_is_active_granted;
      [|destruct db; apply lookup_insert_eq|simpl; destruct Hauth; auto].
    simpl. f_equal. destruct db as [h r inv g b p]; simpl.
    unfold set_hotels; simpl. by rewrite !insert_insert_eq.
Qed.

Lemma create_hotel_inactive_witness :
  let db := Sample.db 2 1 ∅ ∅ in
  ∃ hotel db1,
    create_hotel Sample.owner db = ((11, hotel), db1)
    ∧ init_booking 50 Sample.alice (BookingCreate.mk 11 20 100 102 1 None) db1
      = (Raised (HTTPException 404 HotelNotFoundOrInactive), db1).
Proof.
  cbv zeta.
  destruct (create_hotel Sample.owner (Sample.db 2 1 ∅ ∅)) as [[hotel_id hotel] db1]
    eqn:Hrun.
  pose proof Hrun as Hc. vm_compute in Hc. injection Hc as <- _ _.
  destruct (create_hotel_inactive _ _ _ _ _ Hrun) as (_ & _ & _ & Hgate & _).
  exists hotel, db1. split; [done|]. apply Hgate; [done|simpl; lia..].
Defined.

(** * Reading a payment back *)

(** X16: a payment can be read back by the guest who booked, and by nobody
    else.  Before [initiate_payment], [get_payment_by_booking] answers 404
    "Payment not found for this booking"; after [initiate_payment] has
    returned for a booking that had no payment, it returns to the same
    caller the one payment of the booking, [PENDING], with the amount and
    the session identifier of the response.  Any other caller gets 403, an
    administrator included, although [get_booking_by_id] hands the booking
    itself to an administrator. *)
Theorem payment_read_back uuid_hex now db_now booking_id user payment_method db
    response db' :
  no_row (of_booking booking_id) (payments db) →
  initiate_payment uuid_hex now db_now booking_id user payment_method db
  = (Ok response, db') →
  get_payment_by_booking booking_id user db
  = (HTTPError 404 "Payment not found for this booking", db)
  ∧ (∃ payment_id payment,
       get_payment_by_booking booking_id user db'
       = (Returned (payment_id, payment), db')
       ∧ payments db !! payment_id = None
       ∧ Payment.status payment = PaymentStatus.PENDING
       ∧ Payment.amount payment = PaymentSessionResponse.amount response
       ∧ Payment.payment_session_id payment
         = PaymentSessionResponse.payment_session_id response)
  ∧ ∀ other,
      User.id other ≠ User.id user →
      get_payment_by_booking booking_id other db'
      = (HTTPError 403 "Not authorized to view this payment", db')
      ∧ (User.role other = UserRole.ADMIN →
         ∃ booking, get_booking_by_id booking_id other db' = (Ok booking, db')).
Proof.
  intros Hno Hrun.
  destruct (initiate_payment_ok_inv _ _ _ _ _ _ _ _ _ Hrun)
    as (booking & Hb & Hu & Hs).
  rewrite (initiate_payment_first _ _ _ _ _ _ _ _ Hb Hu Hs Hno) in Hrun.
  injection Hrun as <- <-.
  set (session := new_session_id uuid_hex).
  set (payment := new_payment db_now booking_id booking payment_method session).
  set (booking' := Booking.set_payment_session_id (Some session) booking).
  set (db' := set_bookings _ _).
  assert (bookings db' !! booking_id = Some booking') as Hb'
    by (subst db'; destruct db; apply lookup_insert_eq).
  assert (select_where (of_booking booking_id) (payments db')
          = [(next_id (payments db), payment)]) as Hrows.
  { apply (select_where_one _). subst db'. destruct db as [h r inv g b p].
    simpl in *. by apply (no_row_insert _). }
  split; [|split].
  - unfold get_payment_by_booking. rewrite Hb.
    rewrite bool_decide_eq_false_2 by (by intros []).
    apply (select_where_nil _) in Hno. by rewrite Hno.
  - exists (next_id (payments db)), payment. split.
    + unfold get_payment_by_booking. rewrite Hb'.
      rewrite bool_decide_eq_false_2 by (by intros []). by rewrite Hrows.
    + split; [apply next_id_fresh|]. done.
  - intros other Hother. split.
    + unfold get_payment_by_booking. rewrite Hb'.
      by rewrite bool_decide_eq_true_2 by (simpl; congruence).
    + intros Hadmin. exists booking'.
      apply get_booking_by_id_granted; [done|]. right. by left.
Qed.

Lemma payment_read_back_witness :
  let db := Sample.db 2 1 {[ 1 := Sample.booking 1 BookingStatus.PENDING ]} ∅ in
  ∃ response db' payment,
    initiate_payment "0123456789abcdef0123" 1000 1001 1 Sample.alice
      PaymentMethod.UPI db
    = (Ok response, db')
    ∧ get_payment_by_booking 1 Sample.alice db' = (Returned (1, payment), db')
    ∧ get_payment_by_booking 1 Sample.owner db'
      = (HTTPError 403 "Not authorized to view this payment", db').
Proof.
  cbv zeta.
  destruct (initiate_payment "0123456789abcdef0123" 1000 1001 1 Sample.alice
              PaymentMethod.UPI
              (Sample.db 2 1 {[ 1 := Sample.booking 1 BookingStatus.PENDING ]} ∅))
    as [r db'] eqn:Hrun.
  pose proof Hrun as Hc. vm_compute in Hc. injection Hc as Hr _.
  destruct r as [response|e]; [|discriminate]. clear Hr.
  assert (no_row (of_booking 1)
            (payments
               (Sample.db 2 1 {[ 1 := Sample.booking 1 BookingStatus.PENDING ]} ∅)))
    as Hno by (apply (select_where_nil _); reflexivity).
  destruct (payment_read_back _ _ _ _ _ _ _ _ _ Hno Hrun)
    as (_ & (payment_id & payment & Hget & Hfresh & _) & Hother).
  destruct (Hother Sample.owner) as [Hdenied _]; [done|].
  assert (payment_id = 1) as ->.
  { revert Hget. unfold get_payment_by_booking.
    pose proof Hrun as Hc. vm_compute in Hc. injection Hc as _ <-.
    vm_compute. by intros [= <- _]. }
  by exists response, db', payment.
Defined.

(** * The status of a booking after the gateway has answered *)

Lemma only_payment_of_booking db payment_id payment :
  payments_consistent db →
  payments db !! payment_id = Some payment →
  only_row (of_booking (Payment.booking_id payment)) (payments db)
    payment_id payment.
Proof.
  intros (_ & Hone & _) Hpid. split; [done|]. split; [done|].
  intros k' r' Hk' Heq. simpl in Heq. by eapply Hone.
Qed.

Lemma get_booking_status_eq booking_id user db booking payment_id payment :
  bookings db !! booking_id = Some booking →
  may_access_booking user booking db →
  only_row (of_booking booking_id) (payments db) payment_id payment →
  get_booking_status booking_id user db
  = (Ok (BookingStatusResponse.mk booking_id (Booking.status booking)
           (Some (PaymentStatus_value (Payment.status payment)))), db).
Proof.
  intros Hb Hacc Hrow. unfold get_booking_status.
  erewrite bind_ok by (by apply get_booking_by_id_granted).
  unfold bind at 1. unfold gets at 1. unfold booking_payment.
  apply (select_where_one _) in Hrow. by rewrite Hrow.
Qed.

(** X17: what [get_booking_status] reports once the gateway's answer is
    processed.  On a store that has one payment per booking at most, after
    [process_webhook] has handled the delivery for a [PENDING] payment, the
    delivered transaction identifier being on no other payment, the guest
    who booked reads the pair [CONFIRMED]/"COMPLETED" when the delivered
    outcome is "success" and the pair [EXPIRED]/"FAILED" for any other
    outcome; the read itself writes nothing. *)
Theorem booking_status_after_webhook now webhook_data db payment_id payment
    booking user :
  payments_consistent db →
  only_row (of_session (PaymentWebhookPayload.payment_session_id webhook_data))
           (payments db) payment_id payment →
  Payment.status payment = PaymentStatus.PENDING →
  bookings db !! Payment.booking_id payment = Some booking →
  no_row (others_with_transaction payment_id
            (PaymentWebhookPayload.transaction_id webhook_data)) (payments db) →
  Booking.user_id booking = User.id user →
  let db' := (process_webhook now webhook_data db).2 in
  get_booking_status (Payment.booking_id payment) user db'
  = (Ok (if bool_decide (PaymentWebhookPayload.status webhook_data = "success"%string)
         then BookingStatusResponse.mk (Payment.booking_id payment)
                BookingStatus.CONFIRMED (Some "COMPLETED"%string)
         else BookingStatusResponse.mk (Payment.booking_id payment)
                BookingStatus.EXPIRED (Some "FAILED"%string)),
     db').
Proof.
  intros Hc Hrow Hpending Hb Hfree Hu db'. subst db'.
  rewrite (process_webhook_pending _ _ _ _ _ _ Hrow Hpending Hb Hfree).
  pose proof (only_payment_of_booking _ _ _ Hc (proj1 Hrow)) as Honly.
  case_bool_decide; simpl.
  - rewrite (get_booking_status_eq _ user _
               (Booking.set_status BookingStatus.CONFIRMED booking) payment_id
               (settled now (PaymentWebhookPayload.transaction_id webhook_data)
                  payment)); [done| | |].
    + destruct db; apply lookup_insert_eq.
    + by left.
    + destruct db as [h r inv g b p]; simpl in *.
      by apply (only_row_insert _ _ _ _ _ Honly).
  - rewrite (get_booking_status_eq _ user _
               (Booking.set_status BookingStatus.EXPIRED booking) payment_id
               (failed (PaymentWebhookPayload.transaction_id webhook_data)
                  payment)); [done| | |].
    + destruct db; apply lookup_insert_eq.
    + by left.
    + destruct db as [h r inv g b p]; simpl in *.
      by apply (only_row_insert _ _ _ _ _ Honly).
Qed.

Lemma booking_status_after_webhook_witness :
  let db := Sample.db 2 1 {[ 1 := Sample.booking 1 BookingStatus.PENDING ]}
              {[ 1 := Sample.payment PaymentStatus.PENDING ]} in
  (get_booking_status 1 Sample.alice
     (process_webhook 2000 (Sample.webhook "success") db).2).1
  = Ok (BookingStatusResponse.mk 1 BookingStatus.CONFIRMED (Some "COMPLETED"%string))
  ∧ (get_booking_status 1 Sample.alice
       (process_webhook 2000 (Sample.webhook "declined") db).2).1
    = Ok (BookingStatusResponse.mk 1 BookingStatus.EXPIRED (Some "FAILED"%string)).
Proof.
  cbv zeta.
  set (db := Sample.db 2 1 {[ 1 := Sample.booking 1 BookingStatus.PENDING ]}
               {[ 1 := Sample.payment PaymentStatus.PENDING ]}).
  assert (payments db !! 1 = Some (Sample.payment PaymentStatus.PENDING)) as Hp
    by reflexivity.
  assert (bookings db !! 1 = Some (Sample.booking 1 BookingStatus.PENDING)) as Hb
    by reflexivity.
  assert (payments_consistent db) as Hc.
  { split; [|split].
    - intros k p Hk. simpl in Hk. apply lookup_singleton_Some in Hk as [<- <-].
      by eexists.
    - intros k p k' p' Hk Hk' _. simpl in Hk, Hk'.
      apply lookup_singleton_Some in Hk as [<- _].
      by apply lookup_singleton_Some in Hk' as [<- _].
    - intros k p b Hk _ _. simpl in Hk.
      by apply lookup_singleton_Some in Hk as [_ <-]. }
  assert (∀ outcome,
            only_row (of_session (PaymentWebhookPayload.payment_session_id
                                    (Sample.webhook outcome)))
              (payments db) 1 (Sample.payment PaymentStatus.PENDING)) as Hrow.
  { intros outcome. split; [done|]. split; [done|].
    intros k p Hk _. simpl in Hk. by apply lookup_singleton_Some in Hk as [<- _]. }
  assert (∀ outcome,
            no_row (others_with_transaction 1
                      (PaymentWebhookPayload.transaction_id
                         (Sample.webhook outcome))) (payments db)) as Hfree.
  { intros outcome k p Hk [Hne _]. simpl in Hk, Hne.
    by apply lookup_singleton_Some in Hk as [<- _]. }
  split.
  - exact (f_equal fst
             (booking_status_after_webhook 2000 (Sample.webhook "success") db 1
                (Sample.payment PaymentStatus.PENDING)
                (Sample.booking 1 BookingStatus.PENDING) Sample.alice
                Hc (Hrow _) eq_refl Hb (Hfree _) eq_refl)).
  - exact (f_equal fst
             (booking_status_after_webhook 2000 (Sample.webhook "declined") db 1
                (Sample.payment PaymentStatus.PENDING)
                (Sample.booking 1 BookingStatus.PENDING) Sample.alice
                Hc (Hrow _) eq_refl Hb (Hfree _) eq_refl)).
Defined.

(** * A new guest and the bookings it can join *)

(** X18: a guest that [create_guest] has just stored belongs to the caller
    and is stored under a new key; the caller can attach it to a booking of
    theirs that is [PENDING] or [CONFIRMED], and it is appended after the
    guests already there.  A different user who can reach the same booking
    (the hotel's owner, an administrator) cannot attach that guest: the call
    fails with [NotFound] and nothing is written.  (The guests attached to
    the booking are stored guests, as the foreign key of [booking_guests]
    has it.) *)
Theorem create_guest_then_attach user db guest_id guest db1 booking_id booking :
  create_guest user db = ((guest_id, guest), db1) →
  bookings db !! booking_id = Some booking →
  (∀ g, g ∈ Booking.guests booking → is_Some (guests db !! g)) →
  Booking.user_id booking = User.id user →
  Booking.status booking = BookingStatus.PENDING
  ∨ Booking.status booking = BookingStatus.CONFIRMED →
  guests db !! guest_id = None
  ∧ Guest.user_id guest = User.id user
  ∧ (let booking' :=
       Booking.set_guests (Booking.guests booking ++ [guest_id]) booking in
     add_guests_to_booking booking_id user [guest_id] db1
     = (Ok booking', set_bookings <[booking_id := booking']> db1))
  ∧ ∀ other,
      User.id other ≠ User.id user →
      may_access_booking other booking db →
      add_guests_to_booking booking_id other [guest_id] db1
      = (Raised NotFound_guests, db1).
Proof.
  unfold create_guest. intros [= <- <- <-] Hb Hfk Hu Hs.
  set (guest_id := next_id (guests db)).
  set (db1 := set_guest_rows _ db).
  assert (guests db1 !! guest_id = Some (Guest.mk (User.id user))) as Hg
    by (subst db1; destruct db; apply lookup_insert_eq).
  assert (bookings db1 !! booking_id = Some booking) as Hb1
    by (subst db1; by destruct db).
  split; [apply next_id_fresh|]. split; [done|]. split.
  - assert (get_booking_by_id booking_id user db1 = (Ok booking, db1)) as Hget
      by (apply get_booking_by_id_granted; [done|by left]).
    assert (fetched_guests db1 user [guest_id] = [guest_id]) as Hfetched.
    { apply Permutation_singleton_r, fetched_guests_Permutation.
      - apply NoDup_singleton.
      - intros g Hin. apply elem_of_cons in Hin as [->|Hin];
          [|by apply elem_of_nil in Hin]. by eexists. }
    rewrite (add_guests_attach _ _ _ _ _ Hget Hs); [by rewrite Hfetched| | |].
    + apply NoDup_singleton.
    + intros g Hin. apply elem_of_cons in Hin as [->|Hin];
        [|by apply elem_of_nil in Hin]. by eexists.
    + intros g Hin Hattached. apply elem_of_cons in Hin as [->|Hin];
        [|by apply elem_of_nil in Hin].
      destruct (Hfk _ Hattached) as [row Hrow].
      subst guest_id. by rewrite next_id_fresh in Hrow.
  - intros other Hother Hacc.
    assert (get_booking_by_id booking_id other db1 = (Ok booking, db1)) as Hget.
    { apply get_booking_by_id_granted; [done|].
      destruct Hacc as [?|[?|?]]; [by left|by right; left|].
      right; right. subst db1. by destruct db. }
    rewrite (add_guests_eq _ _ _ _ _ Hget Hs).
    rewrite bool_decide_eq_true_2; [done|].
    intros Hlen. apply fetched_guests_length in Hlen as [_ Hown].
    destruct (Hown guest_id) as (row & Hrow & Howner);
      [apply elem_of_cons; tauto|].
    rewrite Hg in Hrow. injection Hrow as <-. simpl in Howner. congruence.
Qed.

Lemma create_guest_then_attach_witness :
  let db := Sample.db 2 1 {[ 1 := Sample.booking 1 BookingStatus.PENDING ]} ∅ in
  ∃ guest db1 booking' db2,
    create_guest Sample.alice db = ((33, guest), db1)
    ∧ add_guests_to_booking 1 Sample.alice [33] db1 = (Ok booking', db2)
    ∧ Booking.guests booking' = [33]
    ∧ add_guests_to_booking 1 Sample.owner [33] db1 = (Raised NotFound_guests, db1).
Proof.
  cbv zeta.
  destruct (create_guest Sample.alice
              (Sample.db 2 1 {[ 1 := Sample.booking 1 BookingStatus.PENDING ]} ∅))
    as [[guest_id guest] db1] eqn:Hrun.
  pose proof Hrun as Hc. vm_compute in Hc. injection Hc as <- _ _.
  assert (bookings
            (Sample.db 2 1 {[ 1 := Sample.booking 1 BookingStatus.PENDING ]} ∅)
          !! 1 = Some (Sample.booking 1 BookingStatus.PENDING)) as Hb
    by reflexivity.
  destruct (create_guest_then_attach _ _ _ _ _ 1 _ Hrun Hb) as
    (_ & _ & Hattach & Hother); [|done|by left|].
  { intros g Hg. by apply elem_of_nil in Hg. }
  eexists guest, db1, _, _. split; [done|]. split; [exact Hattach|].
  split; [done|]. apply Hother; [done|].
  right; right. by exists (Hotel.mk 2 true).
Defined.
